(** * QA_API_Advanced: the validation and HTTP-client layer

    A shallow embedding of [utils/validators.py], [utils/api_client.py],
    [utils/api_endpoints.py] and [data/test_data.py], with the Python
    values, exceptions and library calls they rest on. *)

From Stdlib Require Import ZArith QArith List String Ascii Bool Lia.
From Stdlib Require Import DecimalString.
From Stdlib Require Import Floats.SpecFloat.
Import ListNotations.

#[local] Set Warnings "-register-all".

Local Open Scope string_scope.
Local Open Scope Z_scope.

(** ** Python strings and integers *)

Module PyStr.

(** A [str] is a sequence of code points; the model keeps the code points
    below 256, one [ascii] each. *)

Definition chr (n : N) : ascii := ascii_of_N n.
Definition ord (c : ascii) : N := N_of_ascii c.

(** [str.lower] on one code point: A-Z, and the Latin-1 capitals
    0xC0-0xDE other than the multiplication sign 0xD7. *)
Definition lower_char (c : ascii) : ascii :=
  let n := ord c in
  if ((65 <=? n) && (n <=? 90))%N then chr (n + 32)
  else if ((192 <=? n) && (n <=? 222) && negb (n =? 215))%N then chr (n + 32)
  else c.

Fixpoint lower (s : string) : string :=
  match s with
  | EmptyString => EmptyString
  | String c r => String (lower_char c) (lower r)
  end.

(** [sub in s] for two [str]: [sub] occurs in [s] as a contiguous run. *)
Fixpoint str_contains (s sub : string) : bool :=
  String.prefix sub s
  || match s with
     | EmptyString => false
     | String _ r => str_contains r sub
     end.

Fixpoint join (sep : string) (l : list string) : string :=
  match l with
  | [] => ""
  | [x] => x
  | x :: r => x ++ sep ++ join sep r
  end.

Fixpoint has_char (c : ascii) (s : string) : bool :=
  match s with
  | EmptyString => false
  | String d r => Ascii.eqb c d || has_char c r
  end.

Fixpoint zeros (n : nat) : string :=
  match n with
  | O => ""
  | S m => String "0"%char (zeros m)
  end.

(** [str(n)] and [repr(n)] for an [int]. *)
Definition str_int (n : Z) : string := NilZero.string_of_int (Z.to_int n).

Definition hex_digit (n : N) : ascii :=
  if (n <? 10)%N then chr (48 + n) else chr (87 + n).

(** [str.isprintable] on one code point below 256: the controls
    0x00-0x1F and 0x7F-0x9F, the no-break space 0xA0 and the soft hyphen
    0xAD are not printable. *)
Definition isprintable (c : ascii) : bool :=
  let n := ord c in
  negb ((n <? 32) || ((127 <=? n) && (n <=? 160)) || (n =? 173))%N.

(** [repr(s)] for a [str]: single quotes unless [s] holds a single quote
    and no double quote; the quote and the backslash escaped, tab, newline
    and carriage return by name, other unprintable code points as [\xNN]. *)
Definition repr_char (quote c : ascii) : string :=
  if Ascii.eqb c quote || Ascii.eqb c "\"%char then String "\"%char (String c "")
  else if Ascii.eqb c (chr 9) then "\t"
  else if Ascii.eqb c (chr 10) then "\n"
  else if Ascii.eqb c (chr 13) then "\r"
  else if isprintable c then String c ""
  else String "\"%char (String "x"%char
         (String (hex_digit (ord c / 16)) (String (hex_digit (ord c mod 16)) ""))).

Fixpoint repr_chars (quote : ascii) (s : string) : string :=
  match s with
  | EmptyString => EmptyString
  | String c r => repr_char quote c ++ repr_chars quote r
  end.

Definition repr_str (s : string) : string :=
  let quote := if has_char "'"%char s && negb (has_char (chr 34) s)
               then chr 34 else "'"%char in
  String quote (repr_chars quote s ++ String quote "").

End PyStr.

(** ** Python floats *)

Module PyFloat.
Import PyStr.

(** A [float] is an IEEE 754 binary64 number; every operation rounds to
    nearest, ties to even. *)
Definition prec : Z := 53.
Definition emax : Z := 1024.
Definition float : Type := spec_float.

(** [float(n)] for an [int]. *)
Definition of_int (n : Z) : float := binary_normalize prec emax n 0 false.

(** [p / q] for two [int]s with [0 < q]: the quotient rounded once. The
    quotient is taken with more than 64 bits and a sticky last bit, so the
    rounding of that integer is the rounding of the exact quotient. *)
Definition true_divide (p q : Z) : float :=
  let k := Z.log2 q + 65 in
  let n := Z.shiftl (Z.abs p) k in
  let m := 2 * (n / q) + (if n mod q =? 0 then 0 else 1) in
  binary_normalize prec emax (if p <? 0 then - m else m) (- (k + 1)) false.

(** [x * n] for a [float] and an [int]. *)
Definition mul_int (x : float) (n : Z) : float := SFmul prec emax x (of_int n).

(** [x < n], [n < x] and [x == n] for a [float] and an [int]: Python
    compares the exact values. *)
Definition lt_int (x : float) (n : Z) : bool :=
  match x with
  | S754_zero _ => 0 <? n
  | S754_infinity s => s
  | S754_nan => false
  | S754_finite s m e =>
      let v := if s then Z.neg m else Z.pos m in
      if 0 <=? e then v * 2 ^ e <? n else v <? n * 2 ^ (- e)
  end.

Definition gt_int (x : float) (n : Z) : bool :=
  match x with
  | S754_zero _ => n <? 0
  | S754_infinity s => negb s
  | S754_nan => false
  | S754_finite s m e =>
      let v := if s then Z.neg m else Z.pos m in
      if 0 <=? e then n <? v * 2 ^ e else n * 2 ^ (- e) <? v
  end.

Definition eq_int (x : float) (n : Z) : bool :=
  match x with
  | S754_zero _ => n =? 0
  | S754_infinity _ => false
  | S754_nan => false
  | S754_finite s m e =>
      let v := if s then Z.neg m else Z.pos m in
      if 0 <=? e then v * 2 ^ e =? n else v =? n * 2 ^ (- e)
  end.

(** [x == y] for two [float]s: a NaN equals nothing, the two zeros are
    equal. *)
Definition eqb (x y : float) : bool := SFeqb x y.

(** [x.is_integer()] *)
Definition is_integer (x : float) : bool :=
  match x with
  | S754_zero _ => true
  | S754_infinity _ => false
  | S754_nan => false
  | S754_finite _ m e => if 0 <=? e then true else Z.pos m mod 2 ^ (- e) =? 0
  end.

(** The exact value of a finite [float]. *)
Definition value (x : float) : option Q :=
  match x with
  | S754_zero _ => Some (inject_Z 0)
  | S754_finite s m e =>
      let v := if s then Z.neg m else Z.pos m in
      Some (if 0 <=? e then inject_Z (v * 2 ^ e) else Qmake v (Z.to_pos (2 ^ (- e))))
  | _ => None
  end.

Fixpoint zfill (width : nat) (s : string) : string :=
  match (width - String.length s)%nat with
  | O => s
  | S _ => match width with
           | O => s
           | S w => String "0"%char (zfill w s)
           end
  end.

(** [format(x, '.2f')]: the exact value rounded to two decimals, ties to
    even, with the sign of [x]. *)
Definition format_2f (x : float) : string :=
  match x with
  | S754_zero s => if s then "-0.00" else "0.00"
  | S754_infinity s => if s then "-inf" else "inf"
  | S754_nan => "nan"
  | S754_finite s m e =>
      let num := if 0 <=? e then 100 * Z.pos m * 2 ^ e else 100 * Z.pos m in
      let den := if 0 <=? e then 1 else 2 ^ (- e) in
      let q := num / den in
      let r := num mod den in
      let hundredths :=
        if (den <? 2 * r) || ((2 * r =? den) && Z.odd q) then q + 1 else q in
      (if s then "-" else "")
      ++ str_int (hundredths / 100) ++ "."
      ++ zfill 2 (str_int (hundredths mod 100))
  end.

(** [repr(x)]: the shortest decimal that reads back as [x], the nearest
    to [x] among the shortest; in exponent form when the decimal point
    would stand more than 16 places right or more than 3 places left of
    the first digit. *)

(** The least [j] from [j] on with [d <= v * 10 ^ j], within [fuel] steps. *)
Fixpoint least_scale (fuel : nat) (v d j : Z) : Z :=
  match fuel with
  | O => j
  | S f => if d <=? v * 10 ^ j then j else least_scale f v d (j + 1)
  end.

(** [floor (log10 (v / d))] for positive [v] and [d], a float's range. *)
Definition decimal_exponent (v d : Z) : Z :=
  if d <=? v then Z.of_nat (String.length (str_int (v / d))) - 1
  else - least_scale 400 v d 1.

Fixpoint strip_zeros (fuel : nat) (d k : Z) : Z * Z :=
  match fuel with
  | O => (d, k)
  | S f =>
      if (d mod 10 =? 0) && negb (d =? 0) then strip_zeros f (d / 10) (k + 1)
      else (d, k)
  end.

(** The decimal [d * 10 ^ k] with the fewest digits, from [n] digits on,
    that lies in the rounding interval from [lo / den] to [hi / den] of
    [v / den] (its ends included when [closed]), the nearest to [v / den]
    when two do, the even one when they are as near. *)
Fixpoint shortest (tries : nat) (n : Z) (v lo hi den k0 : Z) (closed : bool)
  : Z * Z :=
  let k := k0 - n + 1 in
  let up := if 0 <=? k then 10 ^ k else 1 in
  let down := if 0 <=? k then 1 else 10 ^ (- k) in
  let d1 := (v * down) / (den * up) in
  let d2 := d1 + 1 in
  let inside d :=
    let x := d * up * den in
    if closed then (lo * down <=? x) && (x <=? hi * down)
    else (lo * down <? x) && (x <? hi * down) in
  let dist d := Z.abs (d * up * den - v * down) in
  let pick :=
    match inside d1, inside d2 with
    | true, true =>
        if dist d1 <? dist d2 then Some d1
        else if dist d2 <? dist d1 then Some d2
        else Some (if Z.even d1 then d1 else d2)
    | true, false => Some d1
    | false, true => Some d2
    | false, false => None
    end in
  match pick, tries with
  | Some d, _ => (d, k)
  | None, O => (d1, k)
  | None, S t => shortest t (n + 1) v lo hi den k0 closed
  end.

(** The digits with the decimal point [decpt] places after their start. *)
Definition repr_digits (digits : string) (decpt : Z) : string :=
  let nd := Z.of_nat (String.length digits) in
  if (decpt <=? -4) || (16 <? decpt) then
    let exponent := decpt - 1 in
    let mantissa :=
      match digits with
      | String c EmptyString => digits
      | String c rest => String c ("." ++ rest)
      | EmptyString => digits
      end in
    mantissa ++ "e" ++ (if exponent <? 0 then "-" else "+")
    ++ (if Z.abs exponent <? 10 then "0" else "") ++ str_int (Z.abs exponent)
  else if decpt <=? 0 then "0." ++ zeros (Z.to_nat (- decpt)) ++ digits
  else if nd <=? decpt then digits ++ zeros (Z.to_nat (decpt - nd)) ++ ".0"
  else substring 0 (Z.to_nat decpt) digits ++ "."
       ++ substring (Z.to_nat decpt) (Z.to_nat (nd - decpt)) digits.

Definition repr (x : float) : string :=
  match x with
  | S754_zero s => if s then "-0.0" else "0.0"
  | S754_infinity s => if s then "-inf" else "inf"
  | S754_nan => "nan"
  | S754_finite s m e =>
      let m := Z.pos m in
      let boundary := (m =? 2 ^ 52) && (-1074 <? e) in
      let e' := e - 2 in
      let den := if 0 <=? e' then 1 else 2 ^ (- e') in
      let num := if 0 <=? e' then 2 ^ e' else 1 in
      let v := 4 * m * num in
      let lo := (if boundary then 4 * m - 1 else 4 * m - 2) * num in
      let hi := (4 * m + 2) * num in
      let k0 := decimal_exponent v den in
      let '(d, k) := shortest 17 1 v lo hi den k0 (Z.even m) in
      let '(d, k) := strip_zeros 400 d k in
      let digits := str_int d in
      (if s then "-" else "")
      ++ repr_digits digits (k + Z.of_nat (String.length digits))
  end.

End PyFloat.

(** ** Python values *)

Module Py.
Export PyStr.

(** The values a decoded JSON body is made of: [None], [bool], [int],
    [float], [str], [list] and [dict] with [str] keys. A [dict] keeps its
    items in insertion order, each key once. *)
Inductive json : Type :=
| JNull
| JBool (b : bool)
| JInt (n : Z)
| JFloat (x : PyFloat.float)
| JStr (s : string)
| JList (l : list json)
| JDict (d : list (string * json)).

Definition dict := list (string * json).

(** [key in d] and [d[key]] on an item list. *)
Fixpoint lookup {V : Type} (key : string) (d : list (string * V)) : option V :=
  match d with
  | [] => None
  | (k, v) :: r => if String.eqb key k then Some v else lookup key r
  end.

Definition contains_key {V : Type} (key : string) (d : list (string * V)) : bool :=
  match lookup key d with Some _ => true | None => false end.

Definition keys {V : Type} (d : list (string * V)) : list string := map fst d.

Definition int_of_bool (b : bool) : Z := if b then 1 else 0.

(** [a == b]. A [bool] is an [int] (True == 1), numbers compare by value;
    a [list] compares item by item, a [dict] by size and by the value
    under each key. *)
Fixpoint py_eq (a b : json) {struct a} : bool :=
  match a, b with
  | JNull, JNull => true
  | JBool x, JBool y => Bool.eqb x y
  | JBool x, JInt n => int_of_bool x =? n
  | JBool x, JFloat y => PyFloat.eq_int y (int_of_bool x)
  | JInt n, JBool x => n =? int_of_bool x
  | JInt n, JInt m => n =? m
  | JInt n, JFloat y => PyFloat.eq_int y n
  | JFloat x, JBool y => PyFloat.eq_int x (int_of_bool y)
  | JFloat x, JInt n => PyFloat.eq_int x n
  | JFloat x, JFloat y => PyFloat.eqb x y
  | JStr s, JStr t => String.eqb s t
  | JList l, JList l' =>
      (fix eq_items (l l' : list json) : bool :=
         match l, l' with
         | [], [] => true
         | x :: xs, y :: ys => py_eq x y && eq_items xs ys
         | _, _ => false
         end) l l'
  | JDict d, JDict d' =>
      Nat.eqb (List.length d) (List.length d')
      && (fix eq_values (d : list (string * json)) : bool :=
            match d with
            | [] => true
            | (k, v) :: r =>
                match lookup k d' with
                | Some v' => py_eq v v'
                | None => false
                end && eq_values r
            end) d
  | _, _ => false
  end.

(** [x in l] for a [list] [l]: some item equals [x]. *)
Definition py_in (x : json) (l : list json) : bool := existsb (py_eq x) l.

(** [bool(v)]: the truth value of [v]. *)
Definition truthy (v : json) : bool :=
  match v with
  | JNull => false
  | JBool b => b
  | JInt n => negb (n =? 0)
  | JFloat x => negb (PyFloat.eq_int x 0)
  | JStr s => negb (String.eqb s "")
  | JList l => match l with [] => false | _ => true end
  | JDict d => match d with [] => false | _ => true end
  end.

(** [repr(v)]; [str(v)] differs from it on a top-level [str] only. *)
Fixpoint repr (v : json) : string :=
  match v with
  | JNull => "None"
  | JBool b => if b then "True" else "False"
  | JInt n => str_int n
  | JFloat x => PyFloat.repr x
  | JStr s => repr_str s
  | JList l => "[" ++ join ", " (map repr l) ++ "]"
  | JDict d =>
      "{" ++ join ", "
        ((fix items (d : list (string * json)) : list string :=
            match d with
            | [] => []
            | (k, v) :: r => (repr_str k ++ ": " ++ repr v) :: items r
            end) d) ++ "}"
  end.

Definition str (v : json) : string :=
  match v with
  | JStr s => s
  | _ => repr v
  end.

(** An element of a path into an instance: a [dict] key or a [list] index. *)
Inductive path_elem : Type :=
| Key (k : string)
| Index (i : Z).

Definition repr_path_elem (p : path_elem) : string :=
  match p with
  | Key k => repr_str k
  | Index i => str_int i
  end.

(** [str(l)] for a list of keys and indices, and for a list of [str]. *)
Definition str_path (p : list path_elem) : string :=
  "[" ++ join ", " (map repr_path_elem p) ++ "]".

Definition str_keys (l : list string) : string :=
  "[" ++ join ", " (map repr_str l) ++ "]".

(** [type(v)] and [t.__name__]. *)
Inductive type_ : Type :=
| NoneType | t_bool | t_int | t_float | t_str | t_list | t_dict.

Definition type_of (v : json) : type_ :=
  match v with
  | JNull => NoneType
  | JBool _ => t_bool
  | JInt _ => t_int
  | JFloat _ => t_float
  | JStr _ => t_str
  | JList _ => t_list
  | JDict _ => t_dict
  end.

Definition type_name (t : type_) : string :=
  match t with
  | NoneType => "NoneType"
  | t_bool => "bool"
  | t_int => "int"
  | t_float => "float"
  | t_str => "str"
  | t_list => "list"
  | t_dict => "dict"
  end.

Definition type_eqb (a b : type_) : bool :=
  match a, b with
  | NoneType, NoneType | t_bool, t_bool | t_int, t_int | t_float, t_float
  | t_str, t_str | t_list, t_list | t_dict, t_dict => true
  | _, _ => false
  end.

(** ** Exceptions and results *)

(** The exceptions in play: the built-in ones, the two of [jsonschema]
    (neither derives from the other), those of [requests], and any other
    by the name of its class. *)
Inductive exn : Type :=
| AssertionError (msg : string)
| KeyError (key : string)
| ValidationError (message : string) (path : list path_elem)
| SchemaError
| Timeout
| ConnectionError
| OtherException (class : string).

Inductive result (A : Type) : Type :=
| Return (a : A)
| Raise (e : exn).
Arguments Return {A} a.
Arguments Raise {A} e.

Definition bind {A B : Type} (r : result A) (k : A -> result B) : result B :=
  match r with
  | Return a => k a
  | Raise e => Raise e
  end.

(** [d[key]] *)
Definition getitem (d : dict) (key : string) : result json :=
  match lookup key d with
  | Some v => Return v
  | None => Raise (KeyError key)
  end.

(** [assert cond, msg]: the message is built only when [cond] fails. *)
Definition assert (cond : bool) (msg : unit -> string) : result unit :=
  if cond then Return tt else Raise (AssertionError (msg tt)).

Definition is_assertion_error (e : exn) : bool :=
  match e with AssertionError _ => true | _ => false end.

Definition is_validation_error (e : exn) : bool :=
  match e with ValidationError _ _ => true | _ => false end.

Definition is_schema_error (e : exn) : bool :=
  match e with SchemaError => true | _ => false end.

End Py.

(** ** [datetime.timedelta] *)

Module datetime.

(** [datetime.timedelta], normalized as Python keeps it:
    [0 <= seconds < 86400] and [0 <= microseconds < 1000000]. *)
Record timedelta : Type := {
  days : Z;
  seconds : Z;
  microseconds : Z
}.

Definition to_microseconds (d : timedelta) : Z :=
  (days d * 86400 + seconds d) * 1000000 + microseconds d.

(** [timedelta.total_seconds()]: the microseconds divided by [10**6]. *)
Definition total_seconds (d : timedelta) : PyFloat.float :=
  PyFloat.true_divide (to_microseconds d) 1000000.

End datetime.

(** ** The parts of [requests] the suite reads *)

Module CaseInsensitiveDict.

(** [requests.structures.CaseInsensitiveDict]: items in insertion order,
    found by the lower-cased key, the key kept as last written. *)
Definition t : Type := list (string * string).

Definition same_key (a b : string) : bool := String.eqb (PyStr.lower a) (PyStr.lower b).

Fixpoint find (key : string) (h : t) : option string :=
  match h with
  | [] => None
  | (k, v) :: r => if same_key key k then Some v else find key r
  end.

(** [h.get(key, default)] *)
Definition get (h : t) (key default : string) : string :=
  match find key h with
  | Some v => v
  | None => default
  end.

(** [h[key] = value] *)
Fixpoint setitem (h : t) (key value : string) : t :=
  match h with
  | [] => [(key, value)]
  | (k, v) :: r =>
      if same_key key k then (key, value) :: r else (k, v) :: setitem r key value
  end.

(** [h.update(items)] *)
Definition update (h : t) (items : list (string * string)) : t :=
  fold_left (fun acc kv => setitem acc (fst kv) (snd kv)) items h.

End CaseInsensitiveDict.

Module requests.

(** [requests.Response], the attributes the validators read. *)
Record Response : Type := {
  status_code : Z;
  headers : CaseInsensitiveDict.t;
  text : string;
  elapsed : datetime.timedelta
}.

End requests.

(** ** The [jsonschema] library, as far as the suite's schemas go *)

Module jsonschema.
Import Py.

(** The keywords the schemas of [data/test_data.py] use, under the
    library's default dialect (draft 2020-12): [type], [properties],
    [required], [items], [minItems] and [format]. No other keyword is
    interpreted here; a schema that uses one lies outside this model. *)
Definition keywords : list string :=
  ["type"; "properties"; "required"; "items"; "minItems"; "format"].

Definition simple_types : list string :=
  ["array"; "boolean"; "integer"; "null"; "number"; "object"; "string"].

Definition mem (x : string) (l : list string) : bool := existsb (String.eqb x) l.

Fixpoint unique (l : list string) : bool :=
  match l with
  | [] => true
  | x :: r => negb (mem x r) && unique r
  end.

(** The strings of a list of JSON values, when all of them are strings. *)
Fixpoint strings (l : list json) : option (list string) :=
  match l with
  | [] => Some []
  | JStr s :: r => option_map (cons s) (strings r)
  | _ :: _ => None
  end.

(** The type checker: a [bool] is neither an integer nor a number, a
    [float] without a fraction is an integer. *)
Definition is_type (instance : json) (type : string) : bool :=
  match instance with
  | JNull => String.eqb type "null"
  | JBool _ => String.eqb type "boolean"
  | JInt _ => String.eqb type "integer" || String.eqb type "number"
  | JFloat x =>
      String.eqb type "number" || (String.eqb type "integer" && PyFloat.is_integer x)
  | JStr _ => String.eqb type "string"
  | JList _ => String.eqb type "array"
  | JDict _ => String.eqb type "object"
  end.

(** [check_schema]: the schema against the metaschema, for the keywords
    of the model. A schema is a boolean or an object; [type] names one
    simple type or a non-empty list of distinct ones; [properties] maps
    names to schemas; [required] lists distinct strings; [items] is a
    schema; [minItems] is a non-negative integer; [format] is a string.
    A keyword outside [keywords] is passed over, which is what the
    metaschema does with a name it does not know but not with the other
    keywords of the dialect: the function stands for the library on the
    schemas that [in_fragment] holds of, and the statements about schemas
    at large assume both. *)
Definition check_type_keyword (v : json) : bool :=
  match v with
  | JStr t => mem t simple_types
  | JList ts =>
      match strings ts with
      | Some names =>
          negb (Nat.eqb (List.length names) 0)
          && forallb (fun t => mem t simple_types) names && unique names
      | None => false
      end
  | _ => false
  end.

Definition check_required_keyword (v : json) : bool :=
  match v with
  | JList l => match strings l with Some names => unique names | None => false end
  | _ => false
  end.

Fixpoint check_schema (schema : json) : bool :=
  match schema with
  | JBool _ => true
  | JDict kws =>
      (fix each (kws : list (string * json)) : bool :=
         match kws with
         | [] => true
         | (k, v) :: rest =>
             (if String.eqb k "type" then check_type_keyword v
              else if String.eqb k "properties" then
                match v with
                | JDict props =>
                    (fix all (props : list (string * json)) : bool :=
                       match props with
                       | [] => true
                       | (_, sub) :: r => check_schema sub && all r
                       end) props
                | _ => false
                end
              else if String.eqb k "required" then check_required_keyword v
              else if String.eqb k "items" then check_schema v
              else if String.eqb k "minItems" then
                match v with
                | JInt n => 0 <=? n
                | JFloat x => PyFloat.is_integer x && negb (PyFloat.lt_int x 0)
                | _ => false
                end
              else if String.eqb k "format" then
                match v with JStr _ => true | _ => false end
              else true)
             && each rest
         end) kws
  | _ => false
  end.

(** Every keyword of the schema, at every depth, is one of [keywords]. *)
Fixpoint in_fragment (schema : json) : bool :=
  match schema with
  | JBool _ => true
  | JDict kws =>
      (fix each (kws : list (string * json)) : bool :=
         match kws with
         | [] => true
         | (k, v) :: rest =>
             mem k keywords
             && (if String.eqb k "properties" then
                   match v with
                   | JDict props =>
                       (fix all (props : list (string * json)) : bool :=
                          match props with
                          | [] => true
                          | (_, sub) :: r => in_fragment sub && all r
                          end) props
                   | _ => true
                   end
                 else if String.eqb k "items" then in_fragment v
                 else true)
             && each rest
         end) kws
  | _ => true
  end.

(** A validation error: its message, the path to the failing part of the
    instance, and whether that part is of the type its schema names
    ([_matches_type], which [best_match] looks at). *)
Record error : Type := {
  message : string;
  path : list path_elem;
  matches_type : bool
}.

Definition under (p : path_elem) (e : error) : error :=
  {| message := message e; path := p :: path e; matches_type := matches_type e |}.

(** [error._matches_type()] for an error of [instance] under [schema]:
    the schema has a [type] and the instance is of it. A schema without
    one, and a boolean schema, give [False]. *)
Definition matches_type_of (schema instance : json) : bool :=
  match schema with
  | JDict kws =>
      match lookup "type" kws with
      | Some (JStr t) => is_type instance t
      | Some (JList ts) =>
          match strings ts with
          | Some names => existsb (is_type instance) names
          | None => false
          end
      | _ => false
      end
  | _ => false
  end.

Definition type_errors (mt : bool) (v instance : json) : list error :=
  let types := match v with
               | JStr t => [t]
               | JList ts => match strings ts with Some names => names | None => [] end
               | _ => []
               end in
  if existsb (is_type instance) types then []
  else [{| message := repr instance ++ " is not of type "
                      ++ join ", " (map repr_str types);
           path := [];
           matches_type := mt |}].

Definition required_errors (mt : bool) (v instance : json) : list error :=
  match v, instance with
  | JList l, JDict obj =>
      match strings l with
      | Some names =>
          map (fun property =>
                 {| message := repr_str property ++ " is a required property";
                    path := [];
                    matches_type := mt |})
              (filter (fun property => negb (contains_key property obj)) names)
      | None => []
      end
  | _, _ => []
  end.

(** The wording is that of the releases from 4.21 on. *)
Definition minItems_errors (mt : bool) (v instance : json) : list error :=
  match instance with
  | JList l =>
      let len := Z.of_nat (List.length l) in
      let too_short :=
        match v with
        | JInt mI => len <? mI
        | JFloat mI => PyFloat.gt_int mI len
        | _ => false
        end in
      if too_short then
        [{| message := repr instance ++ " "
                       ++ (if py_eq v (JInt 1) then "should be non-empty"
                           else "is too short");
            path := [];
            matches_type := mt |}]
      else []
  | _ => []
  end.

(** [items: false] on a list: no item is allowed, and the one error of a
    list that has some lies at the list itself, not at its items. It
    shows the item when there is one, else the list. *)
Definition no_items_errors (mt : bool) (l : list json) : list error :=
  match l with
  | [] => []
  | [x] =>
      [{| message := "Expected at most 0 items but found 1 extra: " ++ repr x;
          path := [];
          matches_type := mt |}]
  | _ :: _ :: _ =>
      [{| message := "Expected at most 0 items but found "
                     ++ str_int (Z.of_nat (List.length l)) ++ " extra: "
                     ++ repr (JList l);
          path := [];
          matches_type := mt |}]
  end.

(** [iter_errors]: the errors of [instance] under [schema], keyword by
    keyword in the order the schema lists them. [format] asserts nothing:
    [validate] is called without a format checker. *)
Fixpoint iter_errors (schema instance : json) {struct schema} : list error :=
  match schema with
  | JBool true => []
  | JBool false =>
      [{| message := "False schema does not allow " ++ repr instance;
          path := [];
          matches_type := false |}]
  | JDict kws =>
      let mt := matches_type_of (JDict kws) instance in
      (fix each (kws : list (string * json)) : list error :=
         match kws with
         | [] => []
         | (k, v) :: rest =>
             ((if String.eqb k "type" then type_errors mt v instance
              else if String.eqb k "properties" then
                match v, instance with
                | JDict props, JDict obj =>
                    (fix all (props : list (string * json)) : list error :=
                       match props with
                       | [] => []
                       | (property, sub) :: r =>
                           (match lookup property obj with
                            | Some x => map (under (Key property)) (iter_errors sub x)
                            | None => []
                            end ++ all r)%list
                       end) props
                | _, _ => []
                end
              else if String.eqb k "required" then required_errors mt v instance
              else if String.eqb k "items" then
                match instance with
                | JList l =>
                    match v with
                    | JBool false => no_items_errors mt l
                    | _ =>
                        (fix all (index : Z) (l : list json) : list error :=
                           match l with
                           | [] => []
                           | x :: r =>
                               (map (under (Index index)) (iter_errors v x)
                                ++ all (index + 1) r)%list
                           end) 0 l
                    end
                | _ => []
                end
              else if String.eqb k "minItems" then minItems_errors mt v instance
              else [])
              ++ each rest)%list
         end) kws
  | _ => []
  end.

(** The order of paths, item by item: keys as [str] compares them, by
    code point, and indices as numbers. Two paths of one length into one
    instance part ways at a key of one object or at an index of one list,
    so a key is never compared with an index. *)
Definition path_elem_eqb (a b : path_elem) : bool :=
  match a, b with
  | Key s, Key t => String.eqb s t
  | Index i, Index j => i =? j
  | _, _ => false
  end.

Definition path_elem_ltb (a b : path_elem) : bool :=
  match a, b with
  | Key s, Key t => String.ltb s t
  | Index i, Index j => i <? j
  | _, _ => false
  end.

Fixpoint path_eqb (p q : list path_elem) : bool :=
  match p, q with
  | [], [] => true
  | a :: p', b :: q' => path_elem_eqb a b && path_eqb p' q'
  | _, _ => false
  end.

Fixpoint path_ltb (p q : list path_elem) : bool :=
  match p, q with
  | [], _ :: _ => true
  | a :: p', b :: q' =>
      if path_elem_eqb a b then path_ltb p' q' else path_elem_ltb a b
  | _, [] => false
  end.

(** [relevance(b) > relevance(e)], the key being the negated length of
    the path, the path, and whether the type is not matched; the two
    entries of the key between, on weak and strong keywords, are the same
    for every keyword of the model. *)
Definition more_relevant (b e : error) : bool :=
  let lb := List.length (path b) in
  let le := List.length (path e) in
  (lb <? le)%nat
  || ((lb =? le)%nat
      && (path_ltb (path e) (path b)
          || (path_eqb (path e) (path b)
              && negb (matches_type b) && matches_type e))).

(** [best_match]: the error of the greatest relevance, the first yielded
    among equals, as [max] picks it. An error higher up in the instance
    is the better match; among errors of one depth, the one with the
    greater path, then one whose instance is not of the type its schema
    names (the key of the releases from 4.22 on). *)
Fixpoint best_match (errors : list error) : option error :=
  match errors with
  | [] => None
  | e :: r =>
      match best_match r with
      | Some b => if more_relevant b e then Some b else Some e
      | None => Some e
      end
  end.

(** [validator_for(schema)]: the dialect is looked up by
    ["$schema" in schema], which [None] and a number do not support; a
    [str] or a [list] that holds the name is then subscripted with it.
    Either way a [TypeError], before the metaschema is reached. A mapping
    that names a dialect lies outside [in_fragment]. *)
Definition validator_for (schema : json) : result unit :=
  match schema with
  | JBool _ | JDict _ => Return tt
  | JStr s =>
      if str_contains s "$schema" then Raise (OtherException "TypeError")
      else Return tt
  | JList l =>
      if py_in (JStr "$schema") l then Raise (OtherException "TypeError")
      else Return tt
  | JNull | JInt _ | JFloat _ => Raise (OtherException "TypeError")
  end.

(** [validate(instance, schema)]: [SchemaError] for a schema the
    metaschema refuses, otherwise the best match among the instance's
    errors as a [ValidationError], otherwise nothing. *)
Definition validate (instance schema : json) : result unit :=
  bind (validator_for schema) (fun _ =>
  if check_schema schema then
    match best_match (iter_errors schema instance) with
    | None => Return tt
    | Some e => Raise (ValidationError (message e) (path e))
    end
  else Raise SchemaError).

End jsonschema.

(** ** [data/test_data.py] *)

Module TestData.
Import Py.

Fixpoint repeat_str (s : string) (n : nat) : string :=
  match n with
  | O => ""
  | S m => s ++ repeat_str s m
  end.

Definition VALID_USER_CREATE : dict :=
  [("name", JStr "John Doe");
   ("username", JStr "johndoe");
   ("email", JStr "john.doe@example.com");
   ("phone", JStr "1-234-567-8901");
   ("website", JStr "johndoe.com")].

Definition VALID_USER_UPDATE : dict :=
  [("name", JStr "Jane Smith");
   ("username", JStr "janesmith");
   ("email", JStr "jane.smith@example.com")].

Definition VALID_POST_CREATE : dict :=
  [("title", JStr "Test Post Title");
   ("body", JStr "This is a test post body with some content.");
   ("userId", JInt 1)].

Definition VALID_COMMENT_CREATE : dict :=
  [("name", JStr "Test Comment");
   ("email", JStr "commenter@example.com");
   ("body", JStr "This is a test comment.")].

Definition INVALID_USER_MISSING_NAME : dict :=
  [("username", JStr "testuser");
   ("email", JStr "test@example.com")].

Definition INVALID_USER_EMPTY_EMAIL : dict :=
  [("name", JStr "Test User");
   ("username", JStr "testuser");
   ("email", JStr "")].

Definition USER_WITH_SPECIAL_CHARS : dict :=
  [("name", JStr ("Jos" ++ String (chr 233) " Mar" ++ String (chr 237) "a O'Brien"));
   ("username", JStr "jose_maria");
   ("email", JStr "jose.maria@example.com")].

Definition USER_WITH_LONG_NAME : dict :=
  [("name", JStr (repeat_str "A" 100));
   ("username", JStr "longname");
   ("email", JStr "long@example.com")].

Definition typed (t : string) : json := JDict [("type", JStr t)].

Definition USER_SCHEMA : json :=
  JDict
    [("type", JStr "object");
     ("properties",
      JDict
        [("id", typed "integer");
         ("name", typed "string");
         ("username", typed "string");
         ("email", JDict [("type", JStr "string"); ("format", JStr "email")]);
         ("phone", typed "string");
         ("website", typed "string")]);
     ("required", JList [JStr "id"; JStr "name"; JStr "username"; JStr "email"])].

Definition POST_SCHEMA : json :=
  JDict
    [("type", JStr "object");
     ("properties",
      JDict
        [("id", typed "integer");
         ("userId", typed "integer");
         ("title", typed "string");
         ("body", typed "string")]);
     ("required", JList [JStr "id"; JStr "userId"; JStr "title"; JStr "body"])].

Definition COMMENT_SCHEMA : json :=
  JDict
    [("type", JStr "object");
     ("properties",
      JDict
        [("id", typed "integer");
         ("postId", typed "integer");
         ("name", typed "string");
         ("email", typed "string");
         ("body", typed "string")]);
     ("required",
      JList [JStr "id"; JStr "postId"; JStr "name"; JStr "email"; JStr "body"])].

Definition USERS_LIST_SCHEMA : json :=
  JDict [("type", JStr "array"); ("items", USER_SCHEMA); ("minItems", JInt 1)].

Definition VALID_USER_ID : Z := 1.
Definition VALID_POST_ID : Z := 1.
Definition INVALID_USER_ID : Z := 99999.
Definition INVALID_POST_ID : Z := 99999.

Definition MAX_RESPONSE_TIME_GET : Z := 3000.
Definition MAX_RESPONSE_TIME_POST : Z := 3000.

End TestData.

(** ** [utils/api_endpoints.py] *)

Module APIEndpoints.

Definition BASE_URL : string := "https://jsonplaceholder.typicode.com".

Definition USERS : string := "/users".
Definition USER_BY_ID : string := "/users/{user_id}".

Definition POSTS : string := "/posts".
Definition POST_BY_ID : string := "/posts/{post_id}".
Definition USER_POSTS : string := "/posts?userId={user_id}".

Definition COMMENTS : string := "/comments".
Definition COMMENT_BY_ID : string := "/comments/{comment_id}".
Definition POST_COMMENTS : string := "/posts/{post_id}/comments".

Definition ALBUMS : string := "/albums".
Definition ALBUM_BY_ID : string := "/albums/{album_id}".
Definition USER_ALBUMS : string := "/albums?userId={user_id}".

Definition PHOTOS : string := "/photos".
Definition PHOTO_BY_ID : string := "/photos/{photo_id}".

(** The registry as a mapping from names to path templates. *)
Definition registry : list (string * string) :=
  [("USERS", USERS); ("USER_BY_ID", USER_BY_ID);
   ("POSTS", POSTS); ("POST_BY_ID", POST_BY_ID); ("USER_POSTS", USER_POSTS);
   ("COMMENTS", COMMENTS); ("COMMENT_BY_ID", COMMENT_BY_ID);
   ("POST_COMMENTS", POST_COMMENTS);
   ("ALBUMS", ALBUMS); ("ALBUM_BY_ID", ALBUM_BY_ID); ("USER_ALBUMS", USER_ALBUMS);
   ("PHOTOS", PHOTOS); ("PHOTO_BY_ID", PHOTO_BY_ID)].

Definition get_full_url (endpoint : string) : string := BASE_URL ++ endpoint.

End APIEndpoints.

(** ** [utils/validators.py] *)

Module ResponseValidator.
Import Py.

(** What a validator that prints leaves behind: its result and the lines
    written to standard output. *)
Definition printed (A : Type) : Type := (result A * list string)%type.

Definition validate_status_code (response : requests.Response) (expected_code : Z)
  : result unit :=
  assert (requests.status_code response =? expected_code)
    (fun _ => "Expected status " ++ str_int expected_code
              ++ ", got " ++ str_int (requests.status_code response)
              ++ ". Response: " ++ requests.text response).

Section Schema.

(** [jsonschema.validate(instance=..., schema=...)] *)
Variable validate : json -> json -> result unit.

Definition validate_json_schema (response_json schema : json) : printed bool :=
  match validate response_json schema with
  | Return _ => (Return true, [])
  | Raise (ValidationError message path) =>
      (Return false,
       ["Schema validation failed: " ++ message;
        "Failed at path: " ++ str_path path])
  | Raise e => (Raise e, [])
  end.

End Schema.

Definition response_time_ms (response : requests.Response) : PyFloat.float :=
  PyFloat.mul_int (datetime.total_seconds (requests.elapsed response)) 1000.

Definition validate_response_time (response : requests.Response) (max_time_ms : Z)
  : result unit :=
  let response_time_ms := response_time_ms response in
  assert (PyFloat.lt_int response_time_ms max_time_ms)
    (fun _ => "Response time " ++ PyFloat.format_2f response_time_ms
              ++ "ms exceeds limit of " ++ str_int max_time_ms ++ "ms").

(** [expected_type] is [None] when the caller leaves the argument out. *)
Definition validate_content_type (response : requests.Response)
    (expected_type : option string) : result unit :=
  let expected_type :=
    match expected_type with Some t => t | None => "application/json" end in
  let content_type :=
    CaseInsensitiveDict.get (requests.headers response) "Content-Type" "" in
  assert (str_contains content_type expected_type)
    (fun _ => "Expected Content-Type '" ++ expected_type
              ++ "', got '" ++ content_type ++ "'").

Definition validate_field_exists (response_json : dict) (field_name : string)
  : result unit :=
  assert (contains_key field_name response_json)
    (fun _ => "Field '" ++ field_name
              ++ "' not found in response. Available fields: "
              ++ str_keys (keys response_json)).

Definition validate_field_type (response_json : dict) (field_name : string)
    (expected_type : type_) : result unit :=
  bind (validate_field_exists response_json field_name) (fun _ =>
  bind (getitem response_json field_name) (fun value =>
  let actual_type := type_of value in
  assert (type_eqb actual_type expected_type)
    (fun _ => "Field '" ++ field_name ++ "' expected type "
              ++ type_name expected_type ++ ", got " ++ type_name actual_type))).

Definition validate_not_empty (response_json : dict) (field_name : string)
  : result unit :=
  bind (validate_field_exists response_json field_name) (fun _ =>
  bind (getitem response_json field_name) (fun value =>
  assert (negb (py_in value [JNull; JStr ""; JList []; JDict []]))
    (fun _ => "Field '" ++ field_name ++ "' is empty: " ++ str value))).

End ResponseValidator.

(** ** [utils/api_client.py] *)

Module APIClient.
Import Py.

(** One call of [requests.Session.request] as the library sees it after
    merging the session's settings into the call's own: the verb, the URL,
    the headers (the session's, the client passes none of its own), the
    query parameters, the JSON body and the timeout. *)
Record Request : Type := {
  method : string;
  url : string;
  req_headers : CaseInsensitiveDict.t;
  req_params : option json;
  req_json : option json;
  req_timeout : option Z
}.

(** What the client configures on its [requests.Session]. *)
Record Session : Type := { headers : CaseInsensitiveDict.t }.

(** The attributes of an [APIClient] object. *)
Record Self : Type := {
  base_url : string;
  timeout : Z;
  session : Session
}.

(** What the outside sees of a session: the requests it sent and its
    release. *)
Inductive event : Type :=
| Sent (r : Request)
| Closed.

Section Client.

(** What [requests] keeps behind a session (adapters, pooled connections,
    the cookie jar) together with the remote server. *)
Variable Net : Type.

(** Sending one request: a response, or [Timeout] or [ConnectionError]. *)
Variable send : Request -> Net -> result requests.Response * Net.

(** [Session.close()] on the adapters. *)
Variable close_adapters : Net -> Net.

(** [requests.utils.default_headers()] *)
Variable default_headers : CaseInsensitiveDict.t.

(** The tracebacks of exceptions, [e.__traceback__]. *)
Variable traceback : Type.
Variable traceback_of : exn -> traceback.

Record State : Type := {
  self : Self;
  net : Net;
  trace : list event
}.

(** A method body: from the state before to a result and the state after. *)
Definition M (A : Type) : Type := State -> result A * State.

Definition ret {A : Type} (a : A) : M A := fun st => (Return a, st).

Definition raise {A : Type} (e : exn) : M A := fun st => (Raise e, st).

Definition bindM {A B : Type} (m : M A) (k : A -> M B) : M B :=
  fun st =>
    match m st with
    | (Return a, st') => k a st'
    | (Raise e, st') => (Raise e, st')
    end.

Definition get_self : M Self := fun st => (Return (self st), st).

Definition set_self (s : Self) : M unit :=
  fun st => (Return tt, {| self := s; net := net st; trace := trace st |}).

(** [requests.Session()]: a session with the library's default headers. *)
Definition new_session : Session := {| headers := default_headers |}.

(** [session.headers.update(items)] *)
Definition session_headers_update (s : Session) (items : list (string * string))
  : Session :=
  {| headers := CaseInsensitiveDict.update (headers s) items |}.

(** [session.request(method, url, params=..., json=..., timeout=...)]:
    the session's headers go out with the request, the request is sent
    once, and what [send] gives back (or raises) is the outcome. *)
Definition session_request (s : Session) (method url : string)
    (params json : option Py.json) (timeout : option Z) : M requests.Response :=
  fun st =>
    let request :=
      {| method := method; url := url; req_headers := headers s;
         req_params := params; req_json := json; req_timeout := timeout |} in
    let (response, net') := send request (net st) in
    (response,
     {| self := self st; net := net'; trace := trace st ++ [Sent request] |}).

Definition session_get (s : Session) (url : string) (params : option Py.json)
    (timeout : option Z) : M requests.Response :=
  session_request s "GET" url params None timeout.

Definition session_post (s : Session) (url : string) (json : option Py.json)
    (timeout : option Z) : M requests.Response :=
  session_request s "POST" url None json timeout.

Definition session_put (s : Session) (url : string) (json : option Py.json)
    (timeout : option Z) : M requests.Response :=
  session_request s "PUT" url None json timeout.

Definition session_patch (s : Session) (url : string) (json : option Py.json)
    (timeout : option Z) : M requests.Response :=
  session_request s "PATCH" url None json timeout.

Definition session_delete (s : Session) (url : string) (timeout : option Z)
  : M requests.Response :=
  session_request s "DELETE" url None None timeout.

(** [session.close()] *)
Definition session_close (s : Session) : M unit :=
  fun st =>
    (Return tt,
     {| self := self st; net := close_adapters (net st);
        trace := trace st ++ [Closed] |}).

(** [APIClient(base_url, timeout=10)]; [timeout] is [None] when the caller
    leaves it out. *)
Definition __init__ (base_url : string) (timeout : option Z) : M unit :=
  let timeout := match timeout with Some t => t | None => 10 end in
  let session := new_session in
  let session :=
    session_headers_update session
      [("Content-Type", "application/json"); ("Accept", "application/json")] in
  set_self {| base_url := base_url; timeout := timeout; session := session |}.

Definition get (endpoint : string) (params : option Py.json) : M requests.Response :=
  bindM get_self (fun self =>
  let url := base_url self ++ endpoint in
  bindM (session_get (session self) url params (Some (timeout self))) (fun response =>
  ret response)).

Definition post (endpoint : string) (json : option Py.json) : M requests.Response :=
  bindM get_self (fun self =>
  let url := base_url self ++ endpoint in
  bindM (session_post (session self) url json (Some (timeout self))) (fun response =>
  ret response)).

Definition put (endpoint : string) (json : option Py.json) : M requests.Response :=
  bindM get_self (fun self =>
  let url := base_url self ++ endpoint in
  bindM (session_put (session self) url json (Some (timeout self))) (fun response =>
  ret response)).

Definition patch (endpoint : string) (json : option Py.json) : M requests.Response :=
  bindM get_self (fun self =>
  let url := base_url self ++ endpoint in
  bindM (session_patch (session self) url json (Some (timeout self))) (fun response =>
  ret response)).

Definition delete (endpoint : string) : M requests.Response :=
  bindM get_self (fun self =>
  let url := base_url self ++ endpoint in
  bindM (session_delete (session self) url (Some (timeout self))) (fun response =>
  ret response)).

Definition close : M unit :=
  bindM get_self (fun self => session_close (session self)).

Definition __enter__ : M Self := get_self.

(** A body with no [return] gives [None]. *)
Definition __exit__ (exc_type : option string) (exc_val : option exn)
    (exc_tb : option traceback) : M json :=
  bindM close (fun _ => ret JNull).

(** The class name of an exception, [type(e).__name__]. *)
Definition class_name (e : exn) : string :=
  match e with
  | AssertionError _ => "AssertionError"
  | KeyError _ => "KeyError"
  | ValidationError _ _ => "ValidationError"
  | SchemaError => "SchemaError"
  | Timeout => "Timeout"
  | ConnectionError => "ConnectionError"
  | OtherException class => class
  end.

(** [with client as c: body]: [__enter__], the body on what it returned,
    then [__exit__] with the exception of the body, or with three
    [None]; an exception of the body is swallowed only when [__exit__]
    returns a true value, and the statement then has no value. *)
Definition with_ {A : Type} (body : Self -> M A) : M (option A) :=
  fun st =>
    match __enter__ st with
    | (Raise e, st1) => (Raise e, st1)
    | (Return c, st1) =>
        match body c st1 with
        | (Return a, st2) =>
            match __exit__ None None None st2 with
            | (Return _, st3) => (Return (Some a), st3)
            | (Raise e, st3) => (Raise e, st3)
            end
        | (Raise e, st2) =>
            match __exit__ (Some (class_name e)) (Some e) (Some (traceback_of e)) st2 with
            | (Return suppress, st3) =>
                if truthy suppress then (Return None, st3) else (Raise e, st3)
            | (Raise e', st3) => (Raise e', st3)
            end
        end
    end.

(** One call of a verb method, and a run of calls one after another, each
    on the state the one before left, whatever its outcome. *)
Inductive call : Type :=
| Get (endpoint : string) (params : option json)
| Post (endpoint : string) (json : option Py.json)
| Put (endpoint : string) (json : option Py.json)
| Patch (endpoint : string) (json : option Py.json)
| Delete (endpoint : string).

Definition perform (c : call) : M requests.Response :=
  match c with
  | Get endpoint params => get endpoint params
  | Post endpoint json => post endpoint json
  | Put endpoint json => put endpoint json
  | Patch endpoint json => patch endpoint json
  | Delete endpoint => delete endpoint
  end.

Definition endpoint_of (c : call) : string :=
  match c with
  | Get endpoint _ | Post endpoint _ | Put endpoint _ | Patch endpoint _
  | Delete endpoint => endpoint
  end.

Definition verb_of (c : call) : string :=
  match c with
  | Get _ _ => "GET"
  | Post _ _ => "POST"
  | Put _ _ => "PUT"
  | Patch _ _ => "PATCH"
  | Delete _ => "DELETE"
  end.

Fixpoint perform_all (cs : list call) (st : State) : State :=
  match cs with
  | [] => st
  | c :: r => perform_all r (snd (perform c st))
  end.

End Client.

Arguments self {Net}.
Arguments net {Net}.
Arguments trace {Net}.

End APIClient.

(** ** [str.format] with keyword arguments *)

Module PyFormat.
Import Py.

(** [template.format] with keyword arguments, as the tests call it on
    the endpoint templates: text, the doubled braces that stand for one, and
    replacement fields that name a keyword. A field with an attribute, an
    index, a conversion or a format specification is outside this model,
    and the result is then [None]. *)

Definition is_digit (c : ascii) : bool :=
  let n := ord c in ((48 <=? n) && (n <=? 57))%N.

Fixpoint all_digits (s : string) : bool :=
  match s with
  | EmptyString => true
  | String c r => is_digit c && all_digits r
  end.

(** The argument a field name stands for. An empty name or a number asks
    for a positional argument, and there is none. *)
Definition field_value (name : string) (kwargs : list (string * json)) : result json :=
  if all_digits name then Raise (OtherException "IndexError")
  else match lookup name kwargs with
       | Some v => Return v
       | None => Raise (KeyError name)
       end.

Definition prepend (s : string) (rest : option (result string))
  : option (result string) :=
  match rest with
  | Some (Return t) => Some (Return (s ++ t))
  | other => other
  end.

Definition starts_field_suffix (c : ascii) : bool :=
  Ascii.eqb c "."%char || Ascii.eqb c "["%char || Ascii.eqb c "!"%char
  || Ascii.eqb c ":"%char.

(** The template from left to right; [field] is the name read so far
    when inside a replacement field. The first error met is the one
    raised. *)
Fixpoint scan (s : string) (field : option string) (kwargs : list (string * json))
  : option (result string) :=
  match s, field with
  | EmptyString, None => Some (Return "")
  | EmptyString, Some _ => Some (Raise (OtherException "ValueError"))
  | String c r, None =>
      if Ascii.eqb c "{"%char then
        match r with
        | String d r' =>
            if Ascii.eqb d "{"%char then prepend "{" (scan r' None kwargs)
            else scan r (Some "") kwargs
        | EmptyString => Some (Raise (OtherException "ValueError"))
        end
      else if Ascii.eqb c "}"%char then
        match r with
        | String d r' =>
            if Ascii.eqb d "}"%char then prepend "}" (scan r' None kwargs)
            else Some (Raise (OtherException "ValueError"))
        | EmptyString => Some (Raise (OtherException "ValueError"))
        end
      else prepend (String c "") (scan r None kwargs)
  | String c r, Some name =>
      if Ascii.eqb c "}"%char then
        match field_value name kwargs with
        | Return v => prepend (str v) (scan r None kwargs)
        | Raise e => Some (Raise e)
        end
      else if Ascii.eqb c "{"%char then Some (Raise (OtherException "ValueError"))
      else if starts_field_suffix c then None
      else scan r (Some (name ++ String c "")) kwargs
  end.

Definition format (template : string) (kwargs : list (string * json))
  : option (result string) :=
  scan template None kwargs.

End PyFormat.

(** ** [conftest.py] and what the tests do to Python values *)

Module conftest.
Import Py.

(** What a test works on: the client the [api_client] fixture hands to
    it, the standard output, and the list of the [created_resources]
    fixture. *)
Record Run (Net : Type) : Type := {
  client : APIClient.State Net;
  stdout : list string;
  created_resources : list (string * json)
}.
Arguments client {Net}.
Arguments stdout {Net}.
Arguments created_resources {Net}.

(** The body of a test: from the run before to a result and the run after. *)
Definition T (Net A : Type) : Type := Run Net -> result A * Run Net.

Definition ret {Net A : Type} (a : A) : T Net A := fun run => (Return a, run).

Definition bind {Net A B : Type} (t : T Net A) (k : A -> T Net B) : T Net B :=
  fun run =>
    match t run with
    | (Return a, run') => k a run'
    | (Raise e, run') => (Raise e, run')
    end.

(** A call on the client. *)
Definition on_client {Net A : Type} (m : APIClient.M Net A) : T Net A :=
  fun run =>
    let (r, st) := m (client run) in
    (r, {| client := st; stdout := stdout run;
           created_resources := created_resources run |}).

(** A statement that touches nothing. *)
Definition check {Net A : Type} (r : result A) : T Net A := fun run => (r, run).

(** A call that prints. *)
Definition printing {Net A : Type} (p : ResponseValidator.printed A) : T Net A :=
  fun run =>
    (fst p,
     {| client := client run; stdout := (stdout run ++ snd p)%list;
        created_resources := created_resources run |}).

(** [created_resources.append(item)] *)
Definition append_created {Net : Type} (item : string * json) : T Net unit :=
  fun run =>
    (Return tt,
     {| client := client run; stdout := stdout run;
        created_resources := (created_resources run ++ [item])%list |}).

(** [template.format] on a template of the registry. A template outside
    the model of [str.format] is marked by a [NotImplementedError]; the
    registry has none. *)
Definition format (template : string) (kwargs : list (string * json)) : result string :=
  match PyFormat.format template kwargs with
  | Some r => r
  | None => Raise (OtherException "NotImplementedError")
  end.

(** [value[key]] for a [str] key: a [dict] is looked up, anything else
    refuses the key with a [TypeError]. *)
Definition subscript (value : json) (key : string) : result json :=
  match value with
  | JDict d => getitem d key
  | _ => Raise (OtherException "TypeError")
  end.

(** The validators on a decoded body that need not be a [dict].
    [field_name in response_json] looks for an equal item in a [list]
    and for a part in a [str], and is a [TypeError] on the rest; where
    the assertion then fails, building its message asks for [keys()],
    which a [list] and a [str] do not have. *)
Definition validate_field_exists (response_json : json) (field_name : string)
  : result unit :=
  match response_json with
  | JDict d => ResponseValidator.validate_field_exists d field_name
  | JList l =>
      if py_in (JStr field_name) l then Return tt
      else Raise (OtherException "AttributeError")
  | JStr s =>
      if str_contains s field_name then Return tt
      else Raise (OtherException "AttributeError")
  | _ => Raise (OtherException "TypeError")
  end.

Definition validate_field_type (response_json : json) (field_name : string)
    (expected_type : type_) : result unit :=
  match response_json with
  | JDict d => ResponseValidator.validate_field_type d field_name expected_type
  | _ =>
      Py.bind (validate_field_exists response_json field_name) (fun _ =>
      Py.bind (subscript response_json field_name) (fun _ => Return tt))
  end.

Definition validate_not_empty (response_json : json) (field_name : string)
  : result unit :=
  match response_json with
  | JDict d => ResponseValidator.validate_not_empty d field_name
  | _ =>
      Py.bind (validate_field_exists response_json field_name) (fun _ =>
      Py.bind (subscript response_json field_name) (fun _ => Return tt))
  end.

(** [assert left == right] with no message. *)
Definition assert_equal (left right : json) : result unit :=
  assert (py_eq left right) (fun _ => "").

Section Fixtures.

Variable Net : Type.
Variable send : APIClient.Request -> Net -> result requests.Response * Net.
Variable close_adapters : Net -> Net.
Variable default_headers : CaseInsensitiveDict.t.

(** The [api_client] fixture, of session scope: the client is made
    before the tests that use it, handed to them, and closed after the
    last of them, whatever became of them. [tests] is what runs between. *)
Definition api_client {A : Type} (tests : APIClient.M Net A) : APIClient.M Net A :=
  fun st =>
    let (_, st1) := APIClient.__init__ Net default_headers APIEndpoints.BASE_URL None st in
    let (r, st2) := tests st1 in
    let (_, st3) := APIClient.close Net close_adapters st2 in
    (r, st3).

End Fixtures.

End conftest.

(** ** [tests/test_users_crud.py] *)

Module TestUsersCRUD.
Import Py.
Import conftest.

Section Tests.

Variable Net : Type.
Variable send : APIClient.Request -> Net -> result requests.Response * Net.

(** [jsonschema.validate] *)
Variable validate : json -> json -> result unit.

(** [response.json()]: the decoded body, or the error of the decoder. *)
Variable json_of : requests.Response -> result json.

Notation "x <- t ;; k" := (conftest.bind t (fun x => k))
  (at level 61, t at next level, right associativity).

Definition test_get_all_users : T Net unit :=
  response <- on_client (APIClient.get Net send APIEndpoints.USERS None) ;;
  _ <- check (ResponseValidator.validate_status_code response 200) ;;
  _ <- check (ResponseValidator.validate_response_time response
                TestData.MAX_RESPONSE_TIME_GET) ;;
  _ <- check (ResponseValidator.validate_content_type response None) ;;
  data <- check (json_of response) ;;
  match data with
  | JList l =>
      _ <- check (assert (0 <? Z.of_nat (List.length l))
                    (fun _ => "User list should not be empty")) ;;
      match l with
      | first_user :: _ =>
          _ <- check (validate_field_exists first_user "id") ;;
          _ <- check (validate_field_exists first_user "name") ;;
          check (validate_field_exists first_user "email")
      | [] => check (Raise (OtherException "IndexError"))
      end
  | _ => check (Raise (AssertionError "Response should be a list"))
  end.

Definition test_get_single_user : T Net unit :=
  let user_id := TestData.VALID_USER_ID in
  endpoint <- check (format APIEndpoints.USER_BY_ID [("user_id", JInt user_id)]) ;;
  response <- on_client (APIClient.get Net send endpoint None) ;;
  _ <- check (ResponseValidator.validate_status_code response 200) ;;
  _ <- check (ResponseValidator.validate_response_time response
                TestData.MAX_RESPONSE_TIME_GET) ;;
  data <- check (json_of response) ;;
  valid <- printing (ResponseValidator.validate_json_schema validate data
                       TestData.USER_SCHEMA) ;;
  _ <- check (assert valid (fun _ => "Response doesn't match user schema")) ;;
  id <- check (subscript data "id") ;;
  _ <- (if py_eq id (JInt user_id) then ret tt
        else
          got <- check (subscript data "id") ;;
          check (Raise (AssertionError
                          ("Expected user ID " ++ str_int user_id
                           ++ ", got " ++ str got)))) ;;
  _ <- check (validate_not_empty data "name") ;;
  check (validate_not_empty data "email").

Definition test_get_user_not_found : T Net unit :=
  let invalid_id := TestData.INVALID_USER_ID in
  endpoint <- check (format APIEndpoints.USER_BY_ID [("user_id", JInt invalid_id)]) ;;
  response <- on_client (APIClient.get Net send endpoint None) ;;
  check (ResponseValidator.validate_status_code response 404).

Definition test_create_user : T Net unit :=
  response <- on_client (APIClient.post Net send APIEndpoints.USERS
                           (Some (JDict TestData.VALID_USER_CREATE))) ;;
  _ <- check (ResponseValidator.validate_status_code response 201) ;;
  _ <- check (ResponseValidator.validate_response_time response
                TestData.MAX_RESPONSE_TIME_POST) ;;
  data <- check (json_of response) ;;
  _ <- check (validate_field_exists data "id") ;;
  _ <- check (validate_field_type data "id" t_int) ;;
  name <- check (subscript data "name") ;;
  expected_name <- check (getitem TestData.VALID_USER_CREATE "name") ;;
  _ <- check (assert_equal name expected_name) ;;
  email <- check (subscript data "email") ;;
  expected_email <- check (getitem TestData.VALID_USER_CREATE "email") ;;
  _ <- check (assert_equal email expected_email) ;;
  id <- check (subscript data "id") ;;
  append_created ("user", id).

Definition test_update_user : T Net unit :=
  let user_id := TestData.VALID_USER_ID in
  endpoint <- check (format APIEndpoints.USER_BY_ID [("user_id", JInt user_id)]) ;;
  response <- on_client (APIClient.put Net send endpoint
                           (Some (JDict TestData.VALID_USER_UPDATE))) ;;
  _ <- check (ResponseValidator.validate_status_code response 200) ;;
  data <- check (json_of response) ;;
  name <- check (subscript data "name") ;;
  expected_name <- check (getitem TestData.VALID_USER_UPDATE "name") ;;
  check (assert_equal name expected_name).

Definition test_delete_user : T Net unit :=
  let user_id := TestData.VALID_USER_ID in
  endpoint <- check (format APIEndpoints.USER_BY_ID [("user_id", JInt user_id)]) ;;
  response <- on_client (APIClient.delete Net send endpoint) ;;
  check (ResponseValidator.validate_status_code response 200).

End Tests.

End TestUsersCRUD.

(** ** [tests/test_posts.py] *)

Module TestPosts.
Import Py.
Import conftest.

Section Tests.

Variable Net : Type.
Variable send : APIClient.Request -> Net -> result requests.Response * Net.
Variable validate : json -> json -> result unit.
Variable json_of : requests.Response -> result json.

Notation "x <- t ;; k" := (conftest.bind t (fun x => k))
  (at level 61, t at next level, right associativity).

Definition test_get_all_posts : T Net unit :=
  response <- on_client (APIClient.get Net send APIEndpoints.POSTS None) ;;
  _ <- check (ResponseValidator.validate_status_code response 200) ;;
  _ <- check (ResponseValidator.validate_response_time response
                TestData.MAX_RESPONSE_TIME_GET) ;;
  data <- check (json_of response) ;;
  match data with
  | JList l =>
      _ <- check (assert (0 <? Z.of_nat (List.length l))
                    (fun _ => "Posts list should not be empty")) ;;
      match l with
      | first_post :: _ =>
          _ <- check (validate_field_exists first_post "id") ;;
          _ <- check (validate_field_exists first_post "userId") ;;
          _ <- check (validate_field_exists first_post "title") ;;
          check (validate_field_exists first_post "body")
      | [] => check (Raise (OtherException "IndexError"))
      end
  | _ => check (Raise (AssertionError "Response should be a list"))
  end.

Definition test_get_single_post : T Net unit :=
  let post_id := TestData.VALID_POST_ID in
  endpoint <- check (format APIEndpoints.POST_BY_ID [("post_id", JInt post_id)]) ;;
  response <- on_client (APIClient.get Net send endpoint None) ;;
  _ <- check (ResponseValidator.validate_status_code response 200) ;;
  data <- check (json_of response) ;;
  valid <- printing (ResponseValidator.validate_json_schema validate data
                       TestData.POST_SCHEMA) ;;
  _ <- check (assert valid (fun _ => "")) ;;
  id <- check (subscript data "id") ;;
  check (assert_equal id (JInt post_id)).

(** [for item in data: assert item[key] == expected, message(item)] *)
Fixpoint each_belongs (key : string) (expected : Z)
    (message : json -> result string) (data : list json) : result unit :=
  match data with
  | [] => Return tt
  | item :: rest =>
      Py.bind (subscript item key) (fun owner =>
      if py_eq owner (JInt expected) then each_belongs key expected message rest
      else Py.bind (message item) (fun msg => Raise (AssertionError msg)))
  end.

Definition test_get_posts_by_user : T Net unit :=
  let user_id := TestData.VALID_USER_ID in
  endpoint <- check (format APIEndpoints.USER_POSTS [("user_id", JInt user_id)]) ;;
  response <- on_client (APIClient.get Net send endpoint None) ;;
  _ <- check (ResponseValidator.validate_status_code response 200) ;;
  data <- check (json_of response) ;;
  match data with
  | JList l =>
      _ <- check (assert (0 <? Z.of_nat (List.length l))
                    (fun _ => "User " ++ str_int user_id ++ " should have posts")) ;;
      check (each_belongs "userId" user_id
               (fun post =>
                  Py.bind (subscript post "id") (fun id =>
                  Py.bind (subscript post "userId") (fun owner =>
                  Return ("Post " ++ str id ++ " belongs to user " ++ str owner
                          ++ ", not " ++ str_int user_id))))
               l)
  | _ => check (Raise (AssertionError ""))
  end.

Definition test_get_post_comments : T Net unit :=
  let post_id := TestData.VALID_POST_ID in
  endpoint <- check (format APIEndpoints.POST_COMMENTS [("post_id", JInt post_id)]) ;;
  response <- on_client (APIClient.get Net send endpoint None) ;;
  _ <- check (ResponseValidator.validate_status_code response 200) ;;
  data <- check (json_of response) ;;
  match data with
  | JList l =>
      _ <- check (assert (0 <? Z.of_nat (List.length l))
                    (fun _ => "Post " ++ str_int post_id ++ " should have comments")) ;;
      match l with
      | first_comment :: _ =>
          _ <- check (validate_field_exists first_comment "postId") ;;
          _ <- check (validate_field_exists first_comment "email") ;;
          _ <- check (validate_field_exists first_comment "body") ;;
          check (each_belongs "postId" post_id (fun _ => Return "") l)
      | [] => check (Raise (OtherException "IndexError"))
      end
  | _ => check (Raise (AssertionError ""))
  end.

Definition test_create_post : T Net unit :=
  response <- on_client (APIClient.post Net send APIEndpoints.POSTS
                           (Some (JDict TestData.VALID_POST_CREATE))) ;;
  _ <- check (ResponseValidator.validate_status_code response 201) ;;
  _ <- check (ResponseValidator.validate_response_time response
                TestData.MAX_RESPONSE_TIME_POST) ;;
  data <- check (json_of response) ;;
  _ <- check (validate_field_exists data "id") ;;
  title <- check (subscript data "title") ;;
  expected_title <- check (getitem TestData.VALID_POST_CREATE "title") ;;
  _ <- check (assert_equal title expected_title) ;;
  body <- check (subscript data "body") ;;
  expected_body <- check (getitem TestData.VALID_POST_CREATE "body") ;;
  _ <- check (assert_equal body expected_body) ;;
  owner <- check (subscript data "userId") ;;
  expected_owner <- check (getitem TestData.VALID_POST_CREATE "userId") ;;
  _ <- check (assert_equal owner expected_owner) ;;
  id <- check (subscript data "id") ;;
  append_created ("post", id).

Definition test_get_post_not_found : T Net unit :=
  let invalid_id := TestData.INVALID_POST_ID in
  endpoint <- check (format APIEndpoints.POST_BY_ID [("post_id", JInt invalid_id)]) ;;
  response <- on_client (APIClient.get Net send endpoint None) ;;
  check (ResponseValidator.validate_status_code response 404).

End Tests.

End TestPosts.

(** * Properties *)

(** ** What the statements below speak of *)

Import Py.

(** [sub] occurs in [s]. *)
Definition occurs_in (sub s : string) : Prop :=
  exists before after : string, s = before ++ sub ++ after.

(** One of [None], the empty string, the empty list and the empty mapping. *)
Definition empty_value (v : json) : Prop :=
  v = JNull \/ v = JStr "" \/ v = JList [] \/ v = JDict [].

(** The field is missing from the body, or what it holds is empty. *)
Definition absent_or_empty (response_json : dict) (field_name : string) : Prop :=
  lookup field_name response_json = None
  \/ exists value : json,
       lookup field_name response_json = Some value /\ empty_value value.

(** The header value [validate_content_type] looks into. *)
Definition content_type_of (response : requests.Response) : string :=
  CaseInsensitiveDict.get (requests.headers response) "Content-Type" "".

(** A response that took 1.001 s, 1001 ms to the microsecond. *)
Definition response_after_1001_ms : requests.Response :=
  {| requests.status_code := 200;
     requests.headers := [("Content-Type", "application/json; charset=utf-8")];
     requests.text := "[]";
     requests.elapsed :=
       {| datetime.days := 0; datetime.seconds := 1; datetime.microseconds := 1000 |} |}.

(** A schema with a Python type name where a JSON one belongs: an object,
    with the modelled keywords only, that the metaschema refuses. *)
Definition schema_with_python_type : json :=
  JDict [("type", JStr "object");
         ("properties", JDict [("id", JDict [("type", JStr "int")])])].

(** The request a verb method is to send for a client with attributes [c]. *)
Definition request_of (c : APIClient.Self) (k : APIClient.call) : APIClient.Request :=
  {| APIClient.method := APIClient.verb_of k;
     APIClient.url := APIClient.base_url c ++ APIClient.endpoint_of k;
     APIClient.req_headers := APIClient.headers (APIClient.session c);
     APIClient.req_params :=
       match k with APIClient.Get _ params => params | _ => None end;
     APIClient.req_json :=
       match k with
       | APIClient.Post _ json | APIClient.Put _ json | APIClient.Patch _ json => json
       | _ => None
       end;
     APIClient.req_timeout := Some (APIClient.timeout c) |}.

(** Both JSON headers are among [h]. *)
Definition json_headers (h : CaseInsensitiveDict.t) : Prop :=
  CaseInsensitiveDict.find "Content-Type" h = Some "application/json"
  /\ CaseInsensitiveDict.find "Accept" h = Some "application/json".

(** A network on which every request times out. *)
Definition dead_network (request : APIClient.Request) (n : unit)
  : result requests.Response * unit :=
  (Raise Timeout, n).

(** A [bool], an [int] or a [float]. *)
Definition is_number (v : json) : bool :=
  match v with
  | JBool _ | JInt _ | JFloat _ => true
  | _ => false
  end.

(** Zero, a positive number or a NaN. *)
Definition not_negative (x : PyFloat.float) : bool :=
  match x with
  | S754_finite true _ _ | S754_infinity true => false
  | _ => true
  end.

(** A response with the given headers and nothing else of note. *)
Definition response_with_headers (h : CaseInsensitiveDict.t) : requests.Response :=
  {| requests.status_code := 200;
     requests.headers := h;
     requests.text := "";
     requests.elapsed :=
       {| datetime.days := 0; datetime.seconds := 0; datetime.microseconds := 0 |} |}.

(** An object schema of the shape the fixtures have: the type [object],
    a schema for each known property, and the names of the required ones. *)
Definition object_schema (props : list (string * json)) (required : list string)
  : json :=
  JDict [("type", JStr "object");
         ("properties", JDict props);
         ("required", JList (map JStr required))].

(** A list schema of the shape of [USERS_LIST_SCHEMA]. *)
Definition nonempty_list_schema (item : json) : json :=
  JDict [("type", JStr "array"); ("items", item); ("minItems", JInt 1)].

(** The body has the property, with a value of the JSON type [type]. *)
Definition has_typed (obj : dict) (property type : string) : Prop :=
  exists value : json,
    lookup property obj = Some value /\ jsonschema.is_type value type = true.

(** The body lacks the property, or has it with a value of type [type]. *)
Definition typed_if_present (obj : dict) (property type : string) : Prop :=
  forall value : json,
    lookup property obj = Some value -> jsonschema.is_type value type = true.

(** [validate_json_schema] with the library, its boolean alone. *)
Definition accepts (schema instance : json) : Prop :=
  fst (ResponseValidator.validate_json_schema jsonschema.validate instance schema)
  = Return true.

(** The errors of the items of a list under the schema [item], the first
    item at [index]. *)
Fixpoint items_errors (item : json) (index : Z) (l : list json)
  : list jsonschema.error :=
  match l with
  | [] => []
  | x :: r =>
      (map (jsonschema.under (Index index)) (jsonschema.iter_errors item x)
       ++ items_errors item (index + 1) r)%list
  end.

(** The lower-cased header names of [h] are all different. *)
Definition distinct_names (h : CaseInsensitiveDict.t) : Prop :=
  NoDup (map (fun kv => lower (fst kv)) h).

(** The request of a verb method on the client of the [api_client]
    fixture, whose session started from the default headers [h]. *)
Definition fixture_request (h : CaseInsensitiveDict.t) (k : APIClient.call)
  : APIClient.Request :=
  {| APIClient.method := APIClient.verb_of k;
     APIClient.url := APIEndpoints.get_full_url (APIClient.endpoint_of k);
     APIClient.req_headers :=
       CaseInsensitiveDict.update h
         [("Content-Type", "application/json"); ("Accept", "application/json")];
     APIClient.req_params :=
       match k with APIClient.Get _ params => params | _ => None end;
     APIClient.req_json :=
       match k with
       | APIClient.Post _ json | APIClient.Put _ json | APIClient.Patch _ json => json
       | _ => None
       end;
     APIClient.req_timeout := Some 10 |}.

Section Suite.

Variable Net : Type.
Variable send : APIClient.Request -> Net -> result requests.Response * Net.
Variable validate : json -> json -> result unit.
Variable json_of : requests.Response -> result json.

(** The tests of the suite, each with the call it makes on the client. *)
Definition suite : list (conftest.T Net unit * APIClient.call) :=
  [(TestUsersCRUD.test_get_all_users Net send json_of,
    APIClient.Get "/users" None);
   (TestUsersCRUD.test_get_single_user Net send validate json_of,
    APIClient.Get "/users/1" None);
   (TestUsersCRUD.test_get_user_not_found Net send,
    APIClient.Get "/users/99999" None);
   (TestUsersCRUD.test_create_user Net send json_of,
    APIClient.Post "/users" (Some (JDict TestData.VALID_USER_CREATE)));
   (TestUsersCRUD.test_update_user Net send json_of,
    APIClient.Put "/users/1" (Some (JDict TestData.VALID_USER_UPDATE)));
   (TestUsersCRUD.test_delete_user Net send,
    APIClient.Delete "/users/1");
   (TestPosts.test_get_all_posts Net send json_of,
    APIClient.Get "/posts" None);
   (TestPosts.test_get_single_post Net send validate json_of,
    APIClient.Get "/posts/1" None);
   (TestPosts.test_get_posts_by_user Net send json_of,
    APIClient.Get "/posts?userId=1" None);
   (TestPosts.test_get_post_comments Net send json_of,
    APIClient.Get "/posts/1/comments" None);
   (TestPosts.test_create_post Net send json_of,
    APIClient.Post "/posts" (Some (JDict TestData.VALID_POST_CREATE)));
   (TestPosts.test_get_post_not_found Net send,
    APIClient.Get "/posts/99999" None)].

(** The run after the one call of a test: the request is in the trace,
    the network is as [send] left it, the rest is as it was. *)
Definition after_call (k : APIClient.call) (run : conftest.Run Net) : conftest.Run Net :=
  let st := conftest.client run in
  let request := request_of (APIClient.self st) k in
  {| conftest.client :=
       {| APIClient.self := APIClient.self st;
          APIClient.net := snd (send request (APIClient.net st));
          APIClient.trace := (APIClient.trace st ++ [APIClient.Sent request])%list |};
     conftest.stdout := conftest.stdout run;
     conftest.created_resources := conftest.created_resources run |}.

(** What the network gave for the one call of a test. *)
Definition outcome_of_call (k : APIClient.call) (run : conftest.Run Net)
  : result requests.Response :=
  let st := conftest.client run in
  fst (send (request_of (APIClient.self st) k) (APIClient.net st)).

End Suite.

(** A test body that leaves the client alone. *)
Definition keeps_client (Net : Type) {A : Type} (t : conftest.T Net A) : Prop :=
  forall run : conftest.Run Net,
    conftest.client (snd (t run)) = conftest.client run.

(** The test ends without an exception. *)
Definition passes {Net : Type} (t : conftest.T Net unit) (run : conftest.Run Net)
  : Prop :=
  fst (t run) = Return tt.

(** The item is an object whose value under [key] equals [expected]. *)
Definition belongs_to (key : string) (expected : Z) (item : json) : bool :=
  match item with
  | JDict obj =>
      match lookup key obj with
      | Some owner => py_eq owner (JInt expected)
      | None => false
      end
  | _ => false
  end.

(** [field in item] holds: a key of an object, an item of a list, a part
    of a string. *)
Definition mentions (item : json) (field : string) : bool :=
  match item with
  | JDict d => contains_key field d
  | JList l => py_in (JStr field) l
  | JStr s => str_contains s field
  | _ => false
  end.

(** A test body that leaves the list of created resources alone. *)
Definition keeps_created (Net : Type) {A : Type} (t : conftest.T Net A) : Prop :=
  forall run : conftest.Run Net,
    conftest.created_resources (snd (t run)) = conftest.created_resources run.

(** A test body that leaves the list alone unless it passes. *)
Definition records_on_pass (Net : Type) (t : conftest.T Net unit) : Prop :=
  forall run : conftest.Run Net,
    fst (t run) <> Return tt ->
    conftest.created_resources (snd (t run)) = conftest.created_resources run.

Section Answers.

Variable Net : Type.
Variable send : APIClient.Request -> Net -> result requests.Response * Net.
Variable json_of : requests.Response -> result json.

(** What [test_create_user] wants of the answer to its call: status 201
    within the limit, and an object with an [int] under [id] and the
    name and the email of the payload. *)
Definition user_created (run : conftest.Run Net) (response : requests.Response)
    (obj : dict) (n : Z) : Prop :=
  outcome_of_call Net send
    (APIClient.Post "/users" (Some (JDict TestData.VALID_USER_CREATE))) run
  = Return response
  /\ requests.status_code response = 201
  /\ ResponseValidator.validate_response_time response 3000 = Return tt
  /\ json_of response = Return (JDict obj)
  /\ lookup "id" obj = Some (JInt n)
  /\ lookup "name" obj = Some (JStr "John Doe")
  /\ lookup "email" obj = Some (JStr "john.doe@example.com").

(** What [test_create_post] wants of the answer to its call: status 201
    within the limit, and an object with an [id], the title and the body
    of the payload, and a [userId] equal to 1. *)
Definition post_created (run : conftest.Run Net) (response : requests.Response)
    (obj : dict) (id : json) : Prop :=
  outcome_of_call Net send
    (APIClient.Post "/posts" (Some (JDict TestData.VALID_POST_CREATE))) run
  = Return response
  /\ requests.status_code response = 201
  /\ ResponseValidator.validate_response_time response 3000 = Return tt
  /\ json_of response = Return (JDict obj)
  /\ lookup "id" obj = Some id
  /\ lookup "title" obj = Some (JStr "Test Post Title")
  /\ lookup "body" obj = Some (JStr "This is a test post body with some content.")
  /\ (exists owner : json,
        lookup "userId" obj = Some owner /\ py_eq owner (JInt 1) = true).

End Answers.

(** A network that answers every request with [response]. *)
Definition answering (response : requests.Response) (request : APIClient.Request)
    (n : unit) : result requests.Response * unit :=
  (Return response, n).

(** The run a test starts from: the client of the [api_client] fixture
    on a session without other headers, nothing printed, nothing
    created. *)
Definition fresh_run : conftest.Run unit :=
  {| conftest.client :=
       {| APIClient.self :=
            {| APIClient.base_url := APIEndpoints.BASE_URL;
               APIClient.timeout := 10;
               APIClient.session :=
                 {| APIClient.headers :=
                      [("Content-Type", "application/json");
                       ("Accept", "application/json")] |} |};
          APIClient.net := tt;
          APIClient.trace := [] |};
     conftest.stdout := [];
     conftest.created_resources := [] |}.

(** ** Strings and values *)

Lemma prefix_iff (sub s : string) :
  String.prefix sub s = true <-> exists after : string, s = sub ++ after.
Proof.
  revert s; induction sub as [|a sub IH]; intros s; simpl.
  - destruct s; split; eauto.
  - destruct s as [|b s]; simpl.
    + split; [discriminate | intros [after H]; discriminate].
    + destruct (ascii_dec a b) as [->|Hab].
      * split.
        -- intros H. apply IH in H. destruct H as [after H]. exists after.
           now rewrite H.
        -- intros [after H]. apply IH. exists after. now injection H.
      * split; [discriminate|]. intros [after H]. injection H as H1 _.
        now elim Hab.
Qed.

Lemma str_contains_iff (s sub : string) :
  str_contains s sub = true <-> occurs_in sub s.
Proof.
  unfold occurs_in. induction s as [|c s IH].
  - cbn [str_contains]. rewrite orb_false_r. split.
    + intros H. apply prefix_iff in H. destruct H as [after H].
      now exists "", after.
    + intros [before [after H]]. apply prefix_iff.
      destruct before; [now exists after|discriminate].
  - cbn [str_contains]. split.
    + intros H. apply orb_true_iff in H. destruct H as [H|H].
      * apply prefix_iff in H. destruct H as [after H]. now exists "", after.
      * apply IH in H. destruct H as [before [after H]].
        exists (String c before), after. simpl. now rewrite H.
    + intros [before [after H]]. apply orb_true_iff.
      destruct before as [|b before].
      * left. apply prefix_iff. now exists after.
      * right. apply IH. exists before, after. simpl in H. now injection H.
Qed.

Lemma str_contains_empty (s : string) : str_contains s "" = true.
Proof. destruct s; reflexivity. Qed.


Lemma py_in_empties (v : json) :
  py_in v [JNull; JStr ""; JList []; JDict []] = true <-> empty_value v.
Proof.
  unfold py_in, empty_value. destruct v as [|b|n|x|s|l|d]; simpl.
  - intuition.
  - intuition discriminate.
  - intuition discriminate.
  - intuition discriminate.
  - rewrite orb_false_r. destruct s; simpl; intuition discriminate.
  - rewrite orb_false_r. destruct l; simpl; intuition discriminate.
  - destruct d as [|[k x] d]; simpl; intuition discriminate.
Qed.

Lemma contains_key_lookup (d : dict) (key : string) :
  contains_key key d = true <-> exists v : json, lookup key d = Some v.
Proof.
  unfold contains_key. destruct (lookup key d) as [v|].
  - split; eauto.
  - split; [discriminate | intros [v H]; discriminate].
Qed.

(** Floats print as Python prints them. *)
Example repr_float_examples :
  map PyFloat.repr
    [PyFloat.true_divide 1 10; PyFloat.true_divide 3 2; PyFloat.true_divide 1 3;
     PyFloat.of_int (10 ^ 16); PyFloat.true_divide 1 100000; PyFloat.of_int 3000;
     PyFloat.true_divide (-1234567) 1000]
  = ["0.1"; "1.5"; "0.3333333333333333"; "1e+16"; "1e-05"; "3000.0"; "-1234.567"].
Proof. vm_compute. reflexivity. Qed.

Example format_2f_examples :
  map PyFloat.format_2f
    [PyFloat.true_divide 1 8; PyFloat.true_divide 3 8; PyFloat.true_divide 267 100;
     PyFloat.of_int 3000; PyFloat.true_divide (-1) 1000]
  = ["0.12"; "0.38"; "2.67"; "3000.00"; "-0.00"].
Proof. vm_compute. reflexivity. Qed.

(** 1.001 s in milliseconds, as the latency check computes it. *)
Example response_time_ms_of_1001_ms :
  PyFloat.repr (ResponseValidator.response_time_ms response_after_1001_ms)
  = "1000.9999999999999"
  /\ PyFloat.format_2f (ResponseValidator.response_time_ms response_after_1001_ms)
     = "1001.00".
Proof. split; vm_compute; reflexivity. Qed.

(** A header is found under any spelling of its name. *)
Lemma find_any_case (h : CaseInsensitiveDict.t) (k k' : string) :
  lower k = lower k' ->
  CaseInsensitiveDict.find k h = CaseInsensitiveDict.find k' h.
Proof.
  intros Hk. induction h as [|[k0 v0] h IH]; simpl; [reflexivity|].
  unfold CaseInsensitiveDict.same_key. now rewrite Hk, IH.
Qed.

(** ** The field checks *)

Lemma validate_field_exists_cases (response_json : dict) (field_name : string) :
  match lookup field_name response_json with
  | Some _ => ResponseValidator.validate_field_exists response_json field_name = Return tt
  | None =>
      ResponseValidator.validate_field_exists response_json field_name
      = Raise (AssertionError
                 ("Field '" ++ field_name
                  ++ "' not found in response. Available fields: "
                  ++ str_keys (keys response_json)))
  end.
Proof.
  unfold ResponseValidator.validate_field_exists, contains_key.
  destruct (lookup field_name response_json); reflexivity.
Qed.

Lemma validate_not_empty_cases (response_json : dict) (field_name : string) :
  match lookup field_name response_json with
  | None =>
      exists msg : string,
        ResponseValidator.validate_not_empty response_json field_name
        = Raise (AssertionError msg)
  | Some value =>
      if py_in value [JNull; JStr ""; JList []; JDict []]
      then ResponseValidator.validate_not_empty response_json field_name
           = Raise (AssertionError ("Field '" ++ field_name ++ "' is empty: " ++ str value))
      else ResponseValidator.validate_not_empty response_json field_name = Return tt
  end.
Proof.
  unfold ResponseValidator.validate_not_empty.
  pose proof (validate_field_exists_cases response_json field_name) as Hex.
  unfold getitem.
  destruct (lookup field_name response_json) as [value|]; rewrite Hex; cbn [bind].
  - unfold assert.
    destruct (py_in value [JNull; JStr ""; JList []; JDict []]); reflexivity.
  - eauto.
Qed.

(** C4. [validate_not_empty] raises an [AssertionError] exactly when the
    field is absent from the body or holds [None], the empty string, the
    empty list or the empty mapping; it returns exactly when that is not
    so, and it raises nothing but an [AssertionError] (the lookup that
    follows the existence check never fails). *)
Theorem validate_not_empty_raises_iff_absent_or_empty
    (response_json : dict) (field_name : string) :
  ((exists msg : string,
      ResponseValidator.validate_not_empty response_json field_name
      = Raise (AssertionError msg))
   <-> absent_or_empty response_json field_name)
  /\ (ResponseValidator.validate_not_empty response_json field_name = Return tt
      <-> ~ absent_or_empty response_json field_name)
  /\ (forall e : exn,
        ResponseValidator.validate_not_empty response_json field_name = Raise e ->
        is_assertion_error e = true).
Proof.
  pose proof (validate_not_empty_cases response_json field_name) as Hc.
  unfold absent_or_empty.
  destruct (lookup field_name response_json) as [value|] eqn:Hl.
  - destruct (py_in value [JNull; JStr ""; JList []; JDict []]) eqn:Hin.
    + assert (empty_value value) as He by now apply py_in_empties.
      rewrite Hc. repeat split.
      * intros _. right. now exists value.
      * intros _. eauto.
      * discriminate.
      * intros Hn. elim Hn. right. now exists value.
      * intros e H. now injection H as <-.
    + assert (~ empty_value value) as He.
      { intros He. apply py_in_empties in He. congruence. }
      rewrite Hc. repeat split.
      * intros [msg H]. discriminate.
      * intros [H|[v [H1 H2]]]; [discriminate|]. injection H1 as <-. contradiction.
      * intros _ [H|[v [H1 H2]]]; [discriminate|]. injection H1 as <-. contradiction.
      * intros e H. discriminate.
  - destruct Hc as [msg Hc]. rewrite Hc. repeat split.
    + intros _. now left.
    + intros _. now exists msg.
    + discriminate.
    + intros Hn. elim Hn. now left.
    + intros e H. now injection H as <-.
Qed.

(** ** The content type check *)


(** Left out, the expected type is [application/json]. *)
Lemma validate_content_type_default (response : requests.Response) :
  ResponseValidator.validate_content_type response None
  = ResponseValidator.validate_content_type response (Some "application/json").
Proof. reflexivity. Qed.

(** ** The endpoint registry *)

Lemma registry_names_distinct : NoDup (map fst APIEndpoints.registry).
Proof.
  unfold APIEndpoints.registry; simpl.
  repeat (constructor; [simpl; intuition discriminate|]). constructor.
Qed.

(** The base URL has no brace, so the braces of a full URL are those of
    the endpoint. *)
Lemma get_full_url_braces (endpoint : string) :
  str_contains (APIEndpoints.get_full_url endpoint) "{"
  = str_contains endpoint "{".
Proof. reflexivity. Qed.

Lemma get_full_url_injective (endpoint endpoint' : string) :
  APIEndpoints.get_full_url endpoint = APIEndpoints.get_full_url endpoint' ->
  endpoint = endpoint'.
Proof.
  unfold APIEndpoints.get_full_url, APIEndpoints.BASE_URL. cbn [append].
  intros H. now repeat (injection H as H).
Qed.

(** C8, as the code has it. The registry maps each of its names to one
    path template, and its one function, [get_full_url], is a function of
    its argument alone that returns the fixed base URL followed by the
    endpoint as given. It substitutes nothing: every part of the endpoint,
    a placeholder too, is found in the result, which has a brace exactly
    when the endpoint has one, and two endpoints never give one URL. *)
Theorem get_full_url_is_base_url_then_endpoint :
  NoDup (map fst APIEndpoints.registry)
  /\ (forall endpoint : string,
        APIEndpoints.get_full_url endpoint
        = "https://jsonplaceholder.typicode.com" ++ endpoint)
  /\ (forall endpoint part : string,
        occurs_in part endpoint ->
        occurs_in part (APIEndpoints.get_full_url endpoint))
  /\ (forall endpoint : string,
        str_contains (APIEndpoints.get_full_url endpoint) "{"
        = str_contains endpoint "{")
  /\ (forall endpoint endpoint' : string,
        APIEndpoints.get_full_url endpoint = APIEndpoints.get_full_url endpoint' ->
        endpoint = endpoint').
Proof.
  split; [exact registry_names_distinct|]. split; [reflexivity|].
  split; [|split; [exact get_full_url_braces | exact get_full_url_injective]].
  intros endpoint part [before [after ->]].
  exists (APIEndpoints.BASE_URL ++ before), after.
  unfold APIEndpoints.get_full_url.
  generalize APIEndpoints.BASE_URL as base. intros base.
  induction base as [|c base IH]; [reflexivity|].
  cbn [append]. now rewrite IH.
Qed.

(** Against C8 as the specification words it: no function of the registry
    substitutes placeholders. The template of a user goes through
    [get_full_url] with its placeholder in place, and what comes out is
    not the URL of user 1, which the tests get by filling the template in
    with [str.format] first. *)
Lemma get_full_url_keeps_placeholders :
  APIEndpoints.get_full_url APIEndpoints.USER_BY_ID
  = "https://jsonplaceholder.typicode.com/users/{user_id}"
  /\ PyFormat.format APIEndpoints.USER_BY_ID [("user_id", JInt 1)]
     = Some (Return "/users/1")
  /\ APIEndpoints.get_full_url APIEndpoints.USER_BY_ID
     <> "https://jsonplaceholder.typicode.com/users/1".
Proof. repeat split; try reflexivity. discriminate. Qed.

(** ** The latency check *)

(** [x < n] on a finite [float] is the order of the exact values. *)
Lemma lt_int_exact (x : PyFloat.float) (n : Z) (q : Q) :
  PyFloat.value x = Some q ->
  (PyFloat.lt_int x n = true <-> (q < inject_Z n)%Q).
Proof.
  destruct x as [s|s| |s m e]; simpl; try discriminate.
  - intros H; injection H as <-. unfold Qlt; simpl. rewrite Z.ltb_lt. lia.
  - intros H; injection H as <-.
    destruct (0 <=? e) eqn:He; unfold Qlt; simpl; rewrite Z.ltb_lt.
    + lia.
    + apply Z.leb_gt in He.
      assert (0 < 2 ^ (- e)) as Hp by (apply Z.pow_pos_nonneg; lia).
      rewrite Z2Pos.id by exact Hp. lia.
Qed.

(** C2, as the code has it. [validate_response_time] returns exactly when
    the float [response.elapsed.total_seconds() * 1000] is strictly less
    than the threshold (so, for a finite product, when its exact value is
    below the threshold), and otherwise raises an [AssertionError] whose
    message holds that float to two decimals and the threshold. *)
Theorem validate_response_time_compares_the_float
    (response : requests.Response) (max_time_ms : Z) :
  (ResponseValidator.validate_response_time response max_time_ms = Return tt
   <-> PyFloat.lt_int (ResponseValidator.response_time_ms response) max_time_ms = true)
  /\ (ResponseValidator.validate_response_time response max_time_ms
      = Raise (AssertionError
                 ("Response time "
                  ++ PyFloat.format_2f (ResponseValidator.response_time_ms response)
                  ++ "ms exceeds limit of " ++ str_int max_time_ms ++ "ms"))
      <-> PyFloat.lt_int (ResponseValidator.response_time_ms response) max_time_ms = false)
  /\ (forall e : exn,
        ResponseValidator.validate_response_time response max_time_ms = Raise e ->
        is_assertion_error e = true)
  /\ (forall q : Q,
        PyFloat.value (ResponseValidator.response_time_ms response) = Some q ->
        (ResponseValidator.validate_response_time response max_time_ms = Return tt
         <-> (q < inject_Z max_time_ms)%Q)).
Proof.
  assert (ResponseValidator.validate_response_time response max_time_ms = Return tt
          <-> PyFloat.lt_int (ResponseValidator.response_time_ms response) max_time_ms
              = true) as Hpass.
  { unfold ResponseValidator.validate_response_time, assert.
    destruct (PyFloat.lt_int _ max_time_ms); split; try discriminate; reflexivity. }
  split; [exact Hpass|]. split; [|split].
  - unfold ResponseValidator.validate_response_time, assert.
    destruct (PyFloat.lt_int _ max_time_ms); split; try discriminate; reflexivity.
  - unfold ResponseValidator.validate_response_time, assert.
    destruct (PyFloat.lt_int _ max_time_ms); [discriminate|].
    intros e H. now injection H as <-.
  - intros q Hq. pose proof (lt_int_exact _ max_time_ms q Hq) as Hex.
    split; intros H.
    + apply Hex. now apply Hpass.
    + apply Hpass. now apply Hex.
Qed.

(** Against C2 as the specification words it: a response that took
    1001 ms to the microsecond passes a threshold of 1001 ms, because
    1.001 * 1000 is 1000.9999999999999 in floating point. *)
Lemma validate_response_time_passes_at_the_threshold :
  datetime.to_microseconds (requests.elapsed response_after_1001_ms) = 1000 * 1001
  /\ ResponseValidator.validate_response_time response_after_1001_ms 1001 = Return tt.
Proof. split; vm_compute; reflexivity. Qed.

(** ** The schema check *)

Section SchemaCheck.

Variable validate : json -> json -> result unit.

(** The three ways out of [validate_json_schema], by what [validate] did. *)
Lemma validate_json_schema_cases (instance schema : json) :
  match validate instance schema with
  | Return _ =>
      ResponseValidator.validate_json_schema validate instance schema
      = (Return true, [])
  | Raise (ValidationError message path) =>
      ResponseValidator.validate_json_schema validate instance schema
      = (Return false,
         ["Schema validation failed: " ++ message;
          "Failed at path: " ++ str_path path])
  | Raise e =>
      ResponseValidator.validate_json_schema validate instance schema = (Raise e, [])
  end.
Proof.
  unfold ResponseValidator.validate_json_schema.
  destruct (validate instance schema) as [u|e]; [reflexivity|].
  destruct e; reflexivity.
Qed.

(** An exception of [validate] that is no [ValidationError] goes through
    [validate_json_schema] as it is, and nothing is printed. *)
Lemma validate_json_schema_lets_others_through (instance schema : json) (e : exn) :
  validate instance schema = Raise e ->
  is_validation_error e = false ->
  ResponseValidator.validate_json_schema validate instance schema = (Raise e, []).
Proof.
  intros Hv He. pose proof (validate_json_schema_cases instance schema) as Hc.
  rewrite Hv in Hc. destruct e; try exact Hc. discriminate.
Qed.

End SchemaCheck.

(** C1, as the code has it. Where [validate] raises nothing but a
    [ValidationError] (the schema itself is in order), [validate_json_schema]
    returns a boolean and does not raise: [True], with nothing printed,
    exactly when [validate] returned; [False] after printing the message
    and the path of the error [validate] raised. *)
Theorem validate_json_schema_returns_a_boolean
    (validate : json -> json -> result unit) (instance schema : json)
    (Hschema : forall e : exn,
        validate instance schema = Raise e -> is_validation_error e = true) :
  exists b : bool,
    fst (ResponseValidator.validate_json_schema validate instance schema) = Return b
    /\ (b = true <-> validate instance schema = Return tt)
    /\ (b = true ->
        snd (ResponseValidator.validate_json_schema validate instance schema) = [])
    /\ (b = false ->
        exists (message : string) (path : list path_elem),
          validate instance schema = Raise (ValidationError message path)
          /\ snd (ResponseValidator.validate_json_schema validate instance schema)
             = ["Schema validation failed: " ++ message;
                "Failed at path: " ++ str_path path]).
Proof.
  pose proof (validate_json_schema_cases validate instance schema) as Hc.
  destruct (validate instance schema) as [u|e] eqn:Hv.
  - exists true. rewrite Hc. destruct u. repeat split; try reflexivity; discriminate.
  - specialize (Hschema e eq_refl).
    destruct e as [msg|key|message path| | | |class]; try discriminate Hschema.
    exists false. rewrite Hc. repeat split; try discriminate.
    intros _. now exists message, path.
Qed.

(** A schema the metaschema accepts is a boolean or a mapping, and the
    lookup of its dialect goes through. *)
Lemma check_schema_validator_for (schema : json) :
  jsonschema.check_schema schema = true ->
  jsonschema.validator_for schema = Return tt.
Proof.
  destruct schema as [|b|n|x|s|l|d]; intros H; try reflexivity;
    cbn in H; discriminate H.
Qed.

(** What the library model raises: a [ValidationError] or nothing on a
    schema [check_schema] accepts; on one it refuses, a [SchemaError], or
    the [TypeError] of a schema that is no mapping. *)
Lemma jsonschema_validate_raises (instance schema : json) (e : exn) :
  jsonschema.validate instance schema = Raise e ->
  if jsonschema.check_schema schema
  then is_validation_error e = true
  else e = SchemaError \/ e = OtherException "TypeError".
Proof.
  unfold jsonschema.validate.
  destruct (jsonschema.check_schema schema) eqn:Hs.
  - rewrite (check_schema_validator_for schema Hs). cbn [Py.bind].
    destruct (jsonschema.best_match _); [|discriminate].
    intros H; injection H as <-. reflexivity.
  - destruct (jsonschema.validator_for schema) as [u|e'] eqn:Hv; cbn [Py.bind].
    + intros H; injection H as <-. now left.
    + intros H; injection H as <-. right.
      destruct schema as [|b|n|x|s|l|d]; cbn [jsonschema.validator_for] in Hv;
        try discriminate Hv; try (now injection Hv as <-).
      * destruct (str_contains s "$schema"); [now injection Hv as <- | discriminate Hv].
      * destruct (py_in (JStr "$schema") l);
          [now injection Hv as <- | discriminate Hv].
Qed.

Lemma best_match_none (errors : list jsonschema.error) :
  jsonschema.best_match errors = None <-> errors = [].
Proof.
  destruct errors as [|e r]; simpl.
  - tauto.
  - destruct (jsonschema.best_match r) as [b|].
    + destruct (jsonschema.more_relevant b e); split; discriminate.
    + split; discriminate.
Qed.

(** The more relevant of two errors lies no deeper in the instance. *)
Lemma more_relevant_depth (b e : jsonschema.error) :
  if jsonschema.more_relevant b e
  then (List.length (jsonschema.path b) <= List.length (jsonschema.path e))%nat
  else (List.length (jsonschema.path e) <= List.length (jsonschema.path b))%nat.
Proof.
  unfold jsonschema.more_relevant.
  destruct (Nat.ltb_spec (List.length (jsonschema.path b))
              (List.length (jsonschema.path e))) as [Hlt|Hge]; cbn [orb]; [lia|].
  destruct (Nat.eqb_spec (List.length (jsonschema.path b))
              (List.length (jsonschema.path e))) as [Heq|Hne]; cbn [andb].
  - destruct (_ || _); lia.
  - exact Hge.
Qed.

(** The error reported is one of the instance's errors, and none of them
    lies higher up in the instance. *)
Lemma best_match_in (errors : list jsonschema.error) (b : jsonschema.error) :
  jsonschema.best_match errors = Some b ->
  In b errors
  /\ forall e : jsonschema.error,
       In e errors ->
       (List.length (jsonschema.path b) <= List.length (jsonschema.path e))%nat.
Proof.
  revert b; induction errors as [|e r IH]; intros b; simpl; [discriminate|].
  destruct (jsonschema.best_match r) as [b'|] eqn:Hr.
  - destruct (IH b' eq_refl) as [Hin Hmin].
    pose proof (more_relevant_depth b' e) as Hd.
    destruct (jsonschema.more_relevant b' e); intros H; injection H as <-.
    + split; [now right|].
      intros x [<-|Hx]; [exact Hd | now apply Hmin].
    + split; [now left|].
      intros x [<-|Hx]; [lia|]. specialize (Hmin x Hx). lia.
  - apply best_match_none in Hr. subst r.
    intros H; injection H as <-. split; [now left|].
    intros x [<-|[]]. lia.
Qed.

(** On a schema in order, [validate] returns exactly when the instance
    has no error under it. *)
Lemma jsonschema_validate_returns_iff (instance schema : json) :
  jsonschema.check_schema schema = true ->
  (jsonschema.validate instance schema = Return tt
   <-> jsonschema.iter_errors schema instance = []).
Proof.
  intros Hs. unfold jsonschema.validate.
  rewrite (check_schema_validator_for schema Hs), Hs. cbn [Py.bind].
  destruct (jsonschema.best_match _) as [b|] eqn:Hb.
  - split; [discriminate|]. intros H. apply best_match_none in H. congruence.
  - split; [|reflexivity]. intros _. now apply best_match_none.
Qed.

(** The schemas of the fixtures use the modelled keywords only, and the
    metaschema accepts them. *)
Lemma fixture_schemas_in_order :
  forallb (fun schema => jsonschema.in_fragment schema && jsonschema.check_schema schema)
    [TestData.USER_SCHEMA; TestData.POST_SCHEMA; TestData.COMMENT_SCHEMA;
     TestData.USERS_LIST_SCHEMA] = true.
Proof. reflexivity. Qed.

(** At the fixtures: a body with a missing field is refused by a boolean. *)
Lemma validate_json_schema_returns_a_boolean_at_fixture :
  exists b : bool,
    fst (ResponseValidator.validate_json_schema jsonschema.validate
           (JDict TestData.INVALID_USER_MISSING_NAME) TestData.USER_SCHEMA) = Return b
    /\ (b = true <->
        jsonschema.validate (JDict TestData.INVALID_USER_MISSING_NAME)
          TestData.USER_SCHEMA = Return tt)
    /\ (b = true ->
        snd (ResponseValidator.validate_json_schema jsonschema.validate
               (JDict TestData.INVALID_USER_MISSING_NAME) TestData.USER_SCHEMA) = [])
    /\ (b = false ->
        exists (message : string) (path : list path_elem),
          jsonschema.validate (JDict TestData.INVALID_USER_MISSING_NAME)
            TestData.USER_SCHEMA = Raise (ValidationError message path)
          /\ snd (ResponseValidator.validate_json_schema jsonschema.validate
                    (JDict TestData.INVALID_USER_MISSING_NAME) TestData.USER_SCHEMA)
             = ["Schema validation failed: " ++ message;
                "Failed at path: " ++ str_path path]).
Proof.
  apply (validate_json_schema_returns_a_boolean jsonschema.validate
           (JDict TestData.INVALID_USER_MISSING_NAME) TestData.USER_SCHEMA).
  intros e H. vm_compute in H. injection H as <-. reflexivity.
Defined.

(** Against C1 as the specification words it: on such a schema
    [validate] raises [SchemaError], which [validate_json_schema] does not
    catch. *)
Lemma validate_json_schema_raises_on_a_bad_schema :
  jsonschema.in_fragment schema_with_python_type = true
  /\ ResponseValidator.validate_json_schema jsonschema.validate
       (JDict TestData.VALID_USER_CREATE) schema_with_python_type
     = (Raise SchemaError, []).
Proof. split; reflexivity. Qed.

(** ** The fixtures against their schemas *)

(** On a schema in order, the boolean of [validate_json_schema] says
    whether the instance has no error under the schema. *)
Lemma validate_json_schema_verdict (instance schema : json) :
  jsonschema.check_schema schema = true ->
  fst (ResponseValidator.validate_json_schema jsonschema.validate instance schema)
  = Return (match jsonschema.iter_errors schema instance with
            | [] => true
            | _ :: _ => false
            end).
Proof.
  intros Hs.
  pose proof (validate_json_schema_cases jsonschema.validate instance schema) as Hc.
  unfold jsonschema.validate in *.
  rewrite (check_schema_validator_for schema Hs), Hs in *. cbn [Py.bind] in *.
  destruct (jsonschema.best_match _) as [b|] eqn:Hb.
  - rewrite Hc. destruct (jsonschema.iter_errors schema instance); [discriminate|].
    reflexivity.
  - rewrite Hc. apply best_match_none in Hb. now rewrite Hb.
Qed.

(** A required property the body lacks is an error of the body, whatever
    else the schema says. *)
Lemma missing_required_is_an_error
    (kws : list (string * json)) (names : list json) (ns : list string)
    (obj : dict) (property : string) :
  In ("required", JList names) kws ->
  jsonschema.strings names = Some ns ->
  In property ns ->
  contains_key property obj = false ->
  jsonschema.iter_errors (JDict kws) (JDict obj) <> [].
Proof.
  intros Hin Hs Hp Hc. cbn [jsonschema.iter_errors].
  generalize (jsonschema.matches_type_of (JDict kws) (JDict obj)) as mt. intros mt.
  induction kws as [|[k v] rest IH]; [contradiction|].
  destruct Hin as [Heq|Hin].
  - injection Heq as -> ->. cbn [String.eqb Ascii.eqb Bool.eqb].
    unfold jsonschema.required_errors. rewrite Hs.
    intros Habs. apply app_eq_nil in Habs. destruct Habs as [Habs _].
    apply map_eq_nil in Habs.
    assert (In property
              (filter (fun property => negb (contains_key property obj)) ns)) as Hf.
    { apply filter_In. split; [exact Hp|]. now rewrite Hc. }
    rewrite Habs in Hf. contradiction.
  - intros Habs. apply app_eq_nil in Habs. destruct Habs as [_ Habs].
    now apply IH.
Qed.

(** Against C3 as the specification words it: the create payload has no
    [id], which [USER_SCHEMA] requires, so its validation returns [False]. *)
Lemma valid_user_create_is_refused :
  ResponseValidator.validate_json_schema jsonschema.validate
    (JDict TestData.VALID_USER_CREATE) TestData.USER_SCHEMA
  = (Return false,
     ["Schema validation failed: 'id' is a required property";
      "Failed at path: []"]).
Proof. reflexivity. Qed.

(** C3, as the code has it. With an integer [id] next to its fields, as
    the API answers a creation, the create payload is accepted by
    [USER_SCHEMA]; on its own it lacks the required [id] and is refused. A
    body that lacks a property its schema requires is refused, for every
    schema of the kind the fixtures have, made of the keywords of the
    model and accepted by the metaschema, as [USER_SCHEMA] is: so it is
    for the payload without [name]. *)
Theorem fixture_validation_round_trip :
  (forall id : Z,
      ResponseValidator.validate_json_schema jsonschema.validate
        (JDict (TestData.VALID_USER_CREATE ++ [("id", JInt id)])%list)
        TestData.USER_SCHEMA
      = (Return true, []))
  /\ fst (ResponseValidator.validate_json_schema jsonschema.validate
            (JDict TestData.VALID_USER_CREATE) TestData.USER_SCHEMA) = Return false
  /\ (forall (kws : list (string * json)) (names : list json) (ns : list string)
             (obj : dict) (property : string),
         jsonschema.in_fragment (JDict kws) = true ->
         jsonschema.check_schema (JDict kws) = true ->
         In ("required", JList names) kws ->
         jsonschema.strings names = Some ns ->
         In property ns ->
         contains_key property obj = false ->
         fst (ResponseValidator.validate_json_schema jsonschema.validate
                (JDict obj) (JDict kws)) = Return false)
  /\ jsonschema.in_fragment TestData.USER_SCHEMA = true
  /\ jsonschema.check_schema TestData.USER_SCHEMA = true
  /\ contains_key "name" TestData.INVALID_USER_MISSING_NAME = false
  /\ fst (ResponseValidator.validate_json_schema jsonschema.validate
            (JDict TestData.INVALID_USER_MISSING_NAME) TestData.USER_SCHEMA)
     = Return false.
Proof.
  split; [reflexivity|]. split; [reflexivity|].
  split; [|repeat split; reflexivity].
  intros kws names ns obj property _ Hs Hin Hns Hp Hc.
  rewrite validate_json_schema_verdict by exact Hs.
  pose proof (missing_required_is_an_error kws names ns obj property Hin Hns Hp Hc).
  destruct (jsonschema.iter_errors (JDict kws) (JDict obj)); [contradiction|reflexivity].
Qed.

(** ** The client *)

Section ClientProperties.

Import APIClient.

Variable Net : Type.
Variable send : Request -> Net -> result requests.Response * Net.
Variable close_adapters : Net -> Net.
Variable default_headers : CaseInsensitiveDict.t.
Variable traceback : Type.
Variable traceback_of : exn -> traceback.

(** A call sends its one request and hands on what [send] gives. *)
Lemma perform_sends (k : call) (st : State Net) :
  perform Net send k st
  = (fst (send (request_of (self st) k) (net st)),
     {| self := self st;
        net := snd (send (request_of (self st) k) (net st));
        trace := trace st ++ [Sent (request_of (self st) k)] |}).
Proof.
  destruct k; unfold perform, get, post, put, patch, delete, bindM, get_self, ret,
    session_get, session_post, session_put, session_patch, session_delete,
    session_request, request_of; cbn [verb_of endpoint_of self net trace];
    destruct (send _ (net st)) as [[response|e] net']; reflexivity.
Qed.

Lemma perform_keeps_self (k : call) (st : State Net) :
  self (snd (perform Net send k st)) = self st.
Proof. now rewrite perform_sends. Qed.

Lemma perform_all_keeps_self (ks : list call) (st : State Net) :
  self (perform_all Net send ks st) = self st.
Proof.
  revert st; induction ks as [|k ks IH]; intros st; simpl; [reflexivity|].
  now rewrite IH, perform_keeps_self.
Qed.

(** What a run of calls adds to the trace: the request of each call, from
    the client as it stood at the start. *)
Lemma perform_all_trace (ks : list call) (st : State Net) :
  trace (perform_all Net send ks st)
  = (trace st ++ map (fun k => Sent (request_of (self st) k)) ks)%list.
Proof.
  revert st; induction ks as [|k ks IH]; intros st; simpl.
  - now rewrite app_nil_r.
  - rewrite IH, perform_keeps_self, perform_sends. cbn [snd trace].
    now rewrite <- app_assoc.
Qed.

(** C5. Every verb method sends one request, to the base URL followed by
    the endpoint as given, with the client's timeout as the timeout of
    the session call; what the session call gives back or raises is what
    the method gives back or raises. *)
Theorem verb_methods_target_base_url_with_timeout (k : call) (st : State Net) :
  exists request : Request,
    trace (snd (perform Net send k st)) = (trace st ++ [Sent request])%list
    /\ fst (perform Net send k st) = fst (send request (net st))
    /\ method request = verb_of k
    /\ url request = base_url (self st) ++ endpoint_of k
    /\ req_timeout request = Some (timeout (self st)).
Proof.
  exists (request_of (self st) k). rewrite perform_sends. now repeat split.
Qed.

(** Each verb method is its case of [perform]. *)
Lemma verb_methods_listed (endpoint : string) (params json : option Py.json) :
  perform Net send (Get endpoint params) = get Net send endpoint params
  /\ perform Net send (Post endpoint json) = post Net send endpoint json
  /\ perform Net send (Put endpoint json) = put Net send endpoint json
  /\ perform Net send (Patch endpoint json) = patch Net send endpoint json
  /\ perform Net send (Delete endpoint) = delete Net send endpoint.
Proof. now repeat split. Qed.

Lemma same_key_refl (k : string) : CaseInsensitiveDict.same_key k k = true.
Proof. apply String.eqb_refl. Qed.

Lemma find_setitem_same (h : CaseInsensitiveDict.t) (k v : string) :
  CaseInsensitiveDict.find k (CaseInsensitiveDict.setitem h k v) = Some v.
Proof.
  induction h as [|[k0 v0] h IH]; simpl.
  - now rewrite same_key_refl.
  - destruct (CaseInsensitiveDict.same_key k k0) eqn:E; simpl.
    + now rewrite same_key_refl.
    + now rewrite E.
Qed.

Lemma find_setitem_other (h : CaseInsensitiveDict.t) (k k' v : string) :
  CaseInsensitiveDict.same_key k k' = false ->
  CaseInsensitiveDict.find k (CaseInsensitiveDict.setitem h k' v)
  = CaseInsensitiveDict.find k h.
Proof.
  intros Hk. induction h as [|[k0 v0] h IH]; simpl.
  - now rewrite Hk.
  - destruct (CaseInsensitiveDict.same_key k' k0) eqn:E; simpl.
    + rewrite Hk. unfold CaseInsensitiveDict.same_key in *.
      apply String.eqb_eq in E. rewrite <- E. now rewrite Hk.
    + now rewrite IH.
Qed.

(** Whatever the library's default headers, the two JSON headers are on
    the session once the constructor has run. *)
Lemma init_headers (base : string) (t : option Z) (st0 : State Net) :
  json_headers
    (headers (session (self (snd (__init__ Net default_headers base t st0))))).
Proof.
  unfold json_headers, __init__, set_self, session_headers_update, new_session,
    CaseInsensitiveDict.update.
  cbn [snd self session headers fold_left fst].
  split.
  - rewrite find_setitem_other by reflexivity. apply find_setitem_same.
  - apply find_setitem_same.
Qed.

(** C6. The constructor leaves the two JSON headers on the session;
    no verb method changes the client (its base URL, its timeout, its
    session headers); and every request of every run of calls that
    follows goes out with both headers. *)
Theorem init_installs_headers_and_calls_keep_client
    (base : string) (t : option Z) (st0 : State Net) :
  json_headers
    (headers (session (self (snd (__init__ Net default_headers base t st0)))))
  /\ (forall (k : call) (st : State Net),
        self (snd (perform Net send k st)) = self st)
  /\ (forall (ks : list call) (request : Request),
        In (Sent request)
           (trace (perform_all Net send ks
                     (snd (__init__ Net default_headers base t st0)))) ->
        In (Sent request) (trace st0) \/ json_headers (req_headers request)).
Proof.
  split; [apply init_headers|]. split; [apply perform_keeps_self|].
  intros ks request Hin. rewrite perform_all_trace in Hin.
  apply in_app_or in Hin. destruct Hin as [Hin|Hin].
  - now left.
  - right. apply in_map_iff in Hin. destruct Hin as [k [Hk _]].
    injection Hk as <-. unfold request_of. cbn [req_headers].
    exact (init_headers base t st0).
Qed.

Lemma close_closes (st : State Net) :
  close Net close_adapters st
  = (Return tt,
     {| self := self st; net := close_adapters (net st);
        trace := (trace st ++ [Closed])%list |}).
Proof. reflexivity. Qed.

Lemma exit_closes (exc_type : option string) (exc_val : option exn)
    (exc_tb : option traceback) (st : State Net) :
  __exit__ Net close_adapters traceback exc_type exc_val exc_tb st
  = (Return JNull,
     {| self := self st; net := close_adapters (net st);
        trace := (trace st ++ [Closed])%list |}).
Proof. reflexivity. Qed.

(** C7. Whatever it is given, [__exit__] does what [close] does: the
    session is closed, once. Used in a [with] statement, the client is
    closed after the body, whether the body returned or raised. *)
Theorem exit_closes_on_every_path
    (exc_type : option string) (exc_val : option exn) (exc_tb : option traceback)
    (st : State Net) :
  snd (__exit__ Net close_adapters traceback exc_type exc_val exc_tb st)
  = snd (close Net close_adapters st)
  /\ trace (snd (__exit__ Net close_adapters traceback exc_type exc_val exc_tb st))
     = (trace st ++ [Closed])%list
  /\ net (snd (__exit__ Net close_adapters traceback exc_type exc_val exc_tb st))
     = close_adapters (net st)
  /\ (forall (A : Type) (body : Self -> M Net A),
        snd (with_ Net close_adapters traceback traceback_of body st)
        = snd (close Net close_adapters (snd (body (self st) st)))).
Proof.
  repeat split. intros A body.
  unfold with_, __enter__, get_self.
  destruct (body (self st) st) as [[a|e] st2]; rewrite exit_closes; reflexivity.
Qed.

(** C10. [__exit__] returns [None], which is not a true value; so an
    exception raised by the body of a [with] statement comes out of the
    statement as it was raised, after the session has been closed. *)
Theorem exit_returns_none_and_exception_propagates
    (A : Type) (body : Self -> M Net A) (st st2 : State Net) (e : exn)
    (Hbody : body (self st) st = (Raise e, st2)) :
  fst (__exit__ Net close_adapters traceback
         (Some (class_name e)) (Some e) (Some (traceback_of e)) st2) = Return JNull
  /\ truthy JNull = false
  /\ with_ Net close_adapters traceback traceback_of body st
     = (Raise e,
        {| self := self st2; net := close_adapters (net st2);
           trace := (trace st2 ++ [Closed])%list |}).
Proof.
  repeat split. unfold with_, __enter__, get_self. rewrite Hbody, exit_closes.
  reflexivity.
Qed.

End ClientProperties.

(** A client on a network where every request times out: the [Timeout] of
    a [get] inside a [with] statement reaches the caller, and the session
    has been closed by then. *)
Lemma exit_returns_none_and_exception_propagates_on_timeout :
  fst (APIClient.__exit__ unit (fun n => n) unit
         (Some "Timeout") (Some Timeout) (Some tt)
         {| APIClient.self :=
              {| APIClient.base_url := APIEndpoints.BASE_URL;
                 APIClient.timeout := 10;
                 APIClient.session := {| APIClient.headers := [] |} |};
            APIClient.net := tt;
            APIClient.trace :=
              [APIClient.Sent
                 (request_of
                    {| APIClient.base_url := APIEndpoints.BASE_URL;
                       APIClient.timeout := 10;
                       APIClient.session := {| APIClient.headers := [] |} |}
                    (APIClient.Get APIEndpoints.USERS None))] |}) = Return JNull
  /\ truthy JNull = false
  /\ APIClient.with_ unit (fun n => n) unit (fun _ => tt)
       (fun _ => APIClient.get unit dead_network APIEndpoints.USERS None)
       {| APIClient.self :=
            {| APIClient.base_url := APIEndpoints.BASE_URL;
               APIClient.timeout := 10;
               APIClient.session := {| APIClient.headers := [] |} |};
          APIClient.net := tt;
          APIClient.trace := [] |}
     = (Raise Timeout,
        {| APIClient.self :=
             {| APIClient.base_url := APIEndpoints.BASE_URL;
                APIClient.timeout := 10;
                APIClient.session := {| APIClient.headers := [] |} |};
           APIClient.net := tt;
           APIClient.trace :=
             [APIClient.Sent
                (request_of
                   {| APIClient.base_url := APIEndpoints.BASE_URL;
                      APIClient.timeout := 10;
                      APIClient.session := {| APIClient.headers := [] |} |}
                   (APIClient.Get APIEndpoints.USERS None));
              APIClient.Closed] |}).
Proof.
  apply (exit_returns_none_and_exception_propagates unit (fun n => n) unit
           (fun _ => tt) requests.Response
           (fun _ => APIClient.get unit dead_network APIEndpoints.USERS None)).
  reflexivity.
Defined.


(** * Further properties *)

(** ** More on strings and dicts *)

Lemma str_app_assoc (a b c : string) : (a ++ b) ++ c = a ++ (b ++ c).
Proof. induction a as [|x a IH]; simpl; [reflexivity | now rewrite IH]. Qed.

Lemma str_app_nil_r (a : string) : a ++ "" = a.
Proof. induction a as [|x a IH]; simpl; [reflexivity | now rewrite IH]. Qed.

Lemma occurs_in_refl (s : string) : occurs_in s s.
Proof. exists "", "". simpl. now rewrite str_app_nil_r. Qed.

Lemma occurs_in_app_l (x a s : string) : occurs_in x s -> occurs_in x (a ++ s).
Proof.
  intros [before [after H]]. exists (a ++ before), after.
  now rewrite H, str_app_assoc.
Qed.

Lemma occurs_in_app_r (x s b : string) : occurs_in x s -> occurs_in x (s ++ b).
Proof.
  intros [before [after H]]. exists before, (after ++ b).
  now rewrite H, !str_app_assoc.
Qed.

Lemma occurs_in_trans (a b c : string) :
  occurs_in a b -> occurs_in b c -> occurs_in a c.
Proof.
  intros [b1 [b2 Hb]] [c1 [c2 Hc]]. exists (c1 ++ b1), (b2 ++ c2).
  now rewrite Hc, Hb, !str_app_assoc.
Qed.

Lemma join_occurs (sep x : string) (l : list string) :
  In x l -> occurs_in x (join sep l).
Proof.
  induction l as [|y l IH]; [contradiction|]. intros [->|Hin].
  - destruct l as [|z l]; [apply occurs_in_refl|].
    cbn [join]. apply occurs_in_app_r, occurs_in_refl.
  - destruct l as [|z l]; [contradiction|].
    cbn [join]. apply occurs_in_app_l, occurs_in_app_l. now apply IH.
Qed.

Lemma lookup_none_iff {V : Type} (d : list (string * V)) (key : string) :
  lookup key d = None <-> ~ In key (keys d).
Proof.
  induction d as [|[k v] d IH]; simpl.
  - tauto.
  - destruct (String.eqb key k) eqn:E.
    + apply String.eqb_eq in E. subst k. split; [discriminate|]. intros H.
      elim H. now left.
    + apply String.eqb_neq in E. split.
      * intros H [Hk|Hin]; [now elim E | now apply IH in H].
      * intros H. apply IH. intros Hin. apply H. now right.
Qed.

Lemma type_eqb_eq (a b : type_) : type_eqb a b = true <-> a = b.
Proof. destruct a, b; simpl; split; intros H; try reflexivity; discriminate. Qed.

(** ** The field checks, further *)

(** X1. [validate_field_exists] passes exactly when the field name is one
    of the keys of the body. When it is not, the [AssertionError] names
    the field and shows every key the body has. *)
Theorem validate_field_exists_passes_iff_key_listed
    (response_json : dict) (field_name : string) :
  (ResponseValidator.validate_field_exists response_json field_name = Return tt
   <-> In field_name (keys response_json))
  /\ (~ In field_name (keys response_json) ->
      exists msg : string,
        ResponseValidator.validate_field_exists response_json field_name
        = Raise (AssertionError msg)
        /\ occurs_in field_name msg
        /\ forall key : string,
             In key (keys response_json) -> occurs_in (repr_str key) msg).
Proof.
  pose proof (validate_field_exists_cases response_json field_name) as Hc.
  destruct (lookup field_name response_json) as [v|] eqn:Hl.
  - assert (In field_name (keys response_json)) as Hin.
    { destruct (in_dec string_dec field_name (keys response_json)) as [H|H];
        [exact H|]. apply lookup_none_iff in H. congruence. }
    split; [now rewrite Hc|]. intros Hn. contradiction.
  - assert (~ In field_name (keys response_json)) as Hn by now apply lookup_none_iff.
    split.
    + rewrite Hc. split; [discriminate | contradiction].
    + intros _. eexists. split; [exact Hc|]. split.
      * apply occurs_in_app_l, occurs_in_app_r, occurs_in_refl.
      * intros key Hk. do 3 apply occurs_in_app_l. unfold str_keys.
        apply occurs_in_app_l, occurs_in_app_r, join_occurs.
        now apply in_map.
Qed.

Lemma validate_field_type_cases
    (response_json : dict) (field_name : string) (expected_type : type_) :
  match lookup field_name response_json with
  | None =>
      ResponseValidator.validate_field_type response_json field_name expected_type
      = ResponseValidator.validate_field_exists response_json field_name
  | Some value =>
      if type_eqb (type_of value) expected_type
      then ResponseValidator.validate_field_type response_json field_name
             expected_type = Return tt
      else ResponseValidator.validate_field_type response_json field_name
             expected_type
           = Raise (AssertionError
                      ("Field '" ++ field_name ++ "' expected type "
                       ++ type_name expected_type ++ ", got "
                       ++ type_name (type_of value)))
  end.
Proof.
  unfold ResponseValidator.validate_field_type.
  pose proof (validate_field_exists_cases response_json field_name) as Hex.
  unfold getitem.
  destruct (lookup field_name response_json) as [value|]; rewrite Hex; cbn [bind].
  - unfold assert. destruct (type_eqb (type_of value) expected_type); reflexivity.
  - reflexivity.
Qed.

(** X2. [validate_field_type] passes exactly when the body has the field
    and the type of its value is the expected one. A missing field gives
    the [AssertionError] of [validate_field_exists], never a [KeyError];
    a value of another type gives an [AssertionError] that names the
    expected and the actual type. *)
Theorem validate_field_type_passes_iff_present_with_type
    (response_json : dict) (field_name : string) (expected_type : type_) :
  (ResponseValidator.validate_field_type response_json field_name expected_type
   = Return tt
   <-> exists value : json,
         lookup field_name response_json = Some value
         /\ type_of value = expected_type)
  /\ (lookup field_name response_json = None ->
      ResponseValidator.validate_field_type response_json field_name expected_type
      = ResponseValidator.validate_field_exists response_json field_name)
  /\ (forall value : json,
        lookup field_name response_json = Some value ->
        type_of value <> expected_type ->
        ResponseValidator.validate_field_type response_json field_name expected_type
        = Raise (AssertionError
                   ("Field '" ++ field_name ++ "' expected type "
                    ++ type_name expected_type ++ ", got "
                    ++ type_name (type_of value))))
  /\ (forall e : exn,
        ResponseValidator.validate_field_type response_json field_name expected_type
        = Raise e ->
        is_assertion_error e = true).
Proof.
  pose proof (validate_field_type_cases response_json field_name expected_type) as Hc.
  pose proof (validate_field_exists_cases response_json field_name) as Hex.
  destruct (lookup field_name response_json) as [value|] eqn:Hl.
  - destruct (type_eqb (type_of value) expected_type) eqn:Ht.
    + apply type_eqb_eq in Ht. rewrite Hc. repeat split.
      * intros _. now exists value.
      * discriminate.
      * intros v Hv Hne. injection Hv as <-. contradiction.
      * discriminate.
    + assert (type_of value <> expected_type) as Hne.
      { intros H. apply type_eqb_eq in H. congruence. }
      rewrite Hc. repeat split.
      * discriminate.
      * intros [v [Hv Hty]]. injection Hv as <-. contradiction.
      * discriminate.
      * intros v Hv _. now injection Hv as <-.
      * intros e H. now injection H as <-.
  - rewrite Hc, Hex. repeat split.
    + discriminate.
    + intros [v [Hv _]]. discriminate.
    + intros v Hv. discriminate.
    + intros e H. now injection H as <-.
Qed.

(** X3. The [int] check of [validate_field_type] is stricter than the
    schema type [integer]: a value that passes the first passes the
    second, and the values that pass the second only are the floats
    without a fraction, such as 1.0. A [bool] passes neither. *)
Theorem int_field_type_is_stricter_than_schema_integer
    (field_name : string) (value : json) :
  (ResponseValidator.validate_field_type [(field_name, value)] field_name t_int
   = Return tt -> jsonschema.is_type value "integer" = true)
  /\ ((jsonschema.is_type value "integer" = true
       /\ ResponseValidator.validate_field_type [(field_name, value)] field_name t_int
          <> Return tt)
      <-> exists x : PyFloat.float, value = JFloat x /\ PyFloat.is_integer x = true)
  /\ (forall b : bool,
        value = JBool b ->
        jsonschema.is_type value "integer" = false
        /\ ResponseValidator.validate_field_type [(field_name, value)] field_name t_int
           <> Return tt).
Proof.
  pose proof (validate_field_type_cases [(field_name, value)] field_name t_int) as Hc.
  cbn [lookup] in Hc. rewrite String.eqb_refl in Hc.
  destruct value as [|b|n|x|s|l|d]; cbn [type_of type_eqb] in Hc; rewrite Hc;
    cbn [jsonschema.is_type String.eqb Ascii.eqb Bool.eqb orb andb];
    (split; [intros H; first [discriminate H | reflexivity] | split]).
  all: try (intros b0 Hb; first [discriminate Hb | split; [reflexivity|discriminate]]).
  all: split.
  all: try (intros [H1 H2]; first [discriminate H1 | now elim H2]).
  all: try (intros [y [Hy Hi]]; discriminate Hy).
  - intros [H1 _]. now exists x.
  - intros [y [Hy Hi]]. injection Hy as <-. split; [exact Hi | discriminate].
Qed.


(** X4. [validate_not_empty] is Python's truth test on the value, but for
    numbers: it passes exactly when the field is there and its value is
    true or is a [bool], an [int] or a [float], so zero and [False] pass. *)
Theorem validate_not_empty_is_truth_test_but_for_numbers
    (response_json : dict) (field_name : string) :
  ResponseValidator.validate_not_empty response_json field_name = Return tt
  <-> exists value : json,
        lookup field_name response_json = Some value
        /\ (truthy value = true \/ is_number value = true).
Proof.
  pose proof (validate_not_empty_cases response_json field_name) as Hc.
  destruct (lookup field_name response_json) as [value|] eqn:Hl.
  - destruct (py_in value [JNull; JStr ""; JList []; JDict []]) eqn:Hin.
    + apply py_in_empties in Hin. rewrite Hc. split; [discriminate|].
      intros [v [Hv Ht]]. injection Hv as <-.
      destruct Hin as [-> | [-> | [-> | ->]]]; destruct Ht; discriminate.
    + rewrite Hc. split; [|reflexivity]. intros _. exists value.
      split; [reflexivity|].
      destruct value as [|b|n|x|s|l|d]; cbn [is_number truthy]; auto.
      * left. destruct s; [cbn in Hin; discriminate Hin | reflexivity].
      * left. destruct l; [cbn in Hin; discriminate Hin | reflexivity].
      * left. destruct d; [cbn in Hin; discriminate Hin | reflexivity].
  - destruct Hc as [msg Hc]. rewrite Hc. split; [discriminate|].
    intros [v [Hv _]]; discriminate.
Qed.

(** ** The latency check, further *)

Lemma validate_response_time_passes_iff (response : requests.Response) (max_time_ms : Z) :
  ResponseValidator.validate_response_time response max_time_ms = Return tt
  <-> PyFloat.lt_int (ResponseValidator.response_time_ms response) max_time_ms = true.
Proof.
  unfold ResponseValidator.validate_response_time, assert.
  destruct (PyFloat.lt_int _ max_time_ms); split; try discriminate; reflexivity.
Qed.

Lemma lt_int_mono (x : PyFloat.float) (n n' : Z) :
  PyFloat.lt_int x n = true -> n <= n' -> PyFloat.lt_int x n' = true.
Proof.
  destruct x as [s|s| |s m e]; simpl; try easy.
  - rewrite !Z.ltb_lt. lia.
  - destruct (0 <=? e) eqn:He; rewrite !Z.ltb_lt; intros H Hn; [lia|].
    apply Z.leb_gt in He.
    assert (0 < 2 ^ (- e)) as Hp by (apply Z.pow_pos_nonneg; lia). nia.
Qed.

(** X5. A response that passes the latency check with one threshold
    passes it with every greater one. *)
Theorem validate_response_time_monotone_in_threshold
    (response : requests.Response) (max_time_ms max_time_ms' : Z)
    (Hpass : ResponseValidator.validate_response_time response max_time_ms = Return tt)
    (Hle : max_time_ms <= max_time_ms') :
  ResponseValidator.validate_response_time response max_time_ms' = Return tt.
Proof.
  apply validate_response_time_passes_iff.
  apply validate_response_time_passes_iff in Hpass.
  now apply lt_int_mono with max_time_ms.
Qed.

Lemma validate_response_time_monotone_at_fixture :
  ResponseValidator.validate_response_time response_after_1001_ms
    TestData.MAX_RESPONSE_TIME_GET = Return tt.
Proof.
  apply (validate_response_time_monotone_in_threshold response_after_1001_ms 1001
           TestData.MAX_RESPONSE_TIME_GET).
  - vm_compute. reflexivity.
  - vm_compute. discriminate.
Defined.

(** Rounding keeps the sign. *)
Lemma binary_round_aux_sign (s : bool) (m e : Z) (l : location) :
  match binary_round_aux PyFloat.prec PyFloat.emax s m e l with
  | S754_zero s' | S754_infinity s' | S754_finite s' _ _ => s' = s
  | S754_nan => True
  end.
Proof.
  unfold binary_round_aux.
  destruct (shr_fexp PyFloat.prec PyFloat.emax m e l) as [mrs' e'].
  destruct (shr_fexp PyFloat.prec PyFloat.emax _ e' loc_Exact) as [mrs'' e''].
  destruct (shr_m mrs''); [reflexivity| |exact I].
  destruct (e'' <=? _); reflexivity.
Qed.

Lemma binary_normalize_not_negative (m e : Z) :
  0 <= m ->
  not_negative (binary_normalize PyFloat.prec PyFloat.emax m e false) = true.
Proof.
  intros Hm. destruct m as [|p|p]; [reflexivity| |lia].
  unfold binary_normalize, binary_round.
  destruct (shl_align _ _ _) as [mz ez].
  pose proof (binary_round_aux_sign false (Z.pos mz) ez loc_Exact) as Hs.
  destruct (binary_round_aux _ _ _ _ _ _); try subst s; reflexivity.
Qed.

Lemma total_seconds_not_negative (d : datetime.timedelta) :
  0 <= datetime.to_microseconds d ->
  not_negative (datetime.total_seconds d) = true.
Proof.
  intros Hd. unfold datetime.total_seconds, PyFloat.true_divide.
  assert ((datetime.to_microseconds d <? 0) = false) as -> by now apply Z.ltb_ge.
  apply binary_normalize_not_negative.
  set (n := Z.shiftl _ _).
  assert (0 <= n) by (apply Z.shiftl_nonneg; lia).
  assert (0 <= n / 1000000) by (apply Z.div_pos; lia).
  destruct (n mod 1000000 =? 0); lia.
Qed.

Lemma mul_int_not_negative (x : PyFloat.float) :
  not_negative x = true -> not_negative (PyFloat.mul_int x 1000) = true.
Proof.
  unfold PyFloat.mul_int.
  change (PyFloat.of_int 1000) with (S754_finite false 8796093022208000 (-43)).
  destruct x as [s|[|]| |[|] m e]; try discriminate; intros _; try reflexivity.
  unfold SFmul. cbn [xorb].
  pose proof (binary_round_aux_sign false
                (Z.pos (m * 8796093022208000)) (e + -43) loc_Exact) as Hs.
  destruct (binary_round_aux _ _ _ _ _ _); try subst s; reflexivity.
Qed.

Lemma lt_int_not_negative (x : PyFloat.float) (n : Z) :
  not_negative x = true -> n <= 0 -> PyFloat.lt_int x n = false.
Proof.
  destruct x as [s|[|]| |[|] m e]; try discriminate; intros _ Hn;
    cbn [PyFloat.lt_int]; try reflexivity.
  - apply Z.ltb_ge. lia.
  - pose proof (Pos2Z.is_pos m) as Hm.
    destruct (0 <=? e) eqn:He; apply Z.ltb_ge.
    + apply Z.leb_le in He.
      assert (0 < 2 ^ e) by (apply Z.pow_pos_nonneg; lia).
      assert (0 < Z.pos m * 2 ^ e) by (apply Z.mul_pos_pos; lia). lia.
    + apply Z.leb_gt in He.
      assert (0 < 2 ^ (- e)) by (apply Z.pow_pos_nonneg; lia).
      assert (n * 2 ^ (- e) <= 0) by (apply Z.mul_nonpos_nonneg; lia). lia.
Qed.

(** X6. With a threshold of zero or less the latency check fails every
    response, however fast: an elapsed time is not negative, and the
    comparison is strict. *)
Theorem validate_response_time_fails_without_a_positive_threshold
    (response : requests.Response) (max_time_ms : Z)
    (Helapsed : 0 <= datetime.to_microseconds (requests.elapsed response))
    (Hmax : max_time_ms <= 0) :
  ResponseValidator.validate_response_time response max_time_ms
  = Raise (AssertionError
             ("Response time "
              ++ PyFloat.format_2f (ResponseValidator.response_time_ms response)
              ++ "ms exceeds limit of " ++ str_int max_time_ms ++ "ms")).
Proof.
  unfold ResponseValidator.validate_response_time, assert.
  rewrite lt_int_not_negative; [reflexivity| |exact Hmax].
  unfold ResponseValidator.response_time_ms.
  now apply mul_int_not_negative, total_seconds_not_negative.
Qed.

Lemma validate_response_time_fails_at_zero_threshold :
  ResponseValidator.validate_response_time (response_with_headers []) 0
  = Raise (AssertionError "Response time 0.00ms exceeds limit of 0ms").
Proof.
  apply (validate_response_time_fails_without_a_positive_threshold
           (response_with_headers []) 0).
  - vm_compute. discriminate.
  - lia.
Defined.

(** ** The content type check, further *)

Lemma validate_content_type_passes_iff
    (response : requests.Response) (expected_type : string) :
  ResponseValidator.validate_content_type response (Some expected_type) = Return tt
  <-> occurs_in expected_type (content_type_of response).
Proof.
  unfold ResponseValidator.validate_content_type, content_type_of, assert.
  destruct (str_contains _ expected_type) eqn:E.
  - split; [intros _; now apply str_contains_iff | reflexivity].
  - split; [discriminate|]. intros H. apply str_contains_iff in H. congruence.
Qed.

(** X7. The content type check is a containment test: a response that
    passes for one expected type passes for every part of it, so for
    [json] when it does for [application/json]; and the empty expected
    type passes every response, with or without the header. *)
Theorem validate_content_type_is_a_containment_test (response : requests.Response) :
  ResponseValidator.validate_content_type response (Some "") = Return tt
  /\ (forall expected_type part : string,
        ResponseValidator.validate_content_type response (Some expected_type)
        = Return tt ->
        occurs_in part expected_type ->
        ResponseValidator.validate_content_type response (Some part) = Return tt).
Proof.
  split.
  - apply validate_content_type_passes_iff. exists "", (content_type_of response).
    reflexivity.
  - intros expected_type part Hpass Hpart.
    apply validate_content_type_passes_iff.
    apply validate_content_type_passes_iff in Hpass.
    now apply occurs_in_trans with expected_type.
Qed.

(** Among headers whose names differ beyond their case, as those of a
    [CaseInsensitiveDict] do, a header is found by any spelling of its
    name, wherever it stands. *)
Lemma find_in_distinct (h : CaseInsensitiveDict.t) (key name value : string) :
  distinct_names h ->
  In (name, value) h ->
  lower key = lower name ->
  CaseInsensitiveDict.find key h = Some value.
Proof.
  unfold distinct_names. intros Hd Hin Hkey.
  induction h as [|[k v] r IH]; [contradiction|].
  cbn [map fst] in Hd. inversion Hd as [|? ? Hk Hr]; subst.
  cbn [CaseInsensitiveDict.find]. unfold CaseInsensitiveDict.same_key.
  destruct Hin as [Heq|Hin].
  - injection Heq as -> ->. rewrite Hkey, String.eqb_refl. reflexivity.
  - destruct (String.eqb_spec (lower key) (lower k)) as [Hsame|Hother].
    + exfalso. apply Hk. rewrite <- Hsame, Hkey.
      change (lower name) with ((fun kv : string * string => lower (fst kv)) (name, value)).
      now apply in_map.
    + now apply IH.
Qed.

(** X8. The header is found under any spelling of its name and wherever
    it stands among the headers: for a response whose headers, their
    names different beyond their case as in any [CaseInsensitiveDict],
    hold a Content-Type in any case, the check passes exactly when the
    expected type occurs in the value of that header. The value is
    compared as it is, case and all. *)
Theorem validate_content_type_finds_header_in_any_case
    (headers : CaseInsensitiveDict.t) (name value expected_type : string)
    (Hheaders : distinct_names headers)
    (Hin : In (name, value) headers)
    (Hname : lower name = "content-type") :
  ResponseValidator.validate_content_type
    (response_with_headers headers) (Some expected_type)
  = Return tt
  <-> occurs_in expected_type value.
Proof.
  assert (content_type_of (response_with_headers headers) = value) as Hv.
  { unfold content_type_of, CaseInsensitiveDict.get, response_with_headers.
    cbn [requests.headers].
    now rewrite (find_in_distinct headers "Content-Type" name value Hheaders Hin). }
  rewrite validate_content_type_passes_iff, Hv. tauto.
Qed.

Lemma validate_content_type_finds_upper_case_header :
  ResponseValidator.validate_content_type
    (response_with_headers
       [("Server", "cloudflare");
        ("CONTENT-TYPE", "application/json; charset=utf-8")])
    (Some "application/json")
  = Return tt
  <-> occurs_in "application/json" "application/json; charset=utf-8".
Proof.
  apply (validate_content_type_finds_header_in_any_case
           [("Server", "cloudflare");
            ("CONTENT-TYPE", "application/json; charset=utf-8")]
           "CONTENT-TYPE" "application/json; charset=utf-8" "application/json").
  - unfold distinct_names. simpl.
    repeat (constructor; [simpl; intuition discriminate|]). constructor.
  - simpl. right. left. reflexivity.
  - reflexivity.
Defined.


(** ** The schemas of the fixtures *)

Lemma accepts_iff_no_error (schema instance : json) :
  jsonschema.check_schema schema = true ->
  (accepts schema instance <-> jsonschema.iter_errors schema instance = []).
Proof.
  intros Hs. unfold accepts. rewrite validate_json_schema_verdict by exact Hs.
  destruct (jsonschema.iter_errors schema instance); split; congruence.
Qed.

Lemma app_nil_intro {A : Type} (a b : list A) : a = [] -> b = [] -> (a ++ b)%list = [].
Proof. now intros -> ->. Qed.

Lemma strings_map_JStr (l : list string) : jsonschema.strings (map JStr l) = Some l.
Proof. induction l as [|x l IH]; simpl; [reflexivity | now rewrite IH]. Qed.

(** The errors of an object under an object schema: one for each required
    property it lacks, and those of each known property it has. *)
Lemma object_schema_errors_nil
    (props : list (string * json)) (required : list string) (obj : dict) :
  jsonschema.iter_errors (object_schema props required) (JDict obj) = []
  <-> (forall property : string,
         In property required -> contains_key property obj = true)
      /\ (forall (property : string) (sub value : json),
            In (property, sub) props ->
            lookup property obj = Some value ->
            jsonschema.iter_errors sub value = []).
Proof.
  unfold object_schema.
  cbn [jsonschema.iter_errors String.eqb Ascii.eqb Bool.eqb jsonschema.type_errors
       existsb jsonschema.is_type orb app].
  rewrite app_nil_r. unfold jsonschema.required_errors.
  rewrite strings_map_JStr. split.
  - intros H. apply app_eq_nil in H. destruct H as [Hp Hr]. split.
    + intros property Hin. apply map_eq_nil in Hr.
      destruct (contains_key property obj) eqn:E; [reflexivity|].
      assert (In property
                (filter (fun p => negb (contains_key p obj)) required)) as Hf.
      { apply filter_In. split; [exact Hin | now rewrite E]. }
      rewrite Hr in Hf. contradiction.
    + clear Hr. induction props as [|[p s] props IH]; [contradiction|].
      apply app_eq_nil in Hp. destruct Hp as [Hp1 Hp2].
      intros property sub value [Heq|Hin] Hl.
      * injection Heq as -> ->. rewrite Hl in Hp1.
        now apply map_eq_nil in Hp1.
      * now apply (IH Hp2 property sub value).
  - intros [Hr Hp]. apply app_nil_intro.
    + induction props as [|[p s] props IH]; [reflexivity|].
      apply app_nil_intro.
      * destruct (lookup p obj) as [x|] eqn:Hl; [|reflexivity].
        rewrite (Hp p s x (or_introl eq_refl) Hl). reflexivity.
      * apply IH. intros property sub value Hin. apply Hp. now right.
    + assert (filter (fun p => negb (contains_key p obj)) required = []) as ->;
        [|reflexivity].
      induction required as [|r required IH]; [reflexivity|]. simpl.
      rewrite (Hr r (or_introl eq_refl)). simpl. apply IH.
      intros property Hin. apply Hr. now right.
Qed.

Lemma object_schema_refuses_non_objects
    (props : list (string * json)) (required : list string) (instance : json) :
  jsonschema.iter_errors (object_schema props required) instance = [] ->
  exists obj : dict, instance = JDict obj.
Proof.
  unfold object_schema.
  cbn [jsonschema.iter_errors String.eqb Ascii.eqb Bool.eqb jsonschema.type_errors
       existsb].
  destruct instance as [| | | | | |obj];
    cbn [jsonschema.is_type String.eqb Ascii.eqb Bool.eqb orb andb app];
    try discriminate.
  intros _. now exists obj.
Qed.

(** X9. A schema made of the type [object], schemas for known properties
    and a list of required names, which the metaschema accepts and which
    uses no keyword outside the model at any depth, accepts exactly the
    objects that have every required property and whose known
    properties, where present, are accepted by their schemas. Properties
    the schema does not know are not looked at. *)
Theorem object_schema_accepts_iff
    (props : list (string * json)) (required : list string) (instance : json)
    (Hfragment : jsonschema.in_fragment (object_schema props required) = true)
    (Hschema : jsonschema.check_schema (object_schema props required) = true) :
  accepts (object_schema props required) instance
  <-> exists obj : dict,
        instance = JDict obj
        /\ (forall property : string,
              In property required -> contains_key property obj = true)
        /\ (forall (property : string) (sub value : json),
              In (property, sub) props ->
              lookup property obj = Some value ->
              accepts sub value).
Proof.
  clear Hfragment.
  assert (forall (property : string) (sub : json),
             In (property, sub) props -> jsonschema.check_schema sub = true) as Hsub.
  { revert Hschema. unfold object_schema.
    cbn [jsonschema.check_schema String.eqb Ascii.eqb Bool.eqb].
    intros H. apply andb_prop in H. destruct H as [_ H].
    apply andb_prop in H. destruct H as [H _]. revert H.
    induction props as [|[p s] props IH]; [contradiction|].
    intros H property sub [Heq|Hin].
    - injection Heq as -> ->. now apply andb_prop in H.
    - apply andb_prop in H. now apply (IH (proj2 H) property sub). }
  rewrite accepts_iff_no_error by exact Hschema. split.
  - intros H. destruct (object_schema_refuses_non_objects _ _ _ H) as [obj ->].
    apply object_schema_errors_nil in H. destruct H as [Hr Hp].
    exists obj. split; [reflexivity|]. split; [exact Hr|].
    intros property sub value Hin Hl.
    apply accepts_iff_no_error; [now apply (Hsub property)|].
    now apply (Hp property).
  - intros [obj [-> [Hr Hp]]]. apply object_schema_errors_nil. split; [exact Hr|].
    intros property sub value Hin Hl.
    apply accepts_iff_no_error; [now apply (Hsub property)|].
    now apply (Hp property).
Qed.

Lemma object_schema_accepts_iff_at_post_schema :
  accepts TestData.POST_SCHEMA (JDict TestData.VALID_POST_CREATE)
  <-> exists obj : dict,
        JDict TestData.VALID_POST_CREATE = JDict obj
        /\ (forall property : string,
              In property ["id"; "userId"; "title"; "body"] ->
              contains_key property obj = true)
        /\ (forall (property : string) (sub value : json),
              In (property, sub)
                 [("id", TestData.typed "integer");
                  ("userId", TestData.typed "integer");
                  ("title", TestData.typed "string");
                  ("body", TestData.typed "string")] ->
              lookup property obj = Some value ->
              accepts sub value).
Proof.
  apply (object_schema_accepts_iff
           [("id", TestData.typed "integer");
            ("userId", TestData.typed "integer");
            ("title", TestData.typed "string");
            ("body", TestData.typed "string")]
           ["id"; "userId"; "title"; "body"]
           (JDict TestData.VALID_POST_CREATE)).
  - reflexivity.
  - reflexivity.
Defined.


Lemma typed_errors_nil (t : string) (value : json) :
  jsonschema.iter_errors (TestData.typed t) value = []
  <-> jsonschema.is_type value t = true.
Proof.
  unfold TestData.typed.
  cbn [jsonschema.iter_errors String.eqb Ascii.eqb Bool.eqb].
  unfold jsonschema.type_errors. cbn [existsb].
  rewrite orb_false_r, app_nil_r.
  destruct (jsonschema.is_type value t); split; congruence.
Qed.

Lemma typed_format_errors_nil (t f : string) (value : json) :
  jsonschema.iter_errors (JDict [("type", JStr t); ("format", JStr f)]) value = []
  <-> jsonschema.is_type value t = true.
Proof.
  cbn [jsonschema.iter_errors String.eqb Ascii.eqb Bool.eqb].
  unfold jsonschema.type_errors. cbn [existsb].
  rewrite orb_false_r.
  destruct (jsonschema.is_type value t); cbn [app]; split; congruence.
Qed.

Lemma contains_key_true_iff (obj : dict) (key : string) :
  contains_key key obj = true <-> exists value : json, lookup key obj = Some value.
Proof.
  unfold contains_key. destruct (lookup key obj) as [v|].
  - split; eauto.
  - split; [discriminate | intros [v H]; discriminate].
Qed.

(** What [USER_SCHEMA] accepts. *)
Lemma user_schema_accepts_objects (instance : json) :
  accepts TestData.USER_SCHEMA instance
  <-> exists obj : dict,
        instance = JDict obj
        /\ has_typed obj "id" "integer"
        /\ has_typed obj "name" "string"
        /\ has_typed obj "username" "string"
        /\ has_typed obj "email" "string"
        /\ typed_if_present obj "phone" "string"
        /\ typed_if_present obj "website" "string".
Proof.
  rewrite accepts_iff_no_error by reflexivity.
  change TestData.USER_SCHEMA with
    (object_schema
       [("id", TestData.typed "integer");
        ("name", TestData.typed "string");
        ("username", TestData.typed "string");
        ("email", JDict [("type", JStr "string"); ("format", JStr "email")]);
        ("phone", TestData.typed "string");
        ("website", TestData.typed "string")]
       ["id"; "name"; "username"; "email"]).
  split.
  - intros H. destruct (object_schema_refuses_non_objects _ _ _ H) as [obj ->].
    apply object_schema_errors_nil in H. destruct H as [Hr Hp].
    exists obj. split; [reflexivity|].
    assert (forall property t sub,
               In property ["id"; "name"; "username"; "email"] ->
               In (property, sub)
                  [("id", TestData.typed "integer");
                   ("name", TestData.typed "string");
                   ("username", TestData.typed "string");
                   ("email", JDict [("type", JStr "string"); ("format", JStr "email")]);
                   ("phone", TestData.typed "string");
                   ("website", TestData.typed "string")] ->
               (forall value, jsonschema.iter_errors sub value = []
                              <-> jsonschema.is_type value t = true) ->
               has_typed obj property t) as Hreq.
    { intros property t sub Hin Hps Hsub.
      destruct (proj1 (contains_key_true_iff obj property) (Hr property Hin))
        as [value Hl].
      exists value. split; [exact Hl|]. apply Hsub. now apply (Hp property). }
    assert (forall property t sub,
               In (property, sub)
                  [("id", TestData.typed "integer");
                   ("name", TestData.typed "string");
                   ("username", TestData.typed "string");
                   ("email", JDict [("type", JStr "string"); ("format", JStr "email")]);
                   ("phone", TestData.typed "string");
                   ("website", TestData.typed "string")] ->
               (forall value, jsonschema.iter_errors sub value = []
                              <-> jsonschema.is_type value t = true) ->
               typed_if_present obj property t) as Hopt.
    { intros property t sub Hps Hsub value Hl. apply Hsub.
      now apply (Hp property). }
    repeat split.
    + apply (Hreq "id" "integer" (TestData.typed "integer")); simpl; auto.
      apply typed_errors_nil.
    + apply (Hreq "name" "string" (TestData.typed "string")); simpl; auto.
      apply typed_errors_nil.
    + apply (Hreq "username" "string" (TestData.typed "string")); simpl; auto.
      apply typed_errors_nil.
    + apply (Hreq "email" "string"
               (JDict [("type", JStr "string"); ("format", JStr "email")]));
        simpl; auto 6.
      exact (typed_format_errors_nil "string" "email").
    + apply (Hopt "phone" "string" (TestData.typed "string")); simpl; auto 6.
      apply typed_errors_nil.
    + apply (Hopt "website" "string" (TestData.typed "string")); simpl; auto 7.
      apply typed_errors_nil.
  - intros [obj [-> [Hid [Hname [Huser [Hemail [Hphone Hweb]]]]]]].
    apply object_schema_errors_nil. split.
    + intros property Hin. apply contains_key_true_iff.
      destruct Hin as [<-|[<-|[<-|[<-|[]]]]].
      * destruct Hid as [v [Hv _]]; eauto.
      * destruct Hname as [v [Hv _]]; eauto.
      * destruct Huser as [v [Hv _]]; eauto.
      * destruct Hemail as [v [Hv _]]; eauto.
    + intros property sub value Hin Hl.
      destruct Hin as [Heq|[Heq|[Heq|[Heq|[Heq|[Heq|[]]]]]]];
        injection Heq as <- <-.
      * apply typed_errors_nil. destruct Hid as [v [Hv Ht]]. congruence.
      * apply typed_errors_nil. destruct Hname as [v [Hv Ht]]. congruence.
      * apply typed_errors_nil. destruct Huser as [v [Hv Ht]]. congruence.
      * apply (proj2 (typed_format_errors_nil "string" "email" value)).
        destruct Hemail as [v [Hv Ht]]. congruence.
      * apply typed_errors_nil. now apply Hphone.
      * apply typed_errors_nil. now apply Hweb.
Qed.

(** X10. [USER_SCHEMA] accepts exactly the objects that have an integer
    [id] and strings for [name], [username] and [email], and whose
    [phone] and [website], when there, are strings. Nothing else is
    checked: other fields are let through, and so is any string as the
    email, as with the payload that has an empty one. *)
Theorem user_schema_accepts_iff (instance : json) :
  (accepts TestData.USER_SCHEMA instance
   <-> exists obj : dict,
         instance = JDict obj
         /\ has_typed obj "id" "integer"
         /\ has_typed obj "name" "string"
         /\ has_typed obj "username" "string"
         /\ has_typed obj "email" "string"
         /\ typed_if_present obj "phone" "string"
         /\ typed_if_present obj "website" "string")
  /\ (forall id : Z,
        accepts TestData.USER_SCHEMA
          (JDict (TestData.INVALID_USER_EMPTY_EMAIL ++ [("id", JInt id)])%list)).
Proof.
  split; [apply user_schema_accepts_objects | intros id; reflexivity].
Qed.

Lemma items_errors_nil (item : json) (index : Z) (l : list json) :
  items_errors item index l = []
  <-> Forall (fun x => jsonschema.iter_errors item x = []) l.
Proof.
  revert index; induction l as [|x l IH]; intros index; simpl.
  - split; [constructor | reflexivity].
  - split.
    + intros H. apply app_eq_nil in H. destruct H as [H1 H2].
      apply map_eq_nil in H1. constructor; [exact H1 | now apply (IH (index + 1))].
    + intros H. inversion H as [|? ? Hx Hl]; subst. rewrite Hx. simpl.
      now apply IH.
Qed.

(** The errors of a list under a list schema: those of its items, or the
    one of a list with items where none is allowed, and the one of the
    empty list. *)
Lemma nonempty_list_schema_errors (item : json) (l : list json) :
  jsonschema.iter_errors (nonempty_list_schema item) (JList l)
  = (match item with
     | JBool false => jsonschema.no_items_errors true l
     | _ => items_errors item 0 l
     end
     ++ jsonschema.minItems_errors true (JInt 1) (JList l))%list.
Proof.
  assert (forall index : Z,
             (fix all (index : Z) (l : list json) : list jsonschema.error :=
                match l with
                | [] => []
                | x :: r =>
                    (map (jsonschema.under (Index index)) (jsonschema.iter_errors item x)
                     ++ all (index + 1) r)%list
                end) index l
             = items_errors item index l) as Hall.
  { induction l as [|x l IH]; intros index; [reflexivity|].
    cbn [items_errors]. now rewrite <- IH. }
  unfold nonempty_list_schema.
  cbn [jsonschema.iter_errors String.eqb Ascii.eqb Bool.eqb jsonschema.type_errors
       jsonschema.matches_type_of lookup existsb jsonschema.is_type orb app].
  rewrite app_nil_r. f_equal.
  destruct item as [|[|]|n|x|s|items|kws]; try apply Hall. reflexivity.
Qed.

Lemma nonempty_list_schema_errors_nil (item : json) (l : list json) :
  jsonschema.iter_errors (nonempty_list_schema item) (JList l) = []
  <-> l <> [] /\ Forall (fun x => jsonschema.iter_errors item x = []) l.
Proof.
  rewrite nonempty_list_schema_errors.
  assert (l <> [] -> jsonschema.minItems_errors true (JInt 1) (JList l) = []) as Hmin.
  { intros Hne. destruct l as [|x l]; [now elim Hne|].
    unfold jsonschema.minItems_errors.
    assert ((Z.of_nat (List.length (x :: l)) <? 1) = false) as ->; [|reflexivity].
    apply Z.ltb_ge. simpl List.length. lia. }
  assert (forall (errors : list jsonschema.error),
             (errors ++ jsonschema.minItems_errors true (JInt 1) (JList l))%list = []
             <-> l <> [] /\ errors = []) as Happ.
  { intros errors. split.
    - intros H. apply app_eq_nil in H. destruct H as [He Hm]. split; [|exact He].
      intros ->. discriminate Hm.
    - intros [Hne ->]. now apply Hmin. }
  rewrite Happ.
  assert (item = JBool false \/ item <> JBool false) as [->|Hitem].
  { destruct item as [|[|]|n|x|s|items|kws]; (now left) || (right; discriminate). }
  - split.
    + intros [Hne Hno]. destruct l as [|x [|y l]]; [now elim Hne | | ]; discriminate Hno.
    + intros [Hne Hall]. destruct l as [|x l]; [now elim Hne|].
      inversion Hall as [|? ? Hx Hl]; subst. discriminate Hx.
  - assert (match item with
            | JBool false => jsonschema.no_items_errors true l
            | _ => items_errors item 0 l
            end = items_errors item 0 l) as ->.
    { destruct item as [|[|]|n|x|s|items|kws]; try reflexivity. now elim Hitem. }
    now rewrite items_errors_nil.
Qed.

(** X11. For an item schema that the metaschema accepts and that uses no
    keyword outside the model, the list schema of the shape of
    [USERS_LIST_SCHEMA] accepts exactly the lists that are not empty and
    whose every item the item schema accepts; the empty list and whatever
    is no list are refused. *)
Theorem nonempty_list_schema_accepts_iff (item instance : json)
    (Hfragment : jsonschema.in_fragment item = true)
    (Hitem : jsonschema.check_schema item = true) :
  accepts (nonempty_list_schema item) instance
  <-> exists l : list json,
        instance = JList l /\ l <> [] /\ Forall (accepts item) l.
Proof.
  assert (jsonschema.check_schema (nonempty_list_schema item) = true) as Hs.
  { unfold nonempty_list_schema.
    cbn [jsonschema.check_schema String.eqb Ascii.eqb Bool.eqb
         jsonschema.check_type_keyword jsonschema.mem jsonschema.simple_types existsb].
    rewrite Hitem. reflexivity. }
  rewrite accepts_iff_no_error by exact Hs.
  assert (forall l, Forall (accepts item) l
                    <-> Forall (fun x => jsonschema.iter_errors item x = []) l) as Hall.
  { intros l. rewrite !Forall_forall. split; intros H x Hx.
    - apply accepts_iff_no_error; [exact Hitem | now apply H].
    - apply accepts_iff_no_error; [exact Hitem | now apply H]. }
  split.
  - intros H. destruct instance as [| | | | |l|];
      try (revert H; unfold nonempty_list_schema;
           cbn [jsonschema.iter_errors String.eqb Ascii.eqb Bool.eqb
                jsonschema.type_errors existsb jsonschema.is_type orb andb app];
           discriminate).
    apply nonempty_list_schema_errors_nil in H. destruct H as [Hne Hl].
    exists l. split; [reflexivity|]. split; [exact Hne | now apply Hall].
  - intros [l [-> [Hne Hl]]]. apply nonempty_list_schema_errors_nil.
    split; [exact Hne | now apply Hall].
Qed.

Lemma nonempty_list_schema_accepts_iff_at_users_list :
  accepts TestData.USERS_LIST_SCHEMA
    (JList [JDict (TestData.VALID_USER_CREATE ++ [("id", JInt 11)])%list])
  <-> exists l : list json,
        JList [JDict (TestData.VALID_USER_CREATE ++ [("id", JInt 11)])%list] = JList l
        /\ l <> [] /\ Forall (accepts TestData.USER_SCHEMA) l.
Proof.
  apply (nonempty_list_schema_accepts_iff TestData.USER_SCHEMA
           (JList [JDict (TestData.VALID_USER_CREATE ++ [("id", JInt 11)])%list])).
  - reflexivity.
  - reflexivity.
Defined.


(** ** The endpoint templates *)

(** X12. Filled with an id, each by-id template of the registry is the
    path of its collection, a slash and the id in decimal; the filters by
    user are the collection path with the query [?userId=] and the id,
    and the comments of a post hang under the path of the post. Filled
    without the keyword it names, a template raises a [KeyError] for that
    name. *)
Theorem endpoint_templates_fill_in (id : Z) :
  PyFormat.format APIEndpoints.USER_BY_ID [("user_id", JInt id)]
  = Some (Return (APIEndpoints.USERS ++ "/" ++ str_int id))
  /\ PyFormat.format APIEndpoints.POST_BY_ID [("post_id", JInt id)]
     = Some (Return (APIEndpoints.POSTS ++ "/" ++ str_int id))
  /\ PyFormat.format APIEndpoints.COMMENT_BY_ID [("comment_id", JInt id)]
     = Some (Return (APIEndpoints.COMMENTS ++ "/" ++ str_int id))
  /\ PyFormat.format APIEndpoints.ALBUM_BY_ID [("album_id", JInt id)]
     = Some (Return (APIEndpoints.ALBUMS ++ "/" ++ str_int id))
  /\ PyFormat.format APIEndpoints.PHOTO_BY_ID [("photo_id", JInt id)]
     = Some (Return (APIEndpoints.PHOTOS ++ "/" ++ str_int id))
  /\ PyFormat.format APIEndpoints.USER_POSTS [("user_id", JInt id)]
     = Some (Return (APIEndpoints.POSTS ++ "?userId=" ++ str_int id))
  /\ PyFormat.format APIEndpoints.USER_ALBUMS [("user_id", JInt id)]
     = Some (Return (APIEndpoints.ALBUMS ++ "?userId=" ++ str_int id))
  /\ PyFormat.format APIEndpoints.POST_COMMENTS [("post_id", JInt id)]
     = Some (Return (APIEndpoints.POSTS ++ "/" ++ str_int id ++ "/comments"))
  /\ (forall kwargs : list (string * json),
        lookup "user_id" kwargs = None ->
        PyFormat.format APIEndpoints.USER_BY_ID kwargs
        = Some (Raise (KeyError "user_id"))).
Proof.
  repeat split;
    try (unfold PyFormat.format; cbn; now rewrite ?str_app_nil_r).
  intros kwargs Hl. unfold PyFormat.format. cbn.
  unfold PyFormat.field_value. cbn. now rewrite Hl.
Qed.

(** ** The client, further *)

Lemma setitem_names (h : CaseInsensitiveDict.t) (k v : string) :
  In (lower k) (map (fun kv => lower (fst kv)) h) ->
  map (fun kv => lower (fst kv)) (CaseInsensitiveDict.setitem h k v)
  = map (fun kv => lower (fst kv)) h.
Proof.
  induction h as [|[k0 v0] h IH]; simpl; [contradiction|].
  unfold CaseInsensitiveDict.same_key.
  destruct (String.eqb (lower k) (lower k0)) eqn:E; simpl.
  - apply String.eqb_eq in E. now rewrite E.
  - apply String.eqb_neq in E. intros [H|H]; [now elim E|]. now rewrite IH.
Qed.

Lemma setitem_new_name (h : CaseInsensitiveDict.t) (k v : string) :
  ~ In (lower k) (map (fun kv => lower (fst kv)) h) ->
  map (fun kv => lower (fst kv)) (CaseInsensitiveDict.setitem h k v)
  = (map (fun kv => lower (fst kv)) h ++ [lower k])%list.
Proof.
  induction h as [|[k0 v0] h IH]; simpl; [reflexivity|].
  unfold CaseInsensitiveDict.same_key.
  destruct (String.eqb (lower k) (lower k0)) eqn:E; simpl.
  - apply String.eqb_eq in E. intros H. elim H. now left.
  - intros H. rewrite IH; [reflexivity|]. intros Hin. apply H. now right.
Qed.

(** Writing a header keeps the names distinct. *)
Lemma setitem_distinct (h : CaseInsensitiveDict.t) (k v : string) :
  distinct_names h -> distinct_names (CaseInsensitiveDict.setitem h k v).
Proof.
  unfold distinct_names. intros Hd.
  destruct (in_dec string_dec (lower k) (map (fun kv => lower (fst kv)) h))
    as [Hin|Hn].
  - now rewrite setitem_names.
  - rewrite setitem_new_name by exact Hn.
    apply NoDup_app; [exact Hd | repeat constructor; intros [] |].
    intros x Hx [<-|[]]. contradiction.
Qed.

Section ClientFurther.

Import APIClient.

Variable Net : Type.
Variable send : Request -> Net -> result requests.Response * Net.
Variable close_adapters : Net -> Net.
Variable default_headers : CaseInsensitiveDict.t.

(** X13. The constructor changes the session headers in two places only:
    every default header other than Content-Type and Accept is still
    found with its value, and when the default names are distinct, those
    of the session are too, so there is one Content-Type and one Accept
    and no second copy under another spelling. *)
Theorem init_keeps_other_headers_and_adds_no_duplicate
    (base : string) (t : option Z) (st0 : State Net) :
  (forall name : string,
      CaseInsensitiveDict.same_key name "Content-Type" = false ->
      CaseInsensitiveDict.same_key name "Accept" = false ->
      CaseInsensitiveDict.find name
        (headers (session (self (snd (__init__ Net default_headers base t st0)))))
      = CaseInsensitiveDict.find name default_headers)
  /\ (distinct_names default_headers ->
      distinct_names
        (headers (session (self (snd (__init__ Net default_headers base t st0)))))).
Proof.
  unfold __init__, set_self, session_headers_update, new_session,
    CaseInsensitiveDict.update.
  cbn [snd self session headers fold_left fst].
  split.
  - intros name Hc Ha. now rewrite !find_setitem_other.
  - intros Hd. now apply setitem_distinct, setitem_distinct.
Qed.

(** X14. A run of verb calls sends one request for each call, in the
    order of the calls and whatever the outcome of each: nothing is
    retried and nothing is skipped after a failure. The base URL, the
    timeout and the headers are those the client had at the start. *)
Theorem calls_send_one_request_each_in_order (ks : list call) (st : State Net) :
  trace (perform_all Net send ks st)
  = (trace st ++ map (fun k => Sent (request_of (self st) k)) ks)%list
  /\ List.length (trace (perform_all Net send ks st))
     = (List.length (trace st) + List.length ks)%nat
  /\ self (perform_all Net send ks st) = self st.
Proof.
  split; [apply perform_all_trace|]. split; [|apply perform_all_keeps_self].
  now rewrite perform_all_trace, length_app, length_map.
Qed.

(** X15. Under the [api_client] fixture, every request of the calls in
    between goes to [get_full_url] of its endpoint, with a timeout of ten
    seconds and the JSON headers, and the session is closed once, after
    the last call. *)
Theorem api_client_fixture_requests_and_closes (ks : list call) (st : State Net) :
  trace (snd (conftest.api_client Net close_adapters default_headers
                (fun st1 => (Return tt, perform_all Net send ks st1)) st))
  = (trace st
     ++ map (fun k => Sent (fixture_request default_headers k)) ks
     ++ [Closed])%list.
Proof.
  unfold conftest.api_client.
  destruct (__init__ Net default_headers APIEndpoints.BASE_URL None st)
    as [r1 st1] eqn:Hinit.
  cbn [snd]. unfold close, bindM, get_self, session_close. cbn [snd trace].
  rewrite perform_all_trace.
  assert (st1 = snd (__init__ Net default_headers APIEndpoints.BASE_URL None st))
    as -> by now rewrite Hinit.
  unfold __init__, set_self. cbn [snd self trace].
  now rewrite <- app_assoc.
Qed.

End ClientFurther.

Lemma init_keeps_other_headers_at_requests_defaults :
  distinct_names
    (APIClient.headers
       (APIClient.session
          (APIClient.self
             (snd (APIClient.__init__ unit
                     [("User-Agent", "python-requests/2.31.0");
                      ("Accept-Encoding", "gzip, deflate");
                      ("Accept", "*/*");
                      ("Connection", "keep-alive")]
                     APIEndpoints.BASE_URL None
                     {| APIClient.self :=
                          {| APIClient.base_url := ""; APIClient.timeout := 0;
                             APIClient.session := {| APIClient.headers := [] |} |};
                        APIClient.net := tt; APIClient.trace := [] |}))))).
Proof.
  apply (init_keeps_other_headers_and_adds_no_duplicate unit
           [("User-Agent", "python-requests/2.31.0");
            ("Accept-Encoding", "gzip, deflate");
            ("Accept", "*/*");
            ("Connection", "keep-alive")]
           APIEndpoints.BASE_URL None).
  unfold distinct_names. simpl.
  repeat (constructor; [simpl; intuition discriminate|]). constructor.
Defined.


(** ** The tests *)

Section TestProperties.

Import APIClient.
Import conftest.

Variable Net : Type.
Variable send : Request -> Net -> result requests.Response * Net.
Variable json_of : requests.Response -> result json.

(** The steps of a test body, one at a time. *)
Lemma bind_check_return {A B : Type} (a : A) (k : A -> T Net B) (run : Run Net) :
  conftest.bind (check (Return a)) k run = k a run.
Proof. reflexivity. Qed.

Lemma bind_check_raise {A B : Type} (e : exn) (k : A -> T Net B) (run : Run Net) :
  conftest.bind (check (@Raise A e)) k run = (Raise e, run).
Proof. reflexivity. Qed.

Lemma bind_call {B : Type} (c : call) (k : requests.Response -> T Net B)
    (run : Run Net) :
  conftest.bind (on_client (perform Net send c)) k run
  = match outcome_of_call Net send c run with
    | Return response => k response (after_call Net send c run)
    | Raise e => (Raise e, after_call Net send c run)
    end.
Proof.
  unfold conftest.bind, on_client, outcome_of_call, after_call.
  rewrite perform_sends. cbn [fst snd].
  destruct (fst (send _ _)); reflexivity.
Qed.

Lemma keeps_check {A : Type} (r : result A) : keeps_client Net (check r).
Proof. intros run. reflexivity. Qed.

Lemma keeps_ret {A : Type} (a : A) : keeps_client Net (conftest.ret a).
Proof. intros run. reflexivity. Qed.

Lemma keeps_printing {A : Type} (p : ResponseValidator.printed A) :
  keeps_client Net (printing p).
Proof. intros run. reflexivity. Qed.

Lemma keeps_append (item : string * json) : keeps_client Net (append_created item).
Proof. intros run. reflexivity. Qed.

Lemma keeps_bind {A B : Type} (t : T Net A) (k : A -> T Net B) :
  keeps_client Net t -> (forall a : A, keeps_client Net (k a)) ->
  keeps_client Net (conftest.bind t k).
Proof.
  intros Ht Hk run. unfold conftest.bind.
  destruct (t run) as [[a|e] run'] eqn:E.
  - rewrite Hk. specialize (Ht run). now rewrite E in Ht.
  - specialize (Ht run). now rewrite E in Ht.
Qed.

Lemma call_then_keeps {B : Type} (c : call) (k : requests.Response -> T Net B)
    (run : Run Net) :
  (forall response : requests.Response, keeps_client Net (k response)) ->
  client (snd (conftest.bind (on_client (perform Net send c)) k run))
  = client (after_call Net send c run).
Proof.
  intros Hk. rewrite bind_call.
  destruct (outcome_of_call Net send c run) as [response|e]; [apply Hk | reflexivity].
Qed.

Lemma call_raises {B : Type} (c : call) (k : requests.Response -> T Net B)
    (run : Run Net) (e : exn) :
  outcome_of_call Net send c run = Raise e ->
  conftest.bind (on_client (perform Net send c)) k run
  = (Raise e, after_call Net send c run).
Proof. intros H. now rewrite bind_call, H. Qed.

End TestProperties.

Ltac keeps :=
  first
    [ apply keeps_check
    | apply keeps_ret
    | apply keeps_printing
    | apply keeps_append
    | apply keeps_bind; [keeps | intros ?; keeps]
    | match goal with
      | |- keeps_client _ (match ?x with _ => _ end) => destruct x; keeps
      end ].

Section SuiteProperties.

Import APIClient.
Import conftest.

Variable Net : Type.
Variable send : Request -> Net -> result requests.Response * Net.
Variable validate : json -> json -> result unit.
Variable json_of : requests.Response -> result json.

(** Each test is its one call, and then statements on the response. *)
Lemma suite_shape (t : T Net unit) (k : call) :
  In (t, k) (suite Net send validate json_of) ->
  exists rest : requests.Response -> T Net unit,
    (forall response : requests.Response, keeps_client Net (rest response))
    /\ forall run : Run Net,
         t run = conftest.bind (on_client (perform Net send k)) rest run.
Proof.
  unfold suite. intros Hin.
  repeat (destruct Hin as [Heq|Hin]; [injection Heq as <- <-|]); try contradiction.
  all: eexists; split; [|intros run; reflexivity]; intros response; cbv zeta; keeps.
Qed.

(** X16. Every test of the suite makes one call on the client and no
    other: after the test, whatever became of it, the trace has gained
    the one request of that call, to the base URL followed by the
    endpoint, and the base URL, the timeout and the session headers of
    the client are as before. *)
Theorem every_test_sends_one_request (t : T Net unit) (k : call) (run : Run Net)
    (Hin : In (t, k) (suite Net send validate json_of)) :
  trace (client (snd (t run)))
  = (trace (client run) ++ [Sent (request_of (self (client run)) k)])%list
  /\ url (request_of (self (client run)) k)
     = base_url (self (client run)) ++ endpoint_of k
  /\ self (client (snd (t run))) = self (client run).
Proof.
  destruct (suite_shape t k Hin) as [rest [Hkeeps Ht]].
  rewrite Ht, call_then_keeps by exact Hkeeps. now repeat split.
Qed.

(** X17. What the transport raises comes out of every test as it is: when
    the one call of a test ends in an exception, a [Timeout] or a
    [ConnectionError] say, the test ends in that exception, having
    printed nothing and recorded no resource. *)
Theorem every_test_lets_transport_errors_through
    (t : T Net unit) (k : call) (run : Run Net) (e : exn)
    (Hin : In (t, k) (suite Net send validate json_of))
    (Hraise : outcome_of_call Net send k run = Raise e) :
  fst (t run) = Raise e
  /\ stdout (snd (t run)) = stdout run
  /\ created_resources (snd (t run)) = created_resources run.
Proof.
  destruct (suite_shape t k Hin) as [rest [Hkeeps Ht]].
  rewrite Ht, (call_raises Net send k rest run e Hraise). now repeat split.
Qed.

End SuiteProperties.


(** ** When the tests pass *)

Section PassLemmas.

Import APIClient.
Import conftest.

Variable Net : Type.
Variable send : Request -> Net -> result requests.Response * Net.
Variable json_of : requests.Response -> result json.

Lemma passes_check {A B : Type} (r : result A) (k : A -> T Net B) (run : Run Net) (b : B) :
  fst (conftest.bind (check r) k run) = Return b
  <-> exists a : A, r = Return a /\ fst (k a run) = Return b.
Proof.
  destruct r as [a|e].
  - rewrite bind_check_return. split; [eauto|].
    intros [a' [Ha H]]. now injection Ha as ->.
  - rewrite bind_check_raise. split; [discriminate|].
    intros [a' [Ha _]]. discriminate.
Qed.

Lemma passes_check_unit {B : Type} (r : result unit) (k : unit -> T Net B)
    (run : Run Net) (b : B) :
  fst (conftest.bind (check r) k run) = Return b
  <-> r = Return tt /\ fst (k tt run) = Return b.
Proof.
  rewrite passes_check. split.
  - intros [[] H]. exact H.
  - intros H. now exists tt.
Qed.

Lemma passes_last_check {A : Type} (r : result A) (run : Run Net) (a : A) :
  fst (check r run) = Return a <-> r = Return a.
Proof. reflexivity. Qed.

Lemma passes_call {B : Type} (c : call) (k : requests.Response -> T Net B)
    (run : Run Net) (b : B) :
  fst (conftest.bind (on_client (perform Net send c)) k run) = Return b
  <-> exists response : requests.Response,
        outcome_of_call Net send c run = Return response
        /\ fst (k response (after_call Net send c run)) = Return b.
Proof.
  rewrite bind_call. destruct (outcome_of_call Net send c run) as [response|e].
  - split; [eauto|]. intros [r' [Hr H]]. now injection Hr as ->.
  - split; [discriminate|]. intros [r' [Hr _]]. discriminate.
Qed.

Lemma passes_bind {A B : Type} (t : T Net A) (k : A -> T Net B) (run : Run Net) (b : B) :
  fst (conftest.bind t k run) = Return b
  <-> exists (a : A) (run' : Run Net),
        t run = (Return a, run') /\ fst (k a run') = Return b.
Proof.
  unfold conftest.bind. destruct (t run) as [[a|e] run'].
  - split; [eauto|]. intros [a' [run'' [Ht H]]]. now injection Ht as -> ->.
  - split; [discriminate|]. intros [a' [run'' [Ht _]]]. discriminate.
Qed.

Lemma passes_printing {A B : Type} (p : ResponseValidator.printed A)
    (k : A -> T Net B) (run : Run Net) (b : B) :
  fst (conftest.bind (printing p) k run) = Return b
  <-> exists a : A, fst p = Return a /\ fst (k a (snd (printing p run))) = Return b.
Proof.
  rewrite passes_bind. unfold printing at 1. split.
  - intros [a [run' [Ht H]]]. injection Ht as Ha <-. eauto.
  - intros [a [Ha H]]. exists a. eexists. split; [|exact H].
    cbn [snd printing]. now rewrite Ha.
Qed.

Lemma assert_passes_iff (cond : bool) (msg : unit -> string) :
  assert cond msg = Return tt <-> cond = true.
Proof. unfold assert. destruct cond; split; congruence || reflexivity. Qed.

Lemma subscript_returns_iff (value : json) (key : string) (found : json) :
  subscript value key = Return found
  <-> exists obj : dict, value = JDict obj /\ lookup key obj = Some found.
Proof.
  unfold subscript, getitem. destruct value as [|b|n|x|s|l|d];
    try (split; [discriminate | intros [obj [Hv _]]; discriminate]).
  destruct (lookup key d) as [v|] eqn:E.
  - split.
    + intros H. injection H as ->. now exists d.
    + intros [obj [Hv Hl]]. injection Hv as <-. congruence.
  - split; [discriminate|]. intros [obj [Hv Hl]]. injection Hv as <-. congruence.
Qed.

Lemma string_field_not_empty_iff (obj : dict) (key : string) :
  has_typed obj key "string" ->
  (ResponseValidator.validate_not_empty obj key = Return tt
   <-> lookup key obj <> Some (JStr "")).
Proof.
  intros [value [Hl Ht]].
  pose proof (validate_not_empty_cases obj key) as Hc. rewrite Hl in Hc. rewrite Hl.
  destruct value as [|b|n|x|s|l|d]; try discriminate Ht.
  destruct s as [|c s]; cbn in Hc; rewrite Hc.
  - split; [discriminate | congruence].
  - split; [intros _; discriminate | reflexivity].
Qed.

Lemma validate_status_code_passes_iff (response : requests.Response) (code : Z) :
  ResponseValidator.validate_status_code response code = Return tt
  <-> requests.status_code response = code.
Proof.
  unfold ResponseValidator.validate_status_code, assert.
  destruct (Z.eqb_spec (requests.status_code response) code); split;
    congruence || reflexivity || discriminate.
Qed.

End PassLemmas.

(** The body of a test, its endpoint filled in and its call named. *)
Ltac open_test :=
  unfold passes;
  try unfold TestUsersCRUD.test_get_all_users;
  try unfold TestUsersCRUD.test_get_single_user;
  try unfold TestUsersCRUD.test_get_user_not_found;
  try unfold TestUsersCRUD.test_create_user;
  try unfold TestUsersCRUD.test_update_user;
  try unfold TestUsersCRUD.test_delete_user;
  try unfold TestPosts.test_get_all_posts;
  try unfold TestPosts.test_get_single_post;
  try unfold TestPosts.test_get_posts_by_user;
  try unfold TestPosts.test_get_post_comments;
  try unfold TestPosts.test_create_post;
  try unfold TestPosts.test_get_post_not_found;
  cbv zeta; cbv delta [APIEndpoints.USERS APIEndpoints.POSTS];
  repeat match goal with
    | |- context [conftest.format ?a ?b] =>
        let v := eval vm_compute in (conftest.format a b) in
        change (conftest.format a b) with v
    end;
  rewrite ?bind_check_return; cbv beta;
  repeat match goal with
    | |- context [APIClient.get ?N ?s ?e ?p] =>
        change (APIClient.get N s e p) with (APIClient.perform N s (APIClient.Get e p))
    | |- context [APIClient.post ?N ?s ?e ?p] =>
        change (APIClient.post N s e p) with (APIClient.perform N s (APIClient.Post e p))
    | |- context [APIClient.put ?N ?s ?e ?p] =>
        change (APIClient.put N s e p) with (APIClient.perform N s (APIClient.Put e p))
    | |- context [APIClient.delete ?N ?s ?e] =>
        change (APIClient.delete N s e) with (APIClient.perform N s (APIClient.Delete e))
    end.

Section PassConditions.

Import APIClient.
Import conftest.

Variable Net : Type.
Variable send : Request -> Net -> result requests.Response * Net.
Variable json_of : requests.Response -> result json.

(** X18. The three tests that look at the status alone pass exactly when
    their call returns a response with the status they expect: 404 for
    the user and the post numbered 99999, 200 for the deletion of user 1.
    Nothing else of the response is read, its body least of all. *)
Theorem status_tests_pass_iff_status (run : Run Net) :
  (passes (TestUsersCRUD.test_get_user_not_found Net send) run
   <-> exists response : requests.Response,
         outcome_of_call Net send (Get "/users/99999" None) run = Return response
         /\ requests.status_code response = 404)
  /\ (passes (TestUsersCRUD.test_delete_user Net send) run
      <-> exists response : requests.Response,
            outcome_of_call Net send (Delete "/users/1") run = Return response
            /\ requests.status_code response = 200)
  /\ (passes (TestPosts.test_get_post_not_found Net send) run
      <-> exists response : requests.Response,
            outcome_of_call Net send (Get "/posts/99999" None) run = Return response
            /\ requests.status_code response = 404).
Proof.
  split; [|split]; open_test; rewrite passes_call.
  all: split; intros [response [Hout H]]; exists response; (split; [exact Hout|]).
  all: first [ exact (proj1 (validate_status_code_passes_iff _ _) H)
             | exact (proj2 (validate_status_code_passes_iff _ _) H) ].
Qed.

(** X19. [test_get_single_user], with the library's [validate], passes
    exactly when the call for [/users/1] returns a response with status
    200 whose time passes the limit of 3000 ms and whose body decodes to
    an object that [USER_SCHEMA] accepts, with an [id] equal to 1 and
    with a name and an email other than the empty string. *)
Theorem test_get_single_user_passes_iff (run : Run Net) :
  passes (TestUsersCRUD.test_get_single_user Net send jsonschema.validate json_of) run
  <-> exists (response : requests.Response) (obj : dict) (id : json),
        outcome_of_call Net send (Get "/users/1" None) run = Return response
        /\ requests.status_code response = 200
        /\ ResponseValidator.validate_response_time response 3000 = Return tt
        /\ json_of response = Return (JDict obj)
        /\ accepts TestData.USER_SCHEMA (JDict obj)
        /\ lookup "id" obj = Some id
        /\ py_eq id (JInt 1) = true
        /\ lookup "name" obj <> Some (JStr "")
        /\ lookup "email" obj <> Some (JStr "").
Proof.
  open_test. rewrite passes_call. split.
  - intros [response [Hout H]].
    apply passes_check_unit in H. destruct H as [Hstatus H].
    apply passes_check_unit in H. destruct H as [Htime H].
    apply passes_check in H. destruct H as [data [Hdata H]].
    apply passes_printing in H. destruct H as [valid [Hvalid H]].
    apply passes_check_unit in H. destruct H as [Hassert H].
    apply assert_passes_iff in Hassert. subst valid.
    apply passes_check in H. destruct H as [id [Hid H]].
    pose proof Hid as Hid'.
    apply subscript_returns_iff in Hid'. destruct Hid' as [obj [-> Hlookup]].
    apply passes_bind in H. destruct H as [[] [run' [Heq H]]].
    destruct (py_eq id (JInt TestData.VALID_USER_ID)) eqn:Heq1.
    2:{ unfold conftest.bind, check in Heq. rewrite Hid in Heq. discriminate Heq. }
    apply passes_check_unit in H. destruct H as [Hname Hemail].
    pose proof (proj1 (user_schema_accepts_objects (JDict obj)) Hvalid)
      as [obj' [Hobj (_ & Hn & _ & He & _)]].
    injection Hobj as <-.
    exists response, obj, id. repeat split; try assumption.
    + now apply validate_status_code_passes_iff.
    + now apply (string_field_not_empty_iff obj "name").
    + now apply (string_field_not_empty_iff obj "email").
  - intros (response & obj & id & Hout & Hstatus & Htime & Hdata & Hvalid & Hid
            & Heq1 & Hname & Hemail).
    pose proof (proj1 (user_schema_accepts_objects (JDict obj)) Hvalid)
      as [obj' [Hobj (_ & Hn & _ & He & _)]].
    injection Hobj as <-.
    exists response. split; [exact Hout|].
    apply passes_check_unit. split; [now apply validate_status_code_passes_iff|].
    apply passes_check_unit. split; [exact Htime|].
    apply passes_check. exists (JDict obj). split; [exact Hdata|].
    apply passes_printing. exists true. split; [exact Hvalid|].
    apply passes_check_unit. split; [reflexivity|].
    apply passes_check. exists id. split; [now apply subscript_returns_iff; exists obj|].
    change TestData.VALID_USER_ID with 1. rewrite Heq1.
    apply passes_bind. exists tt. eexists. split; [reflexivity|].
    apply passes_check_unit. split.
    + now apply (string_field_not_empty_iff obj "name").
    + now apply (string_field_not_empty_iff obj "email").
Qed.

(** X20. [test_get_single_post], with the library's [validate], passes
    exactly when the call for [/posts/1] returns a response with status
    200 whose body decodes to an object that [POST_SCHEMA] accepts, with
    an [id] equal to 1. The time of the response is not looked at. *)
Theorem test_get_single_post_passes_iff (run : Run Net) :
  passes (TestPosts.test_get_single_post Net send jsonschema.validate json_of) run
  <-> exists (response : requests.Response) (obj : dict) (id : json),
        outcome_of_call Net send (Get "/posts/1" None) run = Return response
        /\ requests.status_code response = 200
        /\ json_of response = Return (JDict obj)
        /\ accepts TestData.POST_SCHEMA (JDict obj)
        /\ lookup "id" obj = Some id
        /\ py_eq id (JInt 1) = true.
Proof.
  open_test. rewrite passes_call. split.
  - intros [response [Hout H]].
    apply passes_check_unit in H. destruct H as [Hstatus H].
    apply passes_check in H. destruct H as [data [Hdata H]].
    apply passes_printing in H. destruct H as [valid [Hvalid H]].
    apply passes_check_unit in H. destruct H as [Hassert H].
    apply assert_passes_iff in Hassert. subst valid.
    apply passes_check in H. destruct H as [id [Hid H]].
    apply subscript_returns_iff in Hid. destruct Hid as [obj [-> Hlookup]].
    apply assert_passes_iff in H.
    exists response, obj, id. repeat split; try assumption.
    now apply validate_status_code_passes_iff.
  - intros (response & obj & id & Hout & Hstatus & Hdata & Hvalid & Hid & Heq1).
    exists response. split; [exact Hout|].
    apply passes_check_unit. split; [now apply validate_status_code_passes_iff|].
    apply passes_check. exists (JDict obj). split; [exact Hdata|].
    apply passes_printing. exists true. split; [exact Hvalid|].
    apply passes_check_unit. split; [reflexivity|].
    apply passes_check. exists id. split; [now apply subscript_returns_iff; exists obj|].
    apply assert_passes_iff. exact Heq1.
Qed.

End PassConditions.


Section ListTests.

Import APIClient.
Import conftest.

Variable Net : Type.
Variable send : Request -> Net -> result requests.Response * Net.
Variable json_of : requests.Response -> result json.

Lemma nonempty_iff {A : Type} (l : list A) :
  (0 <? Z.of_nat (List.length l)) = true <-> l <> [].
Proof.
  destruct l as [|x l]; cbn [List.length].
  - split; [discriminate | congruence].
  - split; [discriminate|]. intros _. apply Z.ltb_lt. lia.
Qed.

Lemma field_mentioned_iff (item : json) (field : string) :
  conftest.validate_field_exists item field = Return tt
  <-> mentions item field = true.
Proof.
  destruct item as [|b|n|x|s|l|d]; cbn [conftest.validate_field_exists mentions];
    try (split; discriminate).
  - destruct (str_contains s field); split; congruence || discriminate.
  - destruct (py_in (JStr field) l); split; congruence || discriminate.
  - apply assert_passes_iff.
Qed.

(** The loop over the items passes when each of them belongs. *)
Lemma each_belongs_passes_iff (key : string) (expected : Z)
    (message : json -> result string) (l : list json) :
  TestPosts.each_belongs key expected message l = Return tt
  <-> forallb (belongs_to key expected) l = true.
Proof.
  induction l as [|item l IH]; cbn [TestPosts.each_belongs forallb].
  - split; reflexivity.
  - unfold belongs_to at 1, subscript, getitem.
    destruct item as [|b|n|x|s|items|obj]; cbn [Py.bind andb];
      try (split; discriminate).
    destruct (lookup key obj) as [owner|]; cbn [Py.bind andb];
      [|split; discriminate].
    destruct (py_eq owner (JInt expected)); cbn [andb]; [exact IH|].
    destruct (message (JDict obj)); cbn [Py.bind]; split; discriminate.
Qed.

(** The items that belong are passed over. *)
Lemma each_belongs_skips (key : string) (expected : Z)
    (message : json -> result string) (good l : list json) :
  forallb (belongs_to key expected) good = true ->
  TestPosts.each_belongs key expected message (good ++ l)%list
  = TestPosts.each_belongs key expected message l.
Proof.
  induction good as [|item good IH]; cbn [forallb app]; [reflexivity|].
  intros H. apply andb_prop in H. destruct H as [Hitem Hgood].
  cbn [TestPosts.each_belongs]. unfold belongs_to in Hitem.
  destruct item as [|b|n|x|s|items|obj]; try discriminate Hitem.
  unfold subscript, getitem.
  destruct (lookup key obj) as [owner|]; [|discriminate Hitem].
  cbn [Py.bind]. rewrite Hitem. now apply IH.
Qed.

(** X21. [test_get_posts_by_user] passes exactly when the call for
    [/posts?userId=1] returns a response with status 200 whose body
    decodes to a list that is not empty and holds nothing but objects
    with a [userId] equal to 1. *)
Theorem test_get_posts_by_user_passes_iff (run : Run Net) :
  passes (TestPosts.test_get_posts_by_user Net send json_of) run
  <-> exists (response : requests.Response) (posts : list json),
        outcome_of_call Net send (Get "/posts?userId=1" None) run = Return response
        /\ requests.status_code response = 200
        /\ json_of response = Return (JList posts)
        /\ posts <> []
        /\ forallb (belongs_to "userId" 1) posts = true.
Proof.
  open_test. rewrite passes_call. split.
  - intros [response [Hout H]].
    apply passes_check_unit in H. destruct H as [Hstatus H].
    apply passes_check in H. destruct H as [data [Hdata H]].
    destruct data as [|b|n|x|s|posts|obj]; try discriminate H.
    apply passes_check_unit in H. destruct H as [Hlen H].
    apply assert_passes_iff, nonempty_iff in Hlen.
    apply passes_last_check, each_belongs_passes_iff in H.
    exists response, posts. repeat split; try assumption.
    now apply validate_status_code_passes_iff.
  - intros (response & posts & Hout & Hstatus & Hdata & Hlen & Hall).
    exists response. split; [exact Hout|].
    apply passes_check_unit. split; [now apply validate_status_code_passes_iff|].
    apply passes_check. exists (JList posts). split; [exact Hdata|].
    apply passes_check_unit. split; [now apply assert_passes_iff, nonempty_iff|].
    apply passes_last_check. now apply each_belongs_passes_iff.
Qed.

(** X22. [test_get_post_comments] passes exactly when the call for
    [/posts/1/comments] returns a response with status 200 whose body
    decodes to a list that is not empty, holds nothing but objects with
    a [postId] equal to 1, and whose first object has an [email] and a
    [body]; the emails and bodies of the other comments are not asked
    for. *)
Theorem test_get_post_comments_passes_iff (run : Run Net) :
  passes (TestPosts.test_get_post_comments Net send json_of) run
  <-> exists (response : requests.Response) (first : dict) (others : list json),
        outcome_of_call Net send (Get "/posts/1/comments" None) run = Return response
        /\ requests.status_code response = 200
        /\ json_of response = Return (JList (JDict first :: others))
        /\ contains_key "email" first = true
        /\ contains_key "body" first = true
        /\ forallb (belongs_to "postId" 1) (JDict first :: others) = true.
Proof.
  open_test. rewrite passes_call. split.
  - intros [response [Hout H]].
    apply passes_check_unit in H. destruct H as [Hstatus H].
    apply passes_check in H. destruct H as [data [Hdata H]].
    destruct data as [|b|n|x|s|comments|obj]; try discriminate H.
    apply passes_check_unit in H. destruct H as [_ H].
    destruct comments as [|first others]; [discriminate H|].
    apply passes_check_unit in H. destruct H as [_ H].
    apply passes_check_unit in H. destruct H as [Hemail H].
    apply passes_check_unit in H. destruct H as [Hbody H].
    apply passes_last_check, each_belongs_passes_iff in H.
    apply field_mentioned_iff in Hemail, Hbody.
    destruct first as [|b|n|x|s|items|first]; try discriminate H.
    exists response, first, others. repeat split; try assumption.
    now apply validate_status_code_passes_iff.
  - intros (response & first & others & Hout & Hstatus & Hdata & Hemail & Hbody & Hall).
    exists response. split; [exact Hout|].
    apply passes_check_unit. split; [now apply validate_status_code_passes_iff|].
    apply passes_check. exists (JList (JDict first :: others)). split; [exact Hdata|].
    apply passes_check_unit. split; [reflexivity|].
    apply passes_check_unit. split.
    { apply field_mentioned_iff. cbn [forallb] in Hall.
      apply andb_prop in Hall. destruct Hall as [Hfirst _].
      unfold belongs_to in Hfirst. cbn [mentions]. unfold contains_key.
      now destruct (lookup "postId" first). }
    apply passes_check_unit. split; [now apply field_mentioned_iff|].
    apply passes_check_unit. split; [now apply field_mentioned_iff|].
    apply passes_last_check. now apply each_belongs_passes_iff.
Qed.

(** X23. [test_get_posts_by_user] ends at the first post that does not
    belong to user 1, in the assertion only when that post is an object
    with both keys: a post without [userId] ends the test in a
    [KeyError] for it, a post of another user without [id] in a
    [KeyError] for [id], raised while the message of the assertion is
    built, and a post that is no object in a [TypeError]. The posts
    after it are not looked at. *)
Theorem test_get_posts_by_user_fails_at_first_foreign_post
    (run : Run Net) (response : requests.Response)
    (good others : list json) (post : json)
    (Hout : outcome_of_call Net send (Get "/posts?userId=1" None) run = Return response)
    (Hstatus : requests.status_code response = 200)
    (Hdata : json_of response = Return (JList (good ++ post :: others)))
    (Hgood : forallb (belongs_to "userId" 1) good = true)
    (Hpost : belongs_to "userId" 1 post = false) :
  fst (TestPosts.test_get_posts_by_user Net send json_of run)
  = Raise
      match post with
      | JDict obj =>
          match lookup "userId" obj, lookup "id" obj with
          | None, _ => KeyError "userId"
          | Some owner, None => KeyError "id"
          | Some owner, Some id =>
              AssertionError
                ("Post " ++ str id ++ " belongs to user " ++ str owner ++ ", not 1")
          end
      | _ => OtherException "TypeError"
      end.
Proof.
  open_test. rewrite bind_call, Hout.
  rewrite (proj2 (validate_status_code_passes_iff response 200) Hstatus),
    bind_check_return.
  rewrite Hdata, bind_check_return. cbv beta iota.
  rewrite (proj2 (assert_passes_iff _ _)), bind_check_return.
  2:{ apply nonempty_iff. now destruct good. }
  cbv beta. change (fst (check ?r ?x)) with r.
  rewrite each_belongs_skips by exact Hgood.
  cbn [TestPosts.each_belongs]. unfold belongs_to in Hpost.
  destruct post as [|b|n|x|s|items|obj]; try reflexivity.
  unfold subscript at 1, getitem at 1.
  destruct (lookup "userId" obj) as [owner|] eqn:Howner; [|reflexivity].
  cbn [Py.bind]. change TestData.VALID_USER_ID with 1. rewrite Hpost.
  unfold subscript, getitem. rewrite Howner.
  destruct (lookup "id" obj) as [id|]; reflexivity.
Qed.

(** X24. The two tests of a whole collection inspect its first item and
    no other: [test_get_all_users] passes exactly when the call for
    [/users] returns a response with status 200, within 3000 ms, with
    [application/json] in its content type, whose body decodes to a list
    with a first item in which [id], [name] and [email] are found;
    [test_get_all_posts] likewise for [/posts], without the content
    type, with [id], [userId], [title] and [body]. Being found in the
    item is Python's [in]: a key of an object, but also a part of a
    string. *)
Theorem collection_tests_inspect_first_item (run : Run Net) :
  (passes (TestUsersCRUD.test_get_all_users Net send json_of) run
   <-> exists (response : requests.Response) (first : json) (others : list json),
         outcome_of_call Net send (Get "/users" None) run = Return response
         /\ requests.status_code response = 200
         /\ ResponseValidator.validate_response_time response 3000 = Return tt
         /\ occurs_in "application/json" (content_type_of response)
         /\ json_of response = Return (JList (first :: others))
         /\ forallb (mentions first) ["id"; "name"; "email"] = true)
  /\ (passes (TestPosts.test_get_all_posts Net send json_of) run
      <-> exists (response : requests.Response) (first : json) (others : list json),
            outcome_of_call Net send (Get "/posts" None) run = Return response
            /\ requests.status_code response = 200
            /\ ResponseValidator.validate_response_time response 3000 = Return tt
            /\ json_of response = Return (JList (first :: others))
            /\ forallb (mentions first) ["id"; "userId"; "title"; "body"] = true).
Proof.
  split; open_test; rewrite passes_call; split.
  - intros [response [Hout H]].
    apply passes_check_unit in H. destruct H as [Hstatus H].
    apply passes_check_unit in H. destruct H as [Htime H].
    apply passes_check_unit in H. destruct H as [Htype H].
    apply passes_check in H. destruct H as [data [Hdata H]].
    destruct data as [|b|n|x|s|users|obj]; try discriminate H.
    apply passes_check_unit in H. destruct H as [_ H].
    destruct users as [|first others]; [discriminate H|].
    apply passes_check_unit in H. destruct H as [H1 H].
    apply passes_check_unit in H. destruct H as [H2 H3].
    apply passes_last_check in H3.
    apply field_mentioned_iff in H1, H2, H3.
    exists response, first, others. repeat split; try assumption.
    + now apply validate_status_code_passes_iff.
    + now apply validate_content_type_passes_iff.
    + cbn [forallb]. now rewrite H1, H2, H3.
  - intros (response & first & others & Hout & Hstatus & Htime & Htype & Hdata & Hall).
    cbn [forallb] in Hall. rewrite andb_true_r in Hall.
    apply andb_prop in Hall. destruct Hall as [H1 Hall].
    apply andb_prop in Hall. destruct Hall as [H2 H3].
    exists response. split; [exact Hout|].
    apply passes_check_unit. split; [now apply validate_status_code_passes_iff|].
    apply passes_check_unit. split; [exact Htime|].
    apply passes_check_unit. split; [now apply validate_content_type_passes_iff|].
    apply passes_check. exists (JList (first :: others)). split; [exact Hdata|].
    apply passes_check_unit. split; [reflexivity|].
    apply passes_check_unit. split; [now apply field_mentioned_iff|].
    apply passes_check_unit. split; [now apply field_mentioned_iff|].
    apply passes_last_check. now apply field_mentioned_iff.
  - intros [response [Hout H]].
    apply passes_check_unit in H. destruct H as [Hstatus H].
    apply passes_check_unit in H. destruct H as [Htime H].
    apply passes_check in H. destruct H as [data [Hdata H]].
    destruct data as [|b|n|x|s|posts|obj]; try discriminate H.
    apply passes_check_unit in H. destruct H as [_ H].
    destruct posts as [|first others]; [discriminate H|].
    apply passes_check_unit in H. destruct H as [H1 H].
    apply passes_check_unit in H. destruct H as [H2 H].
    apply passes_check_unit in H. destruct H as [H3 H4].
    apply passes_last_check in H4.
    apply field_mentioned_iff in H1, H2, H3, H4.
    exists response, first, others. repeat split; try assumption.
    + now apply validate_status_code_passes_iff.
    + cbn [forallb]. now rewrite H1, H2, H3, H4.
  - intros (response & first & others & Hout & Hstatus & Htime & Hdata & Hall).
    cbn [forallb] in Hall. rewrite andb_true_r in Hall.
    apply andb_prop in Hall. destruct Hall as [H1 Hall].
    apply andb_prop in Hall. destruct Hall as [H2 Hall].
    apply andb_prop in Hall. destruct Hall as [H3 H4].
    exists response. split; [exact Hout|].
    apply passes_check_unit. split; [now apply validate_status_code_passes_iff|].
    apply passes_check_unit. split; [exact Htime|].
    apply passes_check. exists (JList (first :: others)). split; [exact Hdata|].
    apply passes_check_unit. split; [reflexivity|].
    apply passes_check_unit. split; [now apply field_mentioned_iff|].
    apply passes_check_unit. split; [now apply field_mentioned_iff|].
    apply passes_check_unit. split; [now apply field_mentioned_iff|].
    apply passes_last_check. now apply field_mentioned_iff.
Qed.

End ListTests.


Section CreationTests.

Import APIClient.
Import conftest.

Variable Net : Type.
Variable send : Request -> Net -> result requests.Response * Net.
Variable json_of : requests.Response -> result json.

Lemma keeps_created_check {A : Type} (r : result A) : keeps_created Net (check r).
Proof. intros run. reflexivity. Qed.

Lemma keeps_created_call {A : Type} (m : APIClient.M Net A) :
  keeps_created Net (on_client m).
Proof. intros run. unfold on_client. now destruct (m (client run)). Qed.

Lemma records_on_pass_bind {A : Type} (t : T Net A) (k : A -> T Net unit) :
  keeps_created Net t -> (forall a : A, records_on_pass Net (k a)) ->
  records_on_pass Net (conftest.bind t k).
Proof.
  intros Ht Hk run Hfail. unfold conftest.bind in *. specialize (Ht run).
  destruct (t run) as [[a|e] run'].
  - rewrite Hk by exact Hfail. exact Ht.
  - exact Ht.
Qed.

Lemma records_on_pass_append (item : string * json) :
  records_on_pass Net (append_created item).
Proof. intros run Hfail. now elim Hfail. Qed.

Lemma py_eq_str_r (v : json) (s : string) : py_eq v (JStr s) = true -> v = JStr s.
Proof.
  destruct v as [|b|n|x|t|l|d]; try discriminate.
  cbn [py_eq]. intros H. apply String.eqb_eq in H. now subst.
Qed.

Lemma dict_field_exists (obj : dict) (key : string) (value : json) :
  lookup key obj = Some value ->
  ResponseValidator.validate_field_exists obj key = Return tt.
Proof.
  intros H. pose proof (validate_field_exists_cases obj key) as Hc.
  now rewrite H in Hc.
Qed.

Lemma dict_field_is_int (obj : dict) (key : string) (value : json) :
  lookup key obj = Some value ->
  (ResponseValidator.validate_field_type obj key t_int = Return tt
   <-> exists n : Z, value = JInt n).
Proof.
  intros H. pose proof (validate_field_type_cases obj key t_int) as Hc.
  rewrite H in Hc.
  destruct value as [|b|n|x|s|l|d]; cbn in Hc; rewrite Hc.
  all: split; [|reflexivity || (intros [m Hm]; discriminate Hm)].
  all: try discriminate.
  intros _. now exists n.
Qed.

(** What [test_create_user] leaves when the answer is as it wants. *)
Lemma test_create_user_run (run : Run Net) (response : requests.Response)
    (obj : dict) (n : Z) :
  user_created Net send json_of run response obj n ->
  TestUsersCRUD.test_create_user Net send json_of run
  = (Return tt,
     {| client :=
          client (after_call Net send
                    (Post "/users" (Some (JDict TestData.VALID_USER_CREATE))) run);
        stdout := stdout run;
        created_resources := (created_resources run ++ [("user", JInt n)])%list |}).
Proof.
  intros (Hout & Hstatus & Htime & Hdata & Hid & Hname & Hemail).
  open_test. rewrite bind_call, Hout.
  rewrite (proj2 (validate_status_code_passes_iff response 201) Hstatus),
    bind_check_return.
  change TestData.MAX_RESPONSE_TIME_POST with 3000.
  rewrite Htime, bind_check_return. rewrite Hdata, bind_check_return.
  cbn [conftest.validate_field_exists conftest.validate_field_type].
  rewrite (dict_field_exists obj "id" _ Hid), bind_check_return.
  rewrite (proj2 (dict_field_is_int obj "id" _ Hid)), bind_check_return
    by now exists n.
  unfold subscript. unfold getitem at 1. rewrite Hname, bind_check_return.
  change (getitem TestData.VALID_USER_CREATE "name") with (Return (JStr "John Doe")).
  rewrite bind_check_return.
  change (assert_equal (JStr "John Doe") (JStr "John Doe")) with (Return tt).
  rewrite bind_check_return.
  unfold getitem at 1. rewrite Hemail, bind_check_return.
  change (getitem TestData.VALID_USER_CREATE "email")
    with (Return (JStr "john.doe@example.com")).
  rewrite bind_check_return.
  change (assert_equal (JStr "john.doe@example.com") (JStr "john.doe@example.com"))
    with (Return tt).
  rewrite bind_check_return.
  unfold getitem. rewrite Hid, bind_check_return. reflexivity.
Qed.

(** X25. [test_create_user] passes exactly when the answer to its POST of
    [VALID_USER_CREATE] to [/users] has status 201, within 3000 ms, and
    a body that decodes to an object with an [int] under [id] (a bool or
    a float will not do) and the name and the email that were sent. When
    it passes, the pair of [user] and that id has been appended to the
    created resources; when it does not, the list is as it was. *)
Theorem test_create_user_records_the_id_when_it_passes (run : Run Net) :
  (passes (TestUsersCRUD.test_create_user Net send json_of) run
   <-> exists (response : requests.Response) (obj : dict) (n : Z),
         user_created Net send json_of run response obj n)
  /\ (forall (response : requests.Response) (obj : dict) (n : Z),
        user_created Net send json_of run response obj n ->
        created_resources (snd (TestUsersCRUD.test_create_user Net send json_of run))
        = (created_resources run ++ [("user", JInt n)])%list)
  /\ (~ passes (TestUsersCRUD.test_create_user Net send json_of) run ->
      created_resources (snd (TestUsersCRUD.test_create_user Net send json_of run))
      = created_resources run).
Proof.
  split; [split|split].
  - open_test. rewrite passes_call. intros [response [Hout H]].
    apply passes_check_unit in H. destruct H as [Hstatus H].
    apply passes_check_unit in H. destruct H as [Htime H].
    apply passes_check in H. destruct H as [data [Hdata H]].
    apply passes_check_unit in H. destruct H as [_ H].
    apply passes_check_unit in H. destruct H as [Htype H].
    apply passes_check in H. destruct H as [name [Hname H]].
    apply subscript_returns_iff in Hname. destruct Hname as [obj [-> Hname]].
    apply passes_check in H. destruct H as [expected_name [Hexp H]].
    injection Hexp as <-.
    apply passes_check_unit in H. destruct H as [Heq H].
    apply assert_passes_iff, py_eq_str_r in Heq. subst name.
    apply passes_check in H. destruct H as [email [Hemail H]].
    apply subscript_returns_iff in Hemail. destruct Hemail as [obj' [Hobj Hemail]].
    injection Hobj as <-.
    apply passes_check in H. destruct H as [expected_email [Hexp H]].
    injection Hexp as <-.
    apply passes_check_unit in H. destruct H as [Heq H].
    apply assert_passes_iff, py_eq_str_r in Heq. subst email.
    apply passes_check in H. destruct H as [id [Hid _]].
    apply subscript_returns_iff in Hid. destruct Hid as [obj' [Hobj Hid]].
    injection Hobj as <-.
    cbn [conftest.validate_field_type] in Htype.
    apply (dict_field_is_int obj "id" id Hid) in Htype. destruct Htype as [n ->].
    exists response, obj, n. repeat split; try assumption.
    now apply validate_status_code_passes_iff.
  - intros (response & obj & n & H). unfold passes.
    now rewrite (test_create_user_run run response obj n H).
  - intros response obj n H.
    now rewrite (test_create_user_run run response obj n H).
  - revert run. unfold passes. unfold TestUsersCRUD.test_create_user.
    repeat (apply records_on_pass_bind;
            [apply keeps_created_call || apply keeps_created_check | intros ?]).
    apply records_on_pass_append.
Qed.

(** What [test_create_post] leaves when the answer is as it wants. *)
Lemma test_create_post_run (run : Run Net) (response : requests.Response)
    (obj : dict) (id : json) :
  post_created Net send json_of run response obj id ->
  TestPosts.test_create_post Net send json_of run
  = (Return tt,
     {| client :=
          client (after_call Net send
                    (Post "/posts" (Some (JDict TestData.VALID_POST_CREATE))) run);
        stdout := stdout run;
        created_resources := (created_resources run ++ [("post", id)])%list |}).
Proof.
  intros (Hout & Hstatus & Htime & Hdata & Hid & Htitle & Hbody & owner & Howner & Heq).
  open_test. rewrite bind_call, Hout.
  rewrite (proj2 (validate_status_code_passes_iff response 201) Hstatus),
    bind_check_return.
  change TestData.MAX_RESPONSE_TIME_POST with 3000.
  rewrite Htime, bind_check_return. rewrite Hdata, bind_check_return.
  cbn [conftest.validate_field_exists].
  rewrite (dict_field_exists obj "id" _ Hid), bind_check_return.
  unfold subscript. unfold getitem at 1. rewrite Htitle, bind_check_return.
  change (getitem TestData.VALID_POST_CREATE "title")
    with (Return (JStr "Test Post Title")).
  rewrite bind_check_return.
  change (assert_equal (JStr "Test Post Title") (JStr "Test Post Title"))
    with (Return tt).
  rewrite bind_check_return.
  unfold getitem at 1. rewrite Hbody, bind_check_return.
  change (getitem TestData.VALID_POST_CREATE "body")
    with (Return (JStr "This is a test post body with some content.")).
  rewrite bind_check_return.
  change (assert_equal (JStr "This is a test post body with some content.")
            (JStr "This is a test post body with some content."))
    with (Return tt).
  rewrite bind_check_return.
  unfold getitem at 1. rewrite Howner, bind_check_return.
  change (getitem TestData.VALID_POST_CREATE "userId") with (Return (JInt 1)).
  rewrite bind_check_return.
  unfold assert_equal. rewrite Heq. cbn [assert]. rewrite bind_check_return.
  unfold getitem. rewrite Hid, bind_check_return. reflexivity.
Qed.

(** X26. [test_create_post] passes exactly when the answer to its POST of
    [VALID_POST_CREATE] to [/posts] has status 201, within 3000 ms, and
    a body that decodes to an object with an [id] of any kind, the title
    and the body that were sent, and a [userId] equal to 1. When it
    passes, the pair of [post] and that id has been appended to the
    created resources; when it does not, the list is as it was. *)
Theorem test_create_post_records_the_id_when_it_passes (run : Run Net) :
  (passes (TestPosts.test_create_post Net send json_of) run
   <-> exists (response : requests.Response) (obj : dict) (id : json),
         post_created Net send json_of run response obj id)
  /\ (forall (response : requests.Response) (obj : dict) (id : json),
        post_created Net send json_of run response obj id ->
        created_resources (snd (TestPosts.test_create_post Net send json_of run))
        = (created_resources run ++ [("post", id)])%list)
  /\ (~ passes (TestPosts.test_create_post Net send json_of) run ->
      created_resources (snd (TestPosts.test_create_post Net send json_of run))
      = created_resources run).
Proof.
  split; [split|split].
  - open_test. rewrite passes_call. intros [response [Hout H]].
    apply passes_check_unit in H. destruct H as [Hstatus H].
    apply passes_check_unit in H. destruct H as [Htime H].
    apply passes_check in H. destruct H as [data [Hdata H]].
    apply passes_check_unit in H. destruct H as [_ H].
    apply passes_check in H. destruct H as [title [Htitle H]].
    apply subscript_returns_iff in Htitle. destruct Htitle as [obj [-> Htitle]].
    apply passes_check in H. destruct H as [expected_title [Hexp H]].
    injection Hexp as <-.
    apply passes_check_unit in H. destruct H as [Heq H].
    apply assert_passes_iff, py_eq_str_r in Heq. subst title.
    apply passes_check in H. destruct H as [body [Hbody H]].
    apply subscript_returns_iff in Hbody. destruct Hbody as [obj' [Hobj Hbody]].
    injection Hobj as <-.
    apply passes_check in H. destruct H as [expected_body [Hexp H]].
    injection Hexp as <-.
    apply passes_check_unit in H. destruct H as [Heq H].
    apply assert_passes_iff, py_eq_str_r in Heq. subst body.
    apply passes_check in H. destruct H as [owner [Howner H]].
    apply subscript_returns_iff in Howner. destruct Howner as [obj' [Hobj Howner]].
    injection Hobj as <-.
    apply passes_check in H. destruct H as [expected_owner [Hexp H]].
    injection Hexp as <-.
    apply passes_check_unit in H. destruct H as [Heq H].
    apply assert_passes_iff in Heq.
    apply passes_check in H. destruct H as [id [Hid _]].
    apply subscript_returns_iff in Hid. destruct Hid as [obj' [Hobj Hid]].
    injection Hobj as <-.
    exists response, obj, id. repeat split; try assumption.
    + now apply validate_status_code_passes_iff.
    + now exists owner.
  - intros (response & obj & id & H). unfold passes.
    now rewrite (test_create_post_run run response obj id H).
  - intros response obj id H.
    now rewrite (test_create_post_run run response obj id H).
  - revert run. unfold passes. unfold TestPosts.test_create_post.
    repeat (apply records_on_pass_bind;
            [apply keeps_created_call || apply keeps_created_check | intros ?]).
    apply records_on_pass_append.
Qed.

(** X27. [test_update_user] passes exactly when the answer to its PUT of
    [VALID_USER_UPDATE] to [/users/1] has status 200 and a body that
    decodes to an object with the name that was sent; the username and
    the email that were sent with it are not compared. *)
Theorem test_update_user_passes_iff (run : Run Net) :
  passes (TestUsersCRUD.test_update_user Net send json_of) run
  <-> exists (response : requests.Response) (obj : dict),
        outcome_of_call Net send
          (Put "/users/1" (Some (JDict TestData.VALID_USER_UPDATE))) run
        = Return response
        /\ requests.status_code response = 200
        /\ json_of response = Return (JDict obj)
        /\ lookup "name" obj = Some (JStr "Jane Smith").
Proof.
  open_test. rewrite passes_call. split.
  - intros [response [Hout H]].
    apply passes_check_unit in H. destruct H as [Hstatus H].
    apply passes_check in H. destruct H as [data [Hdata H]].
    apply passes_check in H. destruct H as [name [Hname H]].
    apply subscript_returns_iff in Hname. destruct Hname as [obj [-> Hname]].
    apply passes_check in H. destruct H as [expected_name [Hexp H]].
    injection Hexp as <-.
    apply passes_last_check, assert_passes_iff, py_eq_str_r in H. subst name.
    exists response, obj. repeat split; try assumption.
    now apply validate_status_code_passes_iff.
  - intros (response & obj & Hout & Hstatus & Hdata & Hname).
    exists response. split; [exact Hout|].
    apply passes_check_unit. split; [now apply validate_status_code_passes_iff|].
    apply passes_check. exists (JDict obj). split; [exact Hdata|].
    apply passes_check. exists (JStr "Jane Smith").
    split; [now apply subscript_returns_iff; exists obj|].
    apply passes_check. exists (JStr "Jane Smith"). split; [reflexivity|].
    apply passes_last_check. reflexivity.
Qed.

End CreationTests.


(** The statements above that have a premise, each at an instance. *)
Lemma every_test_sends_one_request_at_delete_user :
  APIClient.trace
    (conftest.client (snd (TestUsersCRUD.test_delete_user unit dead_network fresh_run)))
  = (APIClient.trace (conftest.client fresh_run)
     ++ [APIClient.Sent
           (request_of (APIClient.self (conftest.client fresh_run))
              (APIClient.Delete "/users/1"))])%list
  /\ APIClient.url
       (request_of (APIClient.self (conftest.client fresh_run))
          (APIClient.Delete "/users/1"))
     = APIClient.base_url (APIClient.self (conftest.client fresh_run))
       ++ APIClient.endpoint_of (APIClient.Delete "/users/1")
  /\ APIClient.self
       (conftest.client (snd (TestUsersCRUD.test_delete_user unit dead_network fresh_run)))
     = APIClient.self (conftest.client fresh_run).
Proof.
  apply (every_test_sends_one_request unit dead_network jsonschema.validate
           (fun _ => Return JNull)
           (TestUsersCRUD.test_delete_user unit dead_network)
           (APIClient.Delete "/users/1") fresh_run).
  do 5 right. left. reflexivity.
Defined.

Lemma every_test_lets_a_timeout_through :
  fst (TestPosts.test_get_post_not_found unit dead_network fresh_run) = Raise Timeout
  /\ conftest.stdout (snd (TestPosts.test_get_post_not_found unit dead_network fresh_run))
     = conftest.stdout fresh_run
  /\ conftest.created_resources
       (snd (TestPosts.test_get_post_not_found unit dead_network fresh_run))
     = conftest.created_resources fresh_run.
Proof.
  apply (every_test_lets_transport_errors_through unit dead_network
           jsonschema.validate (fun _ => Return JNull)
           (TestPosts.test_get_post_not_found unit dead_network)
           (APIClient.Get "/posts/99999" None) fresh_run Timeout).
  - do 11 right. left. reflexivity.
  - reflexivity.
Defined.

Lemma test_get_posts_by_user_fails_at_a_post_without_id :
  fst (TestPosts.test_get_posts_by_user unit
         (answering (response_with_headers []))
         (fun _ =>
            Return (JList [JDict [("userId", JInt 1); ("id", JInt 1)];
                           JDict [("userId", JInt 2)];
                           JNull]))
         fresh_run)
  = Raise (KeyError "id").
Proof.
  apply (test_get_posts_by_user_fails_at_first_foreign_post unit
           (answering (response_with_headers []))
           (fun _ =>
              Return (JList [JDict [("userId", JInt 1); ("id", JInt 1)];
                             JDict [("userId", JInt 2)];
                             JNull]))
           fresh_run (response_with_headers [])
           [JDict [("userId", JInt 1); ("id", JInt 1)]] [JNull]
           (JDict [("userId", JInt 2)])).
  - reflexivity.
  - reflexivity.
  - reflexivity.
  - reflexivity.
  - reflexivity.
Defined.
